(** * caliban/cluster/cluster.py: accelerator-aware job provisioning

    A shallow embedding of the functions of [cluster.py] that decide the
    accelerator validation, the quota-to-limit mapping, the job-name
    sanitisation, the operation polling, the cluster deletion and the job
    submission, together with the properties they satisfy.

    Conventions of the embedding.
    - A Python call either returns a value, raises, or (for the polling
      loop, which has no bound in the source) exhausts the fuel given to
      the model: type [outcome].
    - Remote services are an explicit world [W] threaded through every
      call; what the program logs, prints and requests is recorded, in
      order, as a list of [Event]s.
    - A [str] is a [string] whose characters are the code points below
      256; [isalnum] and [lower] are the tables of [str.isalnum] and
      [str.lower] on that range. *)

From Stdlib Require Import ZArith String Ascii List Bool DecimalString Lia.
From Stdlib Require Import DecimalPos.
From stdpp Require Import base tactics option list strings gmap.

Local Open Scope Z_scope.

(* ===================================================================== *)
(** * Part I: the program *)
(* ===================================================================== *)

(** ** Python outcomes *)

(** The exceptions the modelled code can raise on its own. *)
Inductive exn : Type :=
| IndexError
| KeyError
| TypeError
| NameError (name : string)
| External (what : string).   (* raised inside a collaborator *)

Inductive outcome (A : Type) : Type :=
| Ret (a : A)
| Raise (e : exn)
| Diverge.

Arguments Ret {A} a.
Arguments Raise {A} e.
Arguments Diverge {A}.

(** ** Strings *)

Module PyStr.

Definition code (c : ascii) : N := N_of_ascii c.

Definition between (lo hi : N) (c : ascii) : bool :=
  ((lo <=? code c) && (code c <=? hi))%N.

(** [c.isupper()] for one character. *)
Definition isupper (c : ascii) : bool :=
  between 65 90 c || between 192 214 c || between 216 222 c.

(** [c.isalnum()] for one character. *)
Definition isalnum (c : ascii) : bool :=
  between 48 57 c || between 65 90 c || between 97 122 c
  || between 170 170 c || between 178 179 c || between 181 181 c
  || between 185 186 c || between 188 190 c
  || between 192 214 c || between 216 246 c || between 248 255 c.

Definition lower_char (c : ascii) : ascii :=
  if isupper c then ascii_of_N (code c + 32) else c.

Fixpoint map (f : ascii -> ascii) (s : string) : string :=
  match s with
  | EmptyString => EmptyString
  | String c s' => String (f c) (map f s')
  end.

Fixpoint forallb (p : ascii -> bool) (s : string) : bool :=
  match s with
  | EmptyString => true
  | String c s' => p c && forallb p s'
  end.

(** [s.lower()] *)
Definition lower (s : string) : string := map lower_char s.

(** [s[0]] *)
Definition first (s : string) : outcome ascii :=
  match s with
  | EmptyString => Raise IndexError
  | String c _ => Ret c
  end.

(** [s[-1]] *)
Fixpoint last (s : string) : outcome ascii :=
  match s with
  | EmptyString => Raise IndexError
  | String c EmptyString => Ret c
  | String _ s' => last s'
  end.

(** [str(n)] for an [int] [n]. *)
Definition of_int (n : Z) : string := NilZero.string_of_int (Z.to_int n).

End PyStr.

(** ** Dictionaries

    A [dict] keeps its keys in insertion order, and the order is what a
    [for] loop over it sees: an association list without repeated keys. *)

Module PyDict.

Section Dict.
Context {K V : Type} `{EqDecision K}.

Definition t : Type := list (K * V).

Fixpoint get (d : t) (k : K) : option V :=
  match d with
  | [] => None
  | (k', v) :: d' => if decide (k = k') then Some v else get d' k
  end.

(** [k in d] *)
Definition contains (d : t) (k : K) : bool :=
  match get d k with Some _ => true | None => false end.

(** [d[k]] *)
Definition getitem (d : t) (k : K) : outcome V :=
  match get d k with Some v => Ret v | None => Raise KeyError end.

(** [d[k] = v]: a known key keeps its place, a new one goes last. *)
Fixpoint set (k : K) (v : V) (d : t) : t :=
  match d with
  | [] => [(k, v)]
  | (k', v') :: d' =>
      if decide (k = k') then (k', v) :: d' else (k', v') :: set k v d'
  end.

(** [dict(pairs)] *)
Definition of_pairs (pairs : list (K * V)) : t :=
  fold_left (fun d kv => set kv.1 kv.2 d) pairs [].

(** The keys, as iterating over the dictionary yields them. *)
Definition keys (d : t) : list K := d.*1.

End Dict.

Arguments t : clear implicits.

End PyDict.

(** ** Regular expressions

    The fragment of [re] the module uses: literals, one named group
    [(?P<name>[class]+)], and the anchors [^] and [$], matched by
    [Pattern.match] (at the start of the string, greedy, backtracking). *)

Module Re.

Inductive item : Type :=
| Bos                                               (* ^ *)
| Lit (s : string)
| NamedPlus (name : string) (cls : ascii -> bool)   (* (?P<name>[cls]+) *)
| Eos.                                              (* $ *)

Definition groupdict : Type := PyDict.t string string.

Fixpoint strip_prefix (p s : string) : option string :=
  match p, s with
  | EmptyString, _ => Some s
  | String a p', String b s' =>
      if decide (a = b) then strip_prefix p' s' else None
  | String _ _, EmptyString => None
  end.

(** One more character of the class, as many as possible first; [k] goes
    on with what was taken and what is left. *)
Fixpoint plus_greedy {R : Type} (cls : ascii -> bool)
    (k : string -> string -> option R) (taken s : string) : option R :=
  match s with
  | String c s' =>
      if cls c then
        let taken' := taken +:+ String c EmptyString in
        match plus_greedy cls k taken' s' with
        | Some r => Some r
        | None => k taken' s'
        end
      else None
  | EmptyString => None
  end.

(** Without [re.MULTILINE], [$] holds at the end of the string and just
    before a newline that ends it. *)
Definition at_eos (s : string) : bool :=
  bool_decide (s = EmptyString) || bool_decide (s = String "010" EmptyString).

Fixpoint match_from (p : list item) (at_start : bool) (gd : groupdict)
    (s : string) : option groupdict :=
  match p with
  | [] => Some gd
  | Bos :: p' => if at_start then match_from p' at_start gd s else None
  | Lit l :: p' =>
      match strip_prefix l s with
      | Some s' =>
          match_from p' (at_start && bool_decide (l = EmptyString)) gd s'
      | None => None
      end
  | NamedPlus name cls :: p' =>
      plus_greedy cls
        (fun taken s' => match_from p' false (PyDict.set name taken gd) s')
        EmptyString s
  | Eos :: p' => if at_eos s then match_from p' at_start gd s else None
  end.

(** [p.match(s)], as the group dictionary of the match. *)
Definition match_ (p : list item) (s : string) : option groupdict :=
  match_from p true [] s.

End Re.

(** ** Data *)

(** A member of the enumerations [GPU] and [TPU] of [caliban.cloud.types],
    which this file imports: a member is identified by its name, as in
    [GPU[name]]. *)
Definition GPU : Type := string.
Definition TPU : Type := string.

(** The named tuples [GPUSpec(gpu, count)] and [TPUSpec(tpu, count)]. *)
Record GPUSpec : Type := mkGPUSpec { gpu : GPU; gpu_count : Z }.
Record TPUSpec : Type := mkTPUSpec { tpu : TPU; tpu_count : Z }.

#[global] Instance GPUSpec_eq_dec : EqDecision GPUSpec.
Proof. solve_decision. Defined.

#[global] Instance TPUSpec_eq_dec : EqDecision TPUSpec.
Proof. solve_decision. Defined.

(** [Accelerator = Union[GPU, TPU]] *)
Inductive Accelerator : Type :=
| AccelGPU (g : GPU)
| AccelTPU (t : TPU).

(** [conf.JobMode] *)
Inductive JobMode : Type := JobMode_CPU | JobMode_GPU.

(** A cluster operation as the container API reports it. *)
Record Operation : Type := mkOperation { op_name : string; status : string }.

(** One entry of a region's quota list.  The limit is an [int]. *)
Record Quota : Type := mkQuota { metric : string; limit : Z; usage : Z }.

(** One entry of the autoscaler's resource limits. *)
Record ResourceLimit : Type :=
  mkLimit { resourceType : string; maximum : string }.

(** What this module reads of a [V1Job]. *)
Record V1Job : Type := mkJob {
  md_name : string;
  md_namespace : string;
  container_args : list string
}.

(** ** Constants *)

Definition _MAX_GB_PER_CPU : Z := 64.
Definition _DEFAULT_GPU_SPEC : GPUSpec := mkGPUSpec "P100" 1.

(** ** What the program says and requests *)

(** The messages, by the text the source gives them, with the values
    their format strings insert. *)
Inductive Msg : Type :=
(* f'error getting operation {name}' *)
| error_getting_operation (name : string)
(* f'unsupported gpu type {gpu.name}. Supported types for {limit_type}:' *)
| unsupported_gpu_type (g : GPU) (limit_type : string)
(* print(g) *)
| gpu_line (g : GPU)
(* f'error: requested {gpu.name} gpu count {count} unsupported,
     {limit_type} max = {max}' *)
| gpu_count_unsupported (g : GPU) (count : Z) (limit_type : string) (max : Z)
(* 'error getting quota information' *)
| error_getting_quota
(* 'error: cannot specify both tpu and gpu' *)
| cannot_specify_both
(* 'error connecting to cluster' *)
| error_connecting
(* f'error deleting cluster {self.name}' *)
| error_deleting_cluster
(* f'successfully deleted cluster {self.name}' *)
| successfully_deleted_cluster
(* 'error getting valid tpu types for cluster' *)
| error_getting_tpu_types
(* 'invalid tpu spec, cluster supports:' *)
| invalid_tpu_spec
(* f'{t.tpu.name}x{t.count}' *)
| tpu_line (t : TPUSpec)
(* 'jobs that would be submitted:' *)
| jobs_that_would_be_submitted
(* f'{_job_str(j)}' *)
| job_line (j : V1Job)
(* f'error submitting job:\n {j}' *)
| error_submitting_job (j : V1Job)
(* f'submitted job:\n{md.name}: {args}\n{cluster.dashboard_url(sj)}' *)
| submitted_job (sj : V1Job) (url : option string).

(** The requests to the collaborators that a run records. *)
Inductive Request : Type :=
| req_sleep (sec : Z)
| req_operations_get (name : string)
| req_regions_get (project_id region : string)
| req_connect
| req_zone_gpu_types
| req_get_gpu_types
| req_get_tpu_types
| req_delete_cluster
| req_generate_image_tag
| req_submit_job (j : V1Job).

Inductive Event : Type :=
| LogError (m : Msg)      (* logging.error *)
| LogInfo (m : Msg)       (* logging.info *)
| Printed (m : Msg)       (* print *)
| Called (r : Request).

(** ** Names

    The names bound in the module's namespace once it is loaded (the
    attributes every module has, then its imports, constants, functions
    and classes in source order) and the names of the [builtins] module. *)

Definition module_names : list string :=
  ["__name__"; "__doc__"; "__package__"; "__loader__"; "__spec__";
   "__file__"; "__cached__"; "__builtins__"; "annotations"; "Optional"; "List"; "Tuple"; "Dict"; "Any"; "Union";
   "Enum"; "os"; "REMAINDER"; "ArgumentTypeError"; "re"; "sys"; "urllib3";
   "google"; "container_v1"; "GCPCluster"; "NodePool"; "compute_engine";
   "Credentials"; "service_account"; "googleapiclient"; "discovery";
   "kubernetes"; "V1Job"; "V1ObjectMeta"; "V1JobSpec"; "V1Pod";
   "V1Container"; "V1EnvVar"; "V1PodTemplateSpec";
   "V1ResourceRequirements"; "V1PodSpec"; "V1Toleration"; "V1DaemonSet";
   "logging"; "caliban"; "cli"; "u"; "conf"; "TPU"; "GPU"; "Accelerator";
   "parse_machine_type"; "MachineType"; "GPUSpec"; "TPUSpec";
   "parse_cmd_dict"; "invoke_command"; "generate_image_tag"; "pp"; "sleep";
   "requests"; "yaml"; "tqdm"; "_COMPUTE_SCOPE_URL";
   "_COMPUTE_READONLY_SCOPE_URL"; "_CLOUD_PLATFORM_SCOPE_URL";
   "_CLOUD_PLATFORM_CREDENTIALS_ENV"; "_KUBE_SYSTEM_NAMESPACE";
   "_DEFAULT_NAMESPACE"; "_BATCH_V1_VERSION";
   "_NODE_SELECTOR_GKE_ACCELERATOR"; "_NODE_SELECTOR_INSTANCE_TYPE";
   "_NODE_SELECTOR_PREEMPTIBLE"; "_CONTAINER_RESOURCE_LIMIT_TPU";
   "_CONTAINER_RESOURCE_LIMIT_GPU";
   "_TEMPLATE_META_ANNOTATION_TPU_TF_VERSION"; "_ZONE_DEFAULT";
   "_DEFAULT_MACHINE_TYPE_CPU"; "_DEFAULT_MACHINE_TYPE_GPU";
   "_DEFAULT_GPU_SPEC"; "_DASHBOARD_JOB_URL"; "_MAX_GB_PER_CPU";
   "_DEFAULT_CLUSTER_NAME"; "_NVIDIA_DRIVER_COS_DAEMONSET_URL";
   "_user_verify"; "_wait_for_operation";
   "_validate_gpu_spec_against_limits"; "_parse_zone"; "_parse_tpu_spec";
   "_get_zone_tpu_types"; "_get_zone_gpu_types"; "_get_region_quotas";
   "_generate_resource_limits"; "_job_str"; "_sanitize_job_name";
   "default_credentials"; "credentials_from_file"; "credentials_from_env";
   "_get_gcp_clusters"; "_get_gcp_cluster"; "connected"; "_k"; "Cluster";
   "_project_and_creds"; "_with_cluster"; "_cluster_create";
   "_cluster_delete"; "_cluster_ls"; "_node_pool_ls"; "_pod_ls"; "_job_ls";
   "_job_submit"; "run_cli_command"; "parser"; "_PROJECT_FLAG";
   "_CREDS_FILE_FLAG"; "_ZONE_FLAG"; "_ZONE_WILDCARD_FLAG";
   "_CLUSTER_NAME_FLAG"; "_NOGPU_FLAG"; "_CLOUD_KEY_FLAG"; "_EXTRAS_FLAG";
   "_DIR_FLAG"; "_IMAGE_TAG_FLAG"; "_MODULE_FLAG"; "_MACHINE_TYPE_FLAG";
   "_GPU_SPEC_FLAG"; "_TPU_SPEC_FLAG"; "_PREEMPTIBLE_TPU_FLAG";
   "_FORCE_FLAG"; "_JOB_NAME_FLAG"; "_EXPERIMENT_CONFIG_FLAG";
   "_LABEL_FLAG"; "_DRY_RUN_FLAG"; "_PASSTHROUGH_ARGS";
   "_PREEMPTIBLE_FLAG"; "_LS_FLAGS"; "_CLUSTER_LS_FLAGS"; "_JOB_LS_CMD";
   "_JOB_SUBMIT_CMD"; "_JOB_CMD_DICT"; "_POD_LS_CMD"; "_POD_CMD_DICT";
   "_NODE_POOL_LS_CMD"; "_NODE_POOL_CMD_DICT"; "_CLUSTER_LS_CMD";
   "_CLUSTER_CREATE_FLAGS"; "_CLUSTER_CREATE_CMD"; "_CLUSTER_DELETE_CMD";
   "_COMMAND_DICT"].

Definition builtin_names : list string :=
  ["ArithmeticError"; "AssertionError"; "AttributeError"; "BaseException";
   "BaseExceptionGroup"; "BlockingIOError"; "BrokenPipeError";
   "BufferError"; "BytesWarning"; "ChildProcessError";
   "ConnectionAbortedError"; "ConnectionError"; "ConnectionRefusedError";
   "ConnectionResetError"; "DeprecationWarning"; "EOFError"; "Ellipsis";
   "EncodingWarning"; "EnvironmentError"; "Exception"; "ExceptionGroup";
   "False"; "FileExistsError"; "FileNotFoundError"; "FloatingPointError";
   "FutureWarning"; "GeneratorExit"; "IOError"; "ImportError";
   "ImportWarning"; "IndentationError"; "IndexError"; "InterruptedError";
   "IsADirectoryError"; "KeyError"; "KeyboardInterrupt"; "LookupError";
   "MemoryError"; "ModuleNotFoundError"; "NameError"; "None";
   "NotADirectoryError"; "NotImplemented"; "NotImplementedError";
   "OSError"; "OverflowError"; "PendingDeprecationWarning";
   "PermissionError"; "ProcessLookupError"; "RecursionError";
   "ReferenceError"; "ResourceWarning"; "RuntimeError"; "RuntimeWarning";
   "StopAsyncIteration"; "StopIteration"; "SyntaxError"; "SyntaxWarning";
   "SystemError"; "SystemExit"; "TabError"; "TimeoutError"; "True";
   "TypeError"; "UnboundLocalError"; "UnicodeDecodeError";
   "UnicodeEncodeError"; "UnicodeError"; "UnicodeTranslateError";
   "UnicodeWarning"; "UserWarning"; "ValueError"; "Warning";
   "ZeroDivisionError"; "__build_class__"; "__debug__"; "__doc__";
   "__import__"; "__loader__"; "__name__"; "__package__"; "__spec__";
   "abs"; "aiter"; "all"; "anext"; "any"; "ascii"; "bin"; "bool";
   "breakpoint"; "bytearray"; "bytes"; "callable"; "chr"; "classmethod";
   "compile"; "complex"; "copyright"; "credits"; "delattr"; "dict"; "dir";
   "divmod"; "enumerate"; "eval"; "exec"; "exit"; "filter"; "float";
   "format"; "frozenset"; "getattr"; "globals"; "hasattr"; "hash"; "help";
   "hex"; "id"; "input"; "int"; "isinstance"; "issubclass"; "iter"; "len";
   "license"; "list"; "locals"; "map"; "max"; "memoryview"; "min"; "next";
   "object"; "oct"; "open"; "ord"; "pow"; "print"; "property"; "quit";
   "range"; "repr"; "reversed"; "round"; "set"; "setattr"; "slice";
   "sorted"; "staticmethod"; "str"; "sum"; "super"; "tuple"; "type";
   "vars"; "zip"].

(** What a name of [Cluster.delete] can hold. *)
Inductive value : Type :=
| VSelf
| VOperation (o : option Operation)
| VStr (s : string)
| VGlobal (x : string).

(** The local variables of a running function. *)
Definition frame : Type := PyDict.t string value.

(** ** Effects

    A computation runs in a world and yields its outcome, the world it
    leaves and the events it produced, oldest first.  Raising and running
    out of fuel stop the computation; the world and the events reached so
    far remain. *)

Section Effects.
Context {W : Type}.

Definition Py (A : Type) : Type := W -> outcome A * W * list Event.

Definition ret {A} (a : A) : Py A := fun w => (Ret a, w, []).

Definition bind {A B} (m : Py A) (k : A -> Py B) : Py B :=
  fun w =>
    match m w with
    | (Ret a, w1, ev1) =>
        match k a w1 with
        | (r, w2, ev2) => (r, w2, ev1 ++ ev2)
        end
    | (Raise e, w1, ev1) => (Raise e, w1, ev1)
    | (Diverge, w1, ev1) => (Diverge, w1, ev1)
    end.

(** An outcome that needs no world. *)
Definition lift {A} (o : outcome A) : Py A := fun w => (o, w, []).

Definition emit (e : Event) : Py unit := fun w => (Ret tt, w, [e]).

(** A request to a collaborator: the request is recorded, the
    collaborator answers and moves the world. *)
Definition request {A} (r : Request) (f : W -> outcome A * W) : Py A :=
  fun w => match f w with (o, w') => (o, w', [Called r]) end.

(** A call to a helper that this model does not record. *)
Definition call {A} (f : W -> outcome A * W) : Py A :=
  fun w => match f w with (o, w') => (o, w', []) end.

(** A [for] loop whose body may [return]: [Some b] leaves the loop (and
    the function) with [b], [None] goes on with the next element. *)
Fixpoint for_return {A B} (l : list A) (body : A -> Py (option B))
    : Py (option B) :=
  match l with
  | [] => ret None
  | x :: l' =>
      bind (body x) (fun r =>
        match r with
        | Some b => ret (Some b)
        | None => for_return l' body
        end)
  end.

(** A [for] loop that updates an accumulator. *)
Fixpoint for_acc {A S} (l : list A) (body : S -> A -> Py S) (acc : S)
    : Py S :=
  match l with
  | [] => ret acc
  | x :: l' => bind (body acc x) (for_acc l' body)
  end.

End Effects.

Arguments Py : clear implicits.

#[global] Instance Py_ret {W} : MRet (Py W) := fun A => ret.
#[global] Instance Py_bind {W} : MBind (Py W) := fun A B k m => bind m k.

#[global] Instance outcome_ret : MRet outcome := fun A => Ret.
#[global] Instance outcome_bind : MBind outcome :=
  fun A B k m =>
    match m with
    | Ret a => k a
    | Raise e => Raise e
    | Diverge => Diverge
    end.

(** ** Collaborators

    What this module calls and does not define: the clock, the [Cluster]
    object's connection, the cloud and Kubernetes clients, and the helper
    modules [conf], [cli] and [u].  Each call answers and moves the world.
    [PyObj] stands for the values this module only passes along. *)

Class Backend (W PyObj : Type) : Type := {
  (* time.sleep(sec) *)
  time_sleep : Z -> W -> W;
  (* self.name, self.zone *)
  cluster_name : W -> string;
  cluster_zone : W -> string;
  (* self.connected, self.connect() *)
  cluster_connected : W -> bool;
  cluster_connect : W -> outcome bool * W;
  (* compute_api.regions().get(project=..., region=...).execute() *)
  regions_get : string -> string -> W -> outcome (option (list Quota)) * W;
  (* _get_zone_gpu_types(self.project_id, self.zone, compute_api) *)
  zone_gpu_types : W -> outcome (option (list GPUSpec)) * W;
  (* the body of Cluster.get_gpu_types *)
  cluster_gpu_types : W -> outcome (option (list GPUSpec)) * W;
  (* the body of Cluster.get_tpu_types *)
  cluster_tpu_types : W -> outcome (option (list TPUSpec)) * W;
  (* self._cluster_client.delete_cluster(...) *)
  delete_cluster : W -> outcome (option Operation) * W;
  (* self._cluster_client as the client of _wait_for_operation *)
  cluster_client_operation : string -> W -> outcome (option Operation) * W;
  (* x[key] for an object x bound at module level or built in *)
  global_getitem : string -> string -> W -> outcome string * W;
  (* Cluster.submit_job(j) *)
  submit_job : V1Job -> W -> outcome (option V1Job) * W;
  (* Cluster.dashboard_url(sj) *)
  dashboard_url : V1Job -> W -> outcome (option string) * W;
  (* conf.extract_script_args, cli.resolve_job_mode, cli.generate_docker_args *)
  extract_script_args : PyObj -> W -> outcome PyObj * W;
  resolve_job_mode : PyObj -> W -> outcome JobMode * W;
  generate_docker_args : JobMode -> PyObj -> W -> outcome PyObj * W;
  (* u.current_user() *)
  current_user : W -> outcome string * W;
  (* generate_image_tag(cluster.project_id, docker_args=..., dry_run=...) *)
  generate_image_tag :
    JobMode -> PyObj -> PyObj -> bool -> W -> outcome string * W;
  (* conf.DEFAULT_MACHINE_TYPE[job_mode], parse_machine_type(s) *)
  default_machine_type : JobMode -> W -> outcome PyObj * W;
  parse_machine_type : PyObj -> W -> outcome PyObj * W;
  (* conf.expand_experiment_config(config or [{}]) *)
  expand_experiment_config : option PyObj -> W -> outcome PyObj * W;
  (* dict(u.sanitize_labels(label)) *)
  sanitize_labels : PyObj -> W -> outcome PyObj * W;
  (* the jobs Cluster.create_simple_experiment_jobs(...) yields; building
     them touches nothing once the cluster is connected, so the list
     stands for the generator *)
  create_simple_experiment_jobs :
    string -> string -> PyObj -> PyObj -> option Accelerator -> Z ->
    PyObj -> bool -> option PyObj -> option bool ->
    W -> outcome (list V1Job) * W
}.

(** ** [_sanitize_job_name] *)

(** The inner [valid(x)]: [x.isalnum() or x in ['-', '.']]. *)
Definition valid (x : ascii) : bool :=
  PyStr.isalnum x || bool_decide (x ∈ ["-"%char; "."%char]).

(** [x if valid(x) else '-'] *)
Definition keep_or_dash (x : ascii) : ascii :=
  if valid x then x else "-"%char.

Definition _sanitize_job_name (name : string) : outcome string :=
  let name := PyStr.lower name in
  c0 ← PyStr.first name;
  let name := if negb (PyStr.isalnum c0) then "job-" +:+ name else name in
  cl ← PyStr.last name;
  let name := if negb (PyStr.isalnum cl) then name +:+ "-0" else name in
  Ret (PyStr.map keep_or_dash name).

(** The sanitisation as the documentation words it: lower-case the name,
    put [job-] in front when its first character is not alphanumeric,
    [-0] behind when its last character is not, and replace every other
    invalid character by [-]. *)
Definition starts_alnum (s : string) : bool :=
  match PyStr.first s with Ret c => PyStr.isalnum c | _ => false end.

Definition ends_alnum (s : string) : bool :=
  match PyStr.last s with Ret c => PyStr.isalnum c | _ => false end.

Definition sanitized_by_rule (name : string) : string :=
  let l := PyStr.lower name in
  let prefix := if starts_alnum l then EmptyString else "job-" in
  let suffix := if ends_alnum l then EmptyString else "-0" in
  PyStr.map keep_or_dash (prefix +:+ l +:+ suffix).

(** A DNS-1123 token in the sense of the docstring: not empty, no
    upper-case character, alphanumeric at both ends, and made of
    alphanumerics, [-] and [.] only. *)
Definition dns_1123 (s : string) : bool :=
  negb (bool_decide (s = EmptyString))
  && PyStr.forallb (fun c => negb (PyStr.isupper c)) s
  && starts_alnum s && ends_alnum s
  && PyStr.forallb valid s.

(** ** [_generate_resource_limits] *)

(** The character class [[A-Z0-9]]. *)
Definition upper_or_digit (c : ascii) : bool :=
  PyStr.between 65 90 c || PyStr.between 48 57 c.

(** [re.compile('^NVIDIA_(?P<gpu>[A-Z0-9]+)_GPUS$')] *)
Definition gpu_re : list Re.item :=
  [Re.Bos; Re.Lit "NVIDIA_"; Re.NamedPlus "gpu" upper_or_digit;
   Re.Lit "_GPUS"; Re.Eos].

(** The body of the loop over the quotas: what one quota appends. *)
Definition quota_step (limits : list ResourceLimit) (q : Quota)
    : outcome (list ResourceLimit) :=
  let metric := q.(metric) in
  let limit := q.(limit) in
  if decide (metric = "CPUS") then
    let limits := limits ++ [mkLimit "cpu" (PyStr.of_int limit)] in
    let limits :=
      limits ++ [mkLimit "memory" (PyStr.of_int (limit * _MAX_GB_PER_CPU))] in
    Ret limits
  else
    match Re.match_ gpu_re metric with
    | None => Ret limits
    | Some gd =>
        gpu_type ← PyDict.getitem gd "gpu";
        Ret (limits ++
             [mkLimit ("nvidia-tesla-" +:+ PyStr.lower gpu_type)
                      (PyStr.of_int limit)])
    end.

Section Program.
Context {W PyObj : Type} `{!Backend W PyObj}.

Definition _get_region_quotas (project_id region : string)
    : Py W (option (list Quota)) :=
  rsp ← request (req_regions_get project_id region)
                (regions_get project_id region);
  match rsp with
  | None => emit (LogError error_getting_quota);; mret None
  | Some quotas => mret (Some quotas)
  end.

Definition _generate_resource_limits (project_id region : string)
    : Py W (option (list ResourceLimit)) :=
  quotas ← _get_region_quotas project_id region;
  match quotas with
  | None => mret None
  | Some quotas =>
      limits ← for_acc quotas (fun limits q => lift (quota_step limits q)) [];
      mret (Some limits)
  end.

(** ** [_wait_for_operation] *)

Definition default_conditions : list string := ["DONE"; "ABORTING"].
Definition default_sleep_sec : Z := 1.

(** [sleep(sleep_sec)] *)
Definition sleep (sec : Z) : Py W unit :=
  request (req_sleep sec) (fun w => (Ret tt, time_sleep sec w)).

(** The [while True] loop runs at most [fuel] times in the model; the
    source puts no bound on it. *)
Fixpoint _wait_for_operation (fuel : nat)
    (client : string -> W -> outcome (option Operation) * W)
    (name : string) (conditions : list string) (sleep_sec : Z)
    : Py W (option Operation) :=
  match fuel with
  | O => lift Diverge
  | S fuel' =>
      rsp ← request (req_operations_get name) (client name);
      match rsp with
      | None => emit (LogError (error_getting_operation name));; mret None
      | Some r =>
          if bool_decide (r.(status) ∈ conditions) then mret (Some r)
          else
            sleep sleep_sec;;
            _wait_for_operation fuel' client name conditions sleep_sec
      end
  end.

(** ** [_validate_gpu_spec_against_limits] *)

Definition _validate_gpu_spec_against_limits (gpu_spec : GPUSpec)
    (gpu_limits : PyDict.t GPU Z) (limit_type : string) : Py W bool :=
  returned ←
    (if negb (PyDict.contains gpu_limits gpu_spec.(gpu)) then
       emit (LogError (unsupported_gpu_type gpu_spec.(gpu) limit_type));;
       for_return (PyDict.keys gpu_limits)
         (fun g => emit (Printed (gpu_line g));; mret (Some false))
     else mret None);
  match returned with
  | Some b => mret b
  | None =>
      max ← lift (PyDict.getitem gpu_limits gpu_spec.(gpu));
      if bool_decide (gpu_spec.(gpu_count) > max) then
        emit (LogError (gpu_count_unsupported
                          gpu_spec.(gpu) gpu_spec.(gpu_count) limit_type max));;
        mret false
      else mret true
  end.

(** ** The [Cluster] methods *)

(** The decorator [connected(error_value)]. *)
Definition connected {A} (error_value : A) (fn : Py W A) : Py W A :=
  is_connected ← call (fun w => (Ret (cluster_connected w), w));
  if negb is_connected then
    ok ← request req_connect cluster_connect;
    if negb ok then
      emit (LogError error_connecting);; mret error_value
    else fn
  else fn.

Definition convert_accel_spec (gpu_spec : option GPUSpec)
    (tpu_spec : option TPUSpec) : Py W (option (option Accelerator * Z)) :=
  match gpu_spec, tpu_spec with
  | Some _, Some _ => emit (LogError cannot_specify_both);; mret None
  | Some g, None => mret (Some (Some (AccelGPU g.(gpu)), g.(gpu_count)))
  | None, Some t => mret (Some (Some (AccelTPU t.(tpu)), t.(tpu_count)))
  | None, None => mret (Some (None, 1))
  end.

Definition get_tpu_types : Py W (option (list TPUSpec)) :=
  connected None (request req_get_tpu_types cluster_tpu_types).

Definition get_gpu_types : Py W (option (list GPUSpec)) :=
  connected None (request req_get_gpu_types cluster_gpu_types).

Definition validate_gpu_spec (gpu_spec : option GPUSpec) : Py W bool :=
  match gpu_spec with
  | None => mret true
  | Some gpu_spec =>
      (* validate against zone instance limits *)
      zone_gpus ← request req_zone_gpu_types zone_gpu_types;
      match zone_gpus with
      | None => mret false
      | Some zone_gpus =>
          let gpu_limits :=
            PyDict.of_pairs ((fun x => (x.(gpu), x.(gpu_count))) <$> zone_gpus) in
          ok ← _validate_gpu_spec_against_limits gpu_spec gpu_limits "zone";
          if negb ok then mret false
          else
            (* validate against cluster limits *)
            available_gpu ← get_gpu_types;
            match available_gpu with
            | None => mret false
            | Some available_gpu =>
                let gpu_limits :=
                  PyDict.of_pairs
                    ((fun x => (x.(gpu), x.(gpu_count))) <$> available_gpu) in
                ok ← _validate_gpu_spec_against_limits
                       gpu_spec gpu_limits "cluster";
                if negb ok then mret false else mret true
            end
      end
  end.

(** Reading the name [x]: a local variable if the frame has it, else what
    the module or [builtins] binds to it, else a [NameError]. *)
Definition load_name (f : frame) (x : string) : Py W value :=
  match PyDict.get f x with
  | Some v => mret v
  | None =>
      if bool_decide (x ∈ module_names ++ builtin_names) then mret (VGlobal x)
      else lift (Raise (NameError x))
  end.

(** [v['status']] *)
Definition getitem_status (v : value) : Py W string :=
  match v with
  | VOperation (Some o) => mret o.(status)
  | VOperation None => lift (Raise TypeError)
  | VStr _ => lift (Raise TypeError)
  | VSelf => lift (Raise TypeError)
  | VGlobal x => call (global_getitem x "status")
  end.

Definition delete (fuel : nat) : Py W (option bool) :=
  connected (Some false) (
    let locals : frame := [("self", VSelf)] in
    op ← request req_delete_cluster delete_cluster;
    let locals := PyDict.set "op" (VOperation op) locals in
    match op with
    | None => emit (LogError error_deleting_cluster);; mret None
    | Some o =>
        let op_name := o.(op_name) in
        let locals := PyDict.set "op_name" (VStr op_name) locals in
        self_name ← call (fun w => (Ret (cluster_name w), w));
        self_zone ← call (fun w => (Ret (cluster_zone w), w));
        op ← _wait_for_operation fuel cluster_client_operation
               ("projects/" +:+ self_name +:+ "/locations/" +:+ self_zone
                +:+ "/operations/" +:+ op_name)
               default_conditions default_sleep_sec;
        let locals := PyDict.set "op" (VOperation op) locals in
        rsp ← load_name locals "rsp";
        rsp_status ← getitem_status rsp;
        if bool_decide (rsp_status ≠ "DONE") then
          emit (LogError error_deleting_cluster);; mret None
        else
          emit (Printed successfully_deleted_cluster);; mret None
    end).

(** ** [_job_submit] *)

(** The argument dictionary: the entries [_job_submit] reads itself, and
    the dictionary as the helpers receive it. *)
Record Args : Type := mkArgs {
  arg_dict : PyObj;
  arg_dry_run : bool;                       (* args['dry_run'] *)
  arg_module : PyObj;                       (* args['module'] *)
  arg_name : option string;                 (* args.get('name') *)
  arg_gpu_spec : option GPUSpec;            (* args.get('gpu_spec') *)
  arg_preemptible : bool;                   (* args['preemptible'] *)
  arg_tpu_spec : option TPUSpec;            (* args.get('tpu_spec') *)
  arg_preemptible_tpu : option bool;        (* args.get('preemptible_tpu') *)
  arg_image_tag : option string;            (* args.get('image_tag') *)
  arg_machine_type : option PyObj;          (* args.get('machine_type') *)
  arg_experiment_config : option PyObj;     (* args.get('experiment_config') *)
  arg_label : option PyObj                  (* args.get('label') *)
}.

(** [x or d] for an optional string [x]: [None] and [''] are false. *)
Definition or_else (x : option string) (d : Py W string) : Py W string :=
  match x with
  | Some s => if bool_decide (s = EmptyString) then d else mret s
  | None => d
  end.

(** The loop [for j in jobs] that submits. *)
Definition submit_step (submitted : list V1Job) (j : V1Job)
    : Py W (list V1Job) :=
  sj ← request (req_submit_job j) (submit_job j);
  match sj with
  | None => emit (LogError (error_submitting_job j));; mret submitted
  | Some sj =>
      let submitted := submitted ++ [sj] in
      url ← call (dashboard_url sj);
      emit (LogInfo (submitted_job sj url));;
      mret submitted
  end.

(** The TPU check of [_job_submit]: [true] when the function goes on,
    [false] when it returns. *)
Definition validate_tpu_spec (tpu_spec : option TPUSpec) : Py W bool :=
  match tpu_spec with
  | Some tpu_spec =>
      available_tpu ← get_tpu_types;
      match available_tpu with
      | None => emit (LogError error_getting_tpu_types);; mret false
      | Some available_tpu =>
          if negb (bool_decide (tpu_spec ∈ available_tpu)) then
            emit (LogError invalid_tpu_spec);;
            for_acc available_tpu (fun _ t => emit (Printed (tpu_line t))) tt;;
            mret false
          else mret true
      end
  | None => mret true
  end.

Definition _job_submit (args : Args) : Py W (option (list V1Job)) :=
  script_args ← call (extract_script_args args.(arg_dict));
  job_mode ← call (resolve_job_mode args.(arg_dict));
  docker_args ← call (generate_docker_args job_mode args.(arg_dict));
  let dry_run := args.(arg_dry_run) in
  job_name ← or_else args.(arg_name)
               (user ← call current_user; mret ("caliban_" +:+ user));
  let gpu_spec := args.(arg_gpu_spec) in
  let preemptible := args.(arg_preemptible) in
  (* validate gpu spec *)
  let gpu_spec :=
    match job_mode, gpu_spec with
    | JobMode_GPU, None => Some _DEFAULT_GPU_SPEC
    | _, _ => gpu_spec
    end in
  gpu_ok ← validate_gpu_spec gpu_spec;
  if negb gpu_ok then mret None
  else
    (* validate tpu spec *)
    let tpu_spec := args.(arg_tpu_spec) in
    let preemptible_tpu := args.(arg_preemptible_tpu) in
    tpu_ok ← validate_tpu_spec tpu_spec;
    if negb tpu_ok then mret None
    else
      image_tag ← or_else args.(arg_image_tag)
                    (request req_generate_image_tag
                       (generate_image_tag job_mode args.(arg_module)
                          docker_args dry_run));
      machine_type ←
        match args.(arg_machine_type) with
        | None => call (default_machine_type job_mode)
        | Some m => call (parse_machine_type m)
        end;
      experiments ←
        call (expand_experiment_config args.(arg_experiment_config));
      labels ←
        match args.(arg_label) with
        | Some l => l' ← call (sanitize_labels l); mret (Some l')
        | None => mret None
        end;
      (* convert accelerator spec *)
      accel_spec ← convert_accel_spec gpu_spec tpu_spec;
      match accel_spec with
      | None => mret None
      | Some (accel, accel_count) =>
          (* create V1 jobs *)
          name ← lift (_sanitize_job_name job_name);
          jobs ← call (create_simple_experiment_jobs
                         name image_tag experiments script_args
                         accel accel_count machine_type preemptible
                         labels preemptible_tpu);
          if dry_run then
            emit (Printed jobs_that_would_be_submitted);;
            for_acc jobs (fun _ j => emit (Printed (job_line j))) tt;;
            mret None
          else
            submitted ← for_acc jobs submit_step [];
            mret (Some submitted)
      end.

End Program.

(** ** Vocabulary of the properties *)

(** The three components of a run. *)
Definition result {W A} (r : outcome A * W * list Event) : outcome A := r.1.1.
Definition final {W A} (r : outcome A * W * list Event) : W := r.1.2.
Definition events {W A} (r : outcome A * W * list Event) : list Event := r.2.

(** The kind a quota metric names, if it is a GPU metric. *)
Definition gpu_kind_of_metric (metric : string) : option string :=
  gd ← Re.match_ gpu_re metric; PyDict.get gd "gpu".


(** What is left after a run of the class: nothing, or something that
    begins outside the class. *)
Definition stops (cls : ascii -> bool) (rest : string) : Prop :=
  match rest with
  | EmptyString => True
  | String c _ => cls c = false
  end.

(** A GPU specification fits a limits dictionary: its kind is a key and
    its count is at most the maximum recorded for it. *)
Definition within_limits (gpu_spec : GPUSpec) (gpu_limits : PyDict.t GPU Z)
    : Prop :=
  exists max,
    PyDict.get gpu_limits gpu_spec.(gpu) = Some max
    /\ gpu_spec.(gpu_count) <= max.

(** The limits dictionary [validate_gpu_spec] builds from a list. *)
Definition limits_dict (gpus : list GPUSpec) : PyDict.t GPU Z :=
  PyDict.of_pairs ((fun x => (x.(gpu), x.(gpu_count))) <$> gpus).

(** The events of a list that are requests to submit a job, errors about
    a job, and notices of a submitted job. *)
Definition attempted (evs : list Event) : list V1Job :=
  omap (fun e => match e with Called (req_submit_job j) => Some j | _ => None end)
       evs.


Definition fetches (evs : list Event) : list string :=
  omap (fun e =>
          match e with Called (req_operations_get n) => Some n | _ => None end)
       evs.



Section Runs.
Context {W PyObj : Type} `{!Backend W PyObj}.

(** [k] polls of an operation that is not yet in a terminal state, each
    followed by a sleep, lead from one world to another. *)
Inductive pending (client : string -> W -> outcome (option Operation) * W)
    (name : string) (conditions : list string) (sleep_sec : Z)
    : nat -> W -> W -> Prop :=
| pending_O w : pending client name conditions sleep_sec 0 w w
| pending_S k w r w1 w' :
    client name w = (Ret (Some r), w1) ->
    r.(status) ∉ conditions ->
    pending client name conditions sleep_sec k (time_sleep sleep_sec w1) w' ->
    pending client name conditions sleep_sec (S k) w w'.

(** The events of [k] such polls. *)
Definition pending_events (name : string) (sleep_sec : Z) (k : nat)
    : list Event :=
  mjoin (replicate k [Called (req_operations_get name); Called (req_sleep sleep_sec)]).


End Runs.

(** ** A scripted backend

    A stand-in for the services, for running the program on examples:
    every service answers from a script. *)

Record Mock : Type := mkMock {
  mock_connected : bool;
  mock_quotas : option (list Quota);
  mock_zone_gpus : option (list GPUSpec);
  mock_cluster_gpus : option (list GPUSpec);
  mock_tpus : option (list TPUSpec);
  mock_delete : option Operation;
  (* the answers of the operations API, one per request *)
  mock_operations : list (option Operation);
  (* whether the next submissions succeed, one per request *)
  mock_submit : list bool;
  mock_job_mode : JobMode;
  mock_jobs : list V1Job;
  mock_slept : Z
}.

Definition mock_next_operation (w : Mock) : outcome (option Operation) * Mock :=
  match w.(mock_operations) with
  | [] => (Raise (External "StopIteration"), w)
  | r :: rest =>
      (Ret r,
       mkMock w.(mock_connected) w.(mock_quotas) w.(mock_zone_gpus)
         w.(mock_cluster_gpus) w.(mock_tpus) w.(mock_delete) rest
         w.(mock_submit) w.(mock_job_mode) w.(mock_jobs) w.(mock_slept))
  end.

Definition mock_next_submit (j : V1Job) (w : Mock)
    : outcome (option V1Job) * Mock :=
  match w.(mock_submit) with
  | [] => (Ret (Some j), w)
  | ok :: rest =>
      (Ret (if ok then Some j else None),
       mkMock w.(mock_connected) w.(mock_quotas) w.(mock_zone_gpus)
         w.(mock_cluster_gpus) w.(mock_tpus) w.(mock_delete)
         w.(mock_operations) rest w.(mock_job_mode) w.(mock_jobs)
         w.(mock_slept))
  end.

Definition mock_sleep (sec : Z) (w : Mock) : Mock :=
  mkMock w.(mock_connected) w.(mock_quotas) w.(mock_zone_gpus)
    w.(mock_cluster_gpus) w.(mock_tpus) w.(mock_delete) w.(mock_operations)
    w.(mock_submit) w.(mock_job_mode) w.(mock_jobs) (w.(mock_slept) + sec).

#[global] Instance mock_backend : Backend Mock unit := {|
  time_sleep := mock_sleep;
  cluster_name := fun _ => "blueshift";
  cluster_zone := fun _ => "us-central1-a";
  cluster_connected := mock_connected;
  cluster_connect := fun w => (Ret w.(mock_connected), w);
  regions_get := fun _ _ w => (Ret w.(mock_quotas), w);
  zone_gpu_types := fun w => (Ret w.(mock_zone_gpus), w);
  cluster_gpu_types := fun w => (Ret w.(mock_cluster_gpus), w);
  cluster_tpu_types := fun w => (Ret w.(mock_tpus), w);
  delete_cluster := fun w => (Ret w.(mock_delete), w);
  cluster_client_operation := fun _ => mock_next_operation;
  global_getitem := fun _ _ w => (Raise TypeError, w);
  submit_job := mock_next_submit;
  dashboard_url := fun sj w =>
    (Ret (Some ("https://pantheon.corp.google.com/kubernetes/job"
                +:+ "/us-central1-a/blueshift/"
                +:+ sj.(md_namespace) +:+ "/" +:+ sj.(md_name))), w);
  extract_script_args := fun _ w => (Ret tt, w);
  resolve_job_mode := fun _ w => (Ret w.(mock_job_mode), w);
  generate_docker_args := fun _ _ w => (Ret tt, w);
  current_user := fun w => (Ret "user", w);
  generate_image_tag := fun _ _ _ _ w => (Ret "gcr.io/project/image:latest", w);
  default_machine_type := fun _ w => (Ret tt, w);
  parse_machine_type := fun _ w => (Ret tt, w);
  expand_experiment_config := fun _ w => (Ret tt, w);
  sanitize_labels := fun _ w => (Ret tt, w);
  create_simple_experiment_jobs := fun _ _ _ _ _ _ _ _ _ _ w =>
    (Ret w.(mock_jobs), w)
|}.


(** An operation that is reported pending twice, then done. *)
Definition op_pending : Operation := mkOperation "operation-1" "PENDING".
Definition op_done : Operation := mkOperation "operation-1" "DONE".

Definition mock_polling : Mock :=
  mkMock true None None None None None
    [Some op_pending; Some op_pending; Some op_done] [] JobMode_CPU [] 0.

Definition mock_polled : Mock :=
  mkMock true None None None None None [] [] JobMode_CPU [] 2.

(** Three jobs of one experiment sweep, and a cluster that refuses the
    second submission it gets. *)
Definition job1 : V1Job := mkJob "sweep" "default" ["--lr"; "0.1"].
Definition job2 : V1Job := mkJob "sweep" "default" ["--lr"; "0.2"].
Definition job3 : V1Job := mkJob "sweep" "default" ["--lr"; "0.3"].

Definition mock_partial : Mock :=
  mkMock true None None None None None [] [true; false; true]
    JobMode_CPU [job1; job2; job3] 0.


(** A cluster whose backend supports two TPU configurations, and a
    request for a third one, smaller than both. *)
Definition mock_tpu : Mock :=
  mkMock true None None None
    (Some [mkTPUSpec "V2" 8; mkTPUSpec "V3" 8]) None [] []
    JobMode_CPU [job1] 0.

Definition args_tpu (t : TPUSpec) : Args (PyObj := unit) :=
  mkArgs tt false tt (Some "sweep") None false (Some t) None None None None
    None.

(** A cluster whose deletion is accepted and is reported done at the
    second poll. *)
Definition mock_deleting : Mock :=
  mkMock true None None None None
    (Some (mkOperation "operation-1" "RUNNING"))
    [Some op_pending; Some op_done] [] JobMode_CPU [] 0.

Definition mock_deleted : Mock :=
  mkMock true None None None None
    (Some (mkOperation "operation-1" "RUNNING")) [] [] JobMode_CPU [] 1.

(** A zone that allows one P100 per instance, in a cluster that allows
    eight. *)
Definition mock_p100 : Mock :=
  mkMock true None
    (Some [mkGPUSpec "K80" 8; mkGPUSpec "P100" 1])
    (Some [mkGPUSpec "P100" 8])
    None None [] [] JobMode_GPU [] 0.

(* ===================================================================== *)
(** * Part I, continued: the rest of the module *)
(* ===================================================================== *)

(** ** More of [str] and [int] *)

(** Exception classes of [builtins] and [argparse] that the functions below
    raise, named by their class. *)
Definition ValueError : exn := External "ValueError".
Definition ArgumentTypeError : exn := External "ArgumentTypeError".

Module PyText.

Definition is_digit (c : ascii) : bool := PyStr.between 48 57 c.

(** The characters [int] skips around a number. *)
Definition is_int_space (c : ascii) : bool :=
  PyStr.between 9 13 c || PyStr.between 32 32 c
  || PyStr.between 133 133 c || PyStr.between 160 160 c.

Fixpoint lstrip (s : string) : string :=
  match s with
  | String c s' => if is_int_space c then lstrip s' else s
  | EmptyString => EmptyString
  end.

Fixpoint rstrip (s : string) : string :=
  match s with
  | EmptyString => EmptyString
  | String c s' =>
      match rstrip s' with
      | EmptyString => if is_int_space c then EmptyString else String c EmptyString
      | r => String c r
      end
  end.

(** The digits of [digit (_? digit)*], without the underscores; [None]
    when the string is not of that form. *)
Fixpoint grouped_digits (s : string) (after_digit : bool) : option string :=
  match s with
  | EmptyString => if after_digit then Some EmptyString else None
  | String c s' =>
      if is_digit c then String c <$> grouped_digits s' true
      else if bool_decide (c = "_"%char) && after_digit
           then grouped_digits s' false
           else None
  end.

Definition unsigned (s : string) : option Z :=
  digits ← grouped_digits s false;
  d ← NilEmpty.uint_of_string digits;
  Some (Z.of_uint d).

(** [int(s)] for a [str] [s]; [None] stands for [ValueError]. *)
Definition to_int (s : string) : option Z :=
  match rstrip (lstrip s) with
  | String "-" r => Z.opp <$> unsigned r
  | String "+" r => unsigned r
  | r => unsigned r
  end.

(** [s.upper()], on the strings the module applies it to: matches of
    [[a-z0-9]+] and of [v2|v3], where it turns [a]-[z] into [A]-[Z] and
    keeps the digits. *)
Definition upper_char (c : ascii) : ascii :=
  if PyStr.between 97 122 c then ascii_of_N (PyStr.code c - 32) else c.

Definition upper (s : string) : string := PyStr.map upper_char s.

(** [s.replace(a, b)] for single characters [a] and [b]. *)
Definition replace_char (a b : ascii) (s : string) : string :=
  PyStr.map (fun c => if bool_decide (c = a) then b else c) s.

End PyText.

(** ** Regular expressions with several groups

    The other patterns of the module have several named groups, groups
    that hold more than one item, and alternatives.  A pattern is the list
    of its items, a group being what stands between its [Open] and its
    [Close]; matching is the one of [Re]: from the start of the string,
    greedy, alternatives in order, backtracking. *)

Module Rx.

Inductive item : Type :=
| Bos                              (* ^ *)
| Eos                              (* $ *)
| Lit (s : string)
| Plus (cls : ascii -> bool)       (* [cls]+ *)
| Alt (alts : list string)         (* (a|b|...) *)
| Open (name : string)             (* (?P<name> *)
| Close.                           (* ) *)

(** The text matched so far by each group that is open. *)
Definition opened : Type := list (string * string).

Definition record (text : string) (o : opened) : opened :=
  (fun g => (g.1, g.2 +:+ text)) <$> o.

Fixpoint first_match {A R : Type} (f : A -> option R) (l : list A)
    : option R :=
  match l with
  | [] => None
  | x :: l' =>
      match f x with
      | Some r => Some r
      | None => first_match f l'
      end
  end.

Fixpoint match_from (p : list item) (at_start : bool) (gd : Re.groupdict)
    (o : opened) (s : string) : option Re.groupdict :=
  match p with
  | [] => Some gd
  | Bos :: p' => if at_start then match_from p' at_start gd o s else None
  | Eos :: p' => if Re.at_eos s then match_from p' at_start gd o s else None
  | Lit l :: p' =>
      match Re.strip_prefix l s with
      | Some s' =>
          match_from p' (at_start && bool_decide (l = EmptyString)) gd
            (record l o) s'
      | None => None
      end
  | Plus cls :: p' =>
      Re.plus_greedy cls
        (fun taken s' => match_from p' false gd (record taken o) s')
        EmptyString s
  | Alt alts :: p' =>
      first_match
        (fun l =>
           match Re.strip_prefix l s with
           | Some s' =>
               match_from p' (at_start && bool_decide (l = EmptyString)) gd
                 (record l o) s'
           | None => None
           end)
        alts
  | Open name :: p' => match_from p' at_start gd ((name, EmptyString) :: o) s
  | Close :: p' =>
      match o with
      | (name, text) :: o' => match_from p' at_start (PyDict.set name text gd) o' s
      | [] => None
      end
  end.

(** [p.match(s)], as the group dictionary of the match. *)
Definition match_ (p : list item) (s : string) : option Re.groupdict :=
  match_from p true [] [] s.

End Rx.

(** ** [_parse_zone] *)

(** The character classes [[a-z0-9]] and [[a-z]]. *)
Definition lower_or_digit (c : ascii) : bool :=
  PyStr.between 97 122 c || PyStr.between 48 57 c.

Definition lower_letter (c : ascii) : bool := PyStr.between 97 122 c.

(** [re.compile('^(?P<region>[a-z0-9]+-[a-z0-9]+)-(?P<zone>[a-z]+)$')] *)
Definition zone_re : list Rx.item :=
  [Rx.Bos;
   Rx.Open "region"; Rx.Plus lower_or_digit; Rx.Lit "-";
   Rx.Plus lower_or_digit; Rx.Close;
   Rx.Lit "-";
   Rx.Open "zone"; Rx.Plus lower_letter; Rx.Close;
   Rx.Eos].

Definition _parse_zone (zone : option string)
    : outcome (option (string * string)) :=
  match zone with
  | None => Ret None
  | Some zone =>
      match Rx.match_ zone_re zone with
      | None => Ret None
      | Some gd =>
          region ← PyDict.getitem gd "region";
          z ← PyDict.getitem gd "zone";
          Ret (Some (region, z))
      end
  end.

(** ** [_parse_tpu_spec] *)

(** [TPU[name]]: the members are [V2] and [V3], the names the patterns of
    this module let through. *)
Definition TPU_by_name (name : string) : outcome TPU :=
  if bool_decide (name ∈ ["V2"; "V3"]) then Ret name else Raise KeyError.

(** [int(s)] *)
Definition int_of_str (s : string) : outcome Z :=
  match PyText.to_int s with
  | Some n => Ret n
  | None => Raise ValueError
  end.

(** [re.compile('^(?P<count>[0-9]+)x(?P<tpu>(V2|V3))$')] *)
Definition tpu_spec_re : list Rx.item :=
  [Rx.Bos; Rx.Open "count"; Rx.Plus PyText.is_digit; Rx.Close; Rx.Lit "x";
   Rx.Open "tpu"; Rx.Alt ["V2"; "V3"]; Rx.Close; Rx.Eos].

Definition _parse_tpu_spec (spec : string) : outcome TPUSpec :=
  match Rx.match_ tpu_spec_re spec with
  | None => Raise ArgumentTypeError
  | Some gd =>
      tpu_name ← PyDict.getitem gd "tpu";
      t ← TPU_by_name tpu_name;
      count_text ← PyDict.getitem gd "count";
      count ← int_of_str count_text;
      Ret (mkTPUSpec t count)
  end.

(** The line [_job_submit] prints for a supported TPU type:
    [f'{t.tpu.name}x{t.count}']. *)
Definition tpu_line_text (t : TPUSpec) : string :=
  t.(tpu) +:+ "x" +:+ PyStr.of_int t.(tpu_count).

(** ** [_get_zone_tpu_types], [_get_zone_gpu_types], [Cluster.get_gpu_types]

    Each of the three asks a service and turns the answer into a list of
    specifications.  The answer is the argument [rsp] here ([None] when
    the service gives none); beside its outcome a function yields the
    errors it logs. *)

(** A [for] loop that updates an accumulator and may raise. *)
Fixpoint for_each {A S : Type} (l : list A) (body : S -> A -> outcome S)
    (acc : S) : outcome S :=
  match l with
  | [] => Ret acc
  | x :: l' => acc' ← body acc x; for_each l' body acc'
  end.

(** [re.compile('^(?P<tpu>(v2|v3))-(?P<count>[0-9]+)$')] *)
Definition tpu_re : list Rx.item :=
  [Rx.Bos; Rx.Open "tpu"; Rx.Alt ["v2"; "v3"]; Rx.Close; Rx.Lit "-";
   Rx.Open "count"; Rx.Plus PyText.is_digit; Rx.Close; Rx.Eos].

(** The body of the loop over [rsp['acceleratorTypes']]; [type_] is
    [t['type']]. *)
Definition zone_tpu_step (tpus : list TPUSpec) (type_ : string)
    : outcome (list TPUSpec) :=
  match Rx.match_ tpu_re type_ with
  | None => Ret tpus
  | Some gd =>
      tpu_name ← PyDict.getitem gd "tpu";
      t ← TPU_by_name (PyText.upper tpu_name);
      count_text ← PyDict.getitem gd "count";
      count ← int_of_str count_text;
      Ret (tpus ++ [mkTPUSpec t count])
  end.

(** The answer of the TPU service: the value of its key
    [acceleratorTypes], if it has the key, as the list of the [type]s. *)
Definition _get_zone_tpu_types (rsp : option (option (list string)))
    : outcome (option (list TPUSpec)) * list string :=
  match rsp with
  | None => (Ret None, ["error getting tpu types"])
  | Some rsp =>
      (accelerator_types ←
         match rsp with Some l => Ret l | None => Raise KeyError end;
       tpus ← for_each accelerator_types zone_tpu_step [];
       Ret (Some tpus), [])
  end.

(** [GPU[name]], for an enumeration with the given member names. *)
Definition GPU_by_name (GPU_members : list string) (name : string)
    : outcome GPU :=
  if bool_decide (name ∈ GPU_members) then Ret name else Raise KeyError.

(** [re.compile('^nvidia-tesla-(?P<type>[a-z0-9]+)$')] *)
Definition gpu_type_re : list Re.item :=
  [Re.Bos; Re.Lit "nvidia-tesla-"; Re.NamedPlus "type" lower_or_digit; Re.Eos].

(** One accelerator type of a zone, as the compute service lists it. *)
Record ZoneAccelerator : Type :=
  mkZoneAccelerator { accel_name : string; maximumCardsPerInstance : Z }.

Definition zone_gpu_step (GPU_members : list string) (gpus : list GPUSpec)
    (x : ZoneAccelerator) : outcome (list GPUSpec) :=
  match Re.match_ gpu_type_re x.(accel_name) with
  | None => Ret gpus
  | Some gd =>
      type_ ← PyDict.getitem gd "type";
      g ← GPU_by_name GPU_members (PyText.upper type_);
      Ret (gpus ++ [mkGPUSpec g x.(maximumCardsPerInstance)])
  end.

(** The answer of the compute service: the value of its key [items], if
    it has the key. *)
Definition _get_zone_gpu_types (GPU_members : list string)
    (rsp : option (option (list ZoneAccelerator)))
    : outcome (option (list GPUSpec)) * list string :=
  match rsp with
  | None => (Ret None, ["error getting accelerator types"])
  | Some rsp =>
      (items ← match rsp with Some l => Ret l | None => Raise KeyError end;
       gpus ← for_each items (zone_gpu_step GPU_members) [];
       Ret (Some gpus), [])
  end.

(** What [Cluster.get_gpu_types] reads of the cluster's description: the
    key [autoscaling] and, in it, the key [resourceLimits]. *)
Record ClusterInfo : Type :=
  mkClusterInfo { autoscaling : option (option (list ResourceLimit)) }.

Definition cluster_gpu_step (GPU_members : list string) (gpus : list GPUSpec)
    (x : ResourceLimit) : outcome (list GPUSpec) :=
  match Re.match_ gpu_type_re x.(resourceType) with
  | None => Ret gpus
  | Some gd =>
      type_ ← PyDict.getitem gd "type";
      g ← GPU_by_name GPU_members (PyText.upper type_);
      maximum ← int_of_str x.(maximum);
      Ret (gpus ++ [mkGPUSpec g maximum])
  end.

(** The body of [Cluster.get_gpu_types], from the answer of the container
    service on. *)
Definition get_gpu_types_body (GPU_members : list string)
    (rsp : option ClusterInfo)
    : outcome (option (list GPUSpec)) * list string :=
  match rsp with
  | None => (Ret None, ["error getting cluster info"])
  | Some rsp =>
      match rsp.(autoscaling) with
      | None => (Ret None, [])
      | Some None => (Ret None, [])
      | Some (Some limits) =>
          (gpus ← for_each limits (cluster_gpu_step GPU_members) [];
           Ret (Some gpus), [])
      end
  end.

(** The specification one entry of the TPU service stands for, if it is
    a TPU type. *)
Definition tpu_of_type (type_ : string) : option TPUSpec :=
  match zone_tpu_step [] type_ with
  | Ret [t] => Some t
  | _ => None
  end.


(** The kind an accelerator name or a resource type names, if it is an
    NVIDIA Tesla GPU. *)
Definition gpu_kind_of_type (name : string) : option string :=
  gd ← Re.match_ gpu_type_re name; PyDict.get gd "type".

(** The GPU specification an accelerator type of a zone stands for. *)
Definition gpu_spec_of_accelerator (x : ZoneAccelerator) : option GPUSpec :=
  kind ← gpu_kind_of_type x.(accel_name);
  Some (mkGPUSpec (PyText.upper kind) x.(maximumCardsPerInstance)).

(** An accelerator name is no GPU type, or it names a member of [GPU]. *)
Definition known_gpu_type (GPU_members : list string) (name : string) : bool :=
  match gpu_kind_of_type name with
  | Some kind => bool_decide (PyText.upper kind ∈ GPU_members)
  | None => true
  end.

(** ** More vocabulary *)

(** An event is not a request to submit a job. *)
Definition not_a_submission (e : Event) : Prop :=
  match e with
  | Called (req_submit_job _) => False
  | _ => True
  end.

(** Every event of every run of a computation satisfies [P]. *)
Definition always {W A} (P : Event -> Prop) (m : Py W A) : Prop :=
  forall w, Forall P (events (m w)).

(** Every value a computation returns satisfies [Q]. *)
Definition returns {W A} (Q : A -> Prop) (m : Py W A) : Prop :=
  forall w a, result (m w) = Ret a -> Q a.

(** The job mode a run of [_job_submit] resolves: the answer of
    [cli.resolve_job_mode(args)], which the function asks for right after
    [conf.extract_script_args(args)]. *)
Definition resolved_job_mode {W PyObj} `{!Backend W PyObj} (args : Args)
    (w : W) : outcome JobMode :=
  result ((call (extract_script_args args.(arg_dict));;
           call (resolve_job_mode args.(arg_dict))) w).

(** ** [_user_verify]

    The terminal: [stdin] is the list of lines still to be read, each
    without its newline, as [input] returns them; reading past the last
    line raises [EOFError].  What the function writes is recorded in
    order. *)

Definition EOFError : exn := External "EOFError".

Inductive Written : Type :=
| Prompt (text : string)       (* the prompt of input(...) *)
| PrintLine (text : string).   (* print(...) *)

Definition choice_str (default : bool) : string :=
  if default then "[Yn]]" else "[yN]".

(** [f'\n {msg} {choice_str}: '] *)
Definition verify_prompt (msg : string) (default : bool) : string :=
  String "010"%char (" " +:+ msg +:+ " " +:+ choice_str default +:+ ": ").

(** The loop [while True] reads one line each time round, so it is
    structural in the lines to be read. *)
Fixpoint _user_verify (msg : string) (default : bool) (stdin : list string)
    : outcome bool * list string * list Written :=
  match stdin with
  | [] => (Raise EOFError, [], [Prompt (verify_prompt msg default)])
  | line :: stdin' =>
      let ok := PyStr.lower line in
      if bool_decide (String.length ok = 0%nat) then
        (Ret default, stdin', [Prompt (verify_prompt msg default)])
      else if negb (bool_decide (ok ∈ ["y"; "n"])) then
        match _user_verify msg default stdin' with
        | (r, unread, out) =>
            (r, unread,
             Prompt (verify_prompt msg default)
             :: PrintLine "please enter y or n" :: out)
        end
      else
        (Ret (bool_decide (ok = "y")), stdin',
         [Prompt (verify_prompt msg default)])
  end.

(** The answers that end the loop, and the decision each stands for. *)
Definition answers : list string := [""; "y"; "Y"; "n"; "N"].

Definition decision (default : bool) (answer : string) : bool :=
  if bool_decide (answer = "") then default
  else bool_decide (answer = "y" \/ answer = "Y").

(** ** Finding the cluster

    [_k], [_get_gcp_clusters], [_get_gcp_cluster] and the methods of
    [Cluster] that settle which cluster the object stands for.  They log
    and they ask the cluster service once; the lines they log are recorded
    with their text. *)

Inductive LogLine : Type :=
| ErrorLine (text : string)    (* logging.error(text) *)
| InfoLine (text : string).    (* logging.info(text) *)

Definition Log (A : Type) : Type := (outcome A * list LogLine)%type.

Definition log_lift {A} (o : outcome A) : Log A := (o, []).

Definition log_line (l : LogLine) : Log unit := (Ret tt, [l]).

#[global] Instance Log_ret : MRet Log := fun A a => (Ret a, []).
#[global] Instance Log_bind : MBind Log :=
  fun A B k m =>
    match m with
    | (Ret a, l1) => match k a with (r, l2) => (r, l1 ++ l2) end
    | (Raise e, l1) => (Raise e, l1)
    | (Diverge, l1) => (Diverge, l1)
    end.

(** A [for] loop that only logs. *)
Fixpoint log_for {A} (l : list A) (body : A -> Log unit) : Log unit :=
  match l with
  | [] => mret tt
  | x :: l' => body x;; log_for l' body
  end.

(** The classes [except Exception] does not catch. *)
Definition is_Exception (e : exn) : bool :=
  match e with
  | External what =>
      negb (bool_decide
              (what ∈ ["BaseException"; "KeyboardInterrupt"; "SystemExit";
                       "GeneratorExit"]))
  | _ => true
  end.

(** The cluster as the service describes it; the fields this module
    reads. *)
Record GCPCluster : Type :=
  mkGCPCluster { gcp_name : string; gcp_zone : string; gcp_endpoint : string }.

(** The [Cluster] object: the attributes these methods read and write. *)
Record Self : Type := mkSelf {
  self_name : option string;
  self_zone : string;
  self_gcp_cluster : option GCPCluster;
  self_connected : bool
}.

Section Finding.

(** [str(e)] for an exception of a collaborator. *)
Variable describe : exn -> string.

(** [_k(error_value)(fn)(...)]; [fn] is what the call does. *)
Definition _k {A} (error_value : A) (fn : outcome A) : Log A :=
  match fn with
  | Raise e =>
      if is_Exception e then
        log_line (ErrorLine ("error in api call:"
                             +:+ String "010"%char (describe e)));;
        mret error_value
      else log_lift (Raise e)
  | _ => log_lift fn
  end.

(** [list_clusters] is what [client.list_clusters(...)] does; when it
    answers, the [clusters] of its response. *)
Definition _get_gcp_clusters (list_clusters : outcome (list GCPCluster))
    : Log (option (list GCPCluster)) :=
  response ← _k None (clusters ← list_clusters; Ret (Some clusters));
  mret response.

Definition _get_gcp_cluster (list_clusters : outcome (list GCPCluster))
    (name : string) : Log (option GCPCluster) :=
  cluster_list ← _get_gcp_clusters list_clusters;
  match cluster_list with
  | None => mret None
  | Some cluster_list =>
      let cluster_dict :=
        PyDict.of_pairs ((fun c => (c.(gcp_name), c)) <$> cluster_list) in
      if negb (PyDict.contains cluster_dict name) then
        log_line (ErrorLine ("cluster " +:+ name +:+ " not found"));;
        mret None
      else
        c ← log_lift (PyDict.getitem cluster_dict name);
        mret (Some c)
  end.

(** [Cluster._set_gcp_cluster]; [new_client] is what
    [container_v1.ClusterManagerClient(credentials=...)] does, whose value
    the method compares with [None].  The result is the returned value
    and the object after the call. *)
Definition _set_gcp_cluster (new_client : outcome (option unit))
    (list_clusters : outcome (list GCPCluster)) (self : Self)
    : Log (bool * Self) :=
  match self.(self_gcp_cluster) with
  | Some _ => mret (true, self)
  | None =>
      client ← log_lift new_client;
      match client with
      | None =>
          log_line (ErrorLine "error getting cluster management client");;
          mret (false, self)
      | Some _ =>
          cluster_list ← _get_gcp_clusters list_clusters;
          match cluster_list with
          | None => mret (false, self)
          | Some cluster_list =>
              if bool_decide (length cluster_list < 1)%nat then
                mret (false, self)
              else
                match self.(self_name) with
                | None =>
                    if bool_decide (1 < length cluster_list)%nat then
                      log_line
                        (ErrorLine "multiple clusters found, please specify:");;
                      log_for cluster_list
                        (fun c => log_line (InfoLine c.(gcp_name)));;
                      mret (false, self)
                    else
                      c ← log_lift
                            match cluster_list with
                            | c :: _ => Ret c
                            | [] => Raise IndexError
                            end;
                      mret (true,
                            mkSelf self.(self_name) self.(self_zone) (Some c)
                              self.(self_connected))
                | Some name =>
                    let cluster_dict :=
                      PyDict.of_pairs
                        ((fun c => (c.(gcp_name), c)) <$> cluster_list) in
                    if negb (PyDict.contains cluster_dict name) then
                      log_line
                        (ErrorLine ("cluster " +:+ name +:+ " not found"));;
                      mret (false, self)
                    else
                      c ← log_lift (PyDict.getitem cluster_dict name);
                      mret (true,
                            mkSelf self.(self_name) self.(self_zone) (Some c)
                              self.(self_connected))
                end
          end
      end
  end.

(** [Cluster.connect]; [api_setup] is what the lines do that build the
    configuration and the API clients of [kubernetes.client], and
    [list_pods] what the connection test
    [self._core_api.list_pod_for_all_namespaces(watch=False)] does, with
    the truth value of its answer. *)
Definition connect (new_client : outcome (option unit))
    (list_clusters : outcome (list GCPCluster)) (api_setup : outcome unit)
    (list_pods : outcome bool) (self : Self) : Log (bool * Self) :=
  let self :=
    mkSelf self.(self_name) self.(self_zone) self.(self_gcp_cluster) false in
  '(found, self) ← _set_gcp_cluster new_client list_clusters self;
  if negb found then mret (false, self)
  else
    match self.(self_gcp_cluster) with
    | None => log_lift (Raise (External "AttributeError"))
    | Some c =>
        let self :=
          mkSelf (Some c.(gcp_name)) c.(gcp_zone) self.(self_gcp_cluster)
            self.(self_connected) in
        log_lift api_setup;;
        ok ← _k false list_pods;
        mret (ok,
              mkSelf self.(self_name) self.(self_zone)
                self.(self_gcp_cluster) ok)
    end.

(** [Cluster.get]: a fresh object, connected, or [None]. *)
Definition get (new_client : outcome (option unit))
    (list_clusters : outcome (list GCPCluster)) (api_setup : outcome unit)
    (list_pods : outcome bool) (name : option string) (zone : string)
    : Log (option Self) :=
  let cluster := mkSelf name zone None false in
  '(ok, cluster) ←
    connect new_client list_clusters api_setup list_pods cluster;
  mret (if (ok : bool) then Some cluster else None).

End Finding.

(** The last cluster of a list that has the given name. *)
Definition last_named (name : string) (clusters : list GCPCluster)
    : option GCPCluster :=
  last (filter (fun c => c.(gcp_name) = name) clusters).

(** ** Building a job

    [Cluster.container_limits], [template_metadata], [node_selector],
    [tolerations] and [create_simple_job].  The Kubernetes objects are
    records of the fields the module sets. *)

Definition _DEFAULT_NAMESPACE : string := "default".
Definition _BATCH_V1_VERSION : string := "batch/v1".
Definition _NODE_SELECTOR_GKE_ACCELERATOR : string :=
  "cloud.google.com/gke-accelerator".
Definition _NODE_SELECTOR_INSTANCE_TYPE : string :=
  "beta.kubernetes.io/instance-type".
Definition _NODE_SELECTOR_PREEMPTIBLE : string :=
  "cloud.google.com/gke-preemptible".
Definition _CONTAINER_RESOURCE_LIMIT_TPU : string := "cloud-tpus.google.com".
Definition _CONTAINER_RESOURCE_LIMIT_GPU : string := "nvidia.com/gpu".
Definition _TEMPLATE_META_ANNOTATION_TPU_TF_VERSION : string :=
  "tf-version.cloud-tpus.google.com".

Record V1ObjectMeta : Type := mkV1ObjectMeta {
  annotations : option (PyDict.t string string);
  generate_name : option string;
  labels : option (PyDict.t string string)
}.

Record V1Toleration : Type := mkV1Toleration {
  tol_key : string; tol_operator : string; tol_value : string;
  tol_effect : string
}.

Record V1Container : Type := mkV1Container {
  container_name : string;
  image : string;
  command : option (list string);
  args : option (list string);
  resources_limits : option (PyDict.t string Z);
  env : list (string * string)      (* [V1EnvVar(name=k, value=v), ...] *)
}.

Record V1PodSpec : Type := mkV1PodSpec {
  restart_policy : string;
  containers : list V1Container;
  pod_node_selector : option (PyDict.t string string)
}.

Record V1PodTemplateSpec : Type := mkV1PodTemplateSpec {
  template_meta : option V1ObjectMeta;
  template_spec : V1PodSpec
}.

Record V1JobSpec : Type := mkV1JobSpec {
  template : V1PodTemplateSpec;
  backoff_limit : Z
}.

(** The [V1Job] that [create_simple_job] builds. *)
Record JobManifest : Type := mkJobManifest {
  api_version : string;
  kind : string;
  metadata : V1ObjectMeta;
  spec : V1JobSpec
}.

(** [sep.join([a, b])] *)
Definition join2 (sep a b : string) : string := a +:+ sep +:+ b.

(** An [accelerator] is [None], a [GPU] or a [TPU]; the last lines of
    [container_limits], for a value of another type, are not reached. *)
Definition container_limits (accelerator : option Accelerator) (count : Z)
    (preemptible_tpu : bool) : option (PyDict.t string Z) :=
  match accelerator with
  | None => None
  | Some (AccelGPU _) => Some [(_CONTAINER_RESOURCE_LIMIT_GPU, count)]
  | Some (AccelTPU t) =>
      Some [(join2 "/" _CONTAINER_RESOURCE_LIMIT_TPU
               ((if preemptible_tpu && bool_decide (count = 8)
                 then "preemptible-" else "") +:+ PyStr.lower t),
             count)]
  end.

Definition template_metadata (accelerator : option Accelerator)
    : option V1ObjectMeta :=
  match accelerator with
  | Some (AccelTPU _) =>
      Some (mkV1ObjectMeta
              (Some [(_TEMPLATE_META_ANNOTATION_TPU_TF_VERSION, "1.14")])
              None None)
  | _ => None
  end.

Section Selector.

(** [g.value] for a member of the [GPU] enumeration, and [m.value] is what
    a machine type is given as. *)
Variable GPU_value : GPU -> string.

Definition node_selector (preemptible : bool) (machine_type : option string)
    (accelerator : option Accelerator) : option (PyDict.t string string) :=
  let selector : PyDict.t string string := [] in
  let selector :=
    if preemptible then PyDict.set _NODE_SELECTOR_PREEMPTIBLE "true" selector
    else selector in
  let selector :=
    match machine_type with
    | Some value => PyDict.set _NODE_SELECTOR_INSTANCE_TYPE value selector
    | None => selector
    end in
  let selector :=
    match accelerator with
    | Some (AccelGPU g) =>
        PyDict.set _NODE_SELECTOR_GKE_ACCELERATOR
          (PyText.replace_char "_" "-" (PyStr.lower (GPU_value g))) selector
    | _ => selector
    end in
  if bool_decide (length selector = 0%nat) then None else Some selector.

Definition tolerations (preemptible : bool) : option (list V1Toleration) :=
  if negb preemptible then None
  else Some [mkV1Toleration _NODE_SELECTOR_PREEMPTIBLE "Equal" "true"
               "NoSchedule"].

Context {W PyObj : Type} `{!Backend W PyObj}.

(** The method is wrapped by [connected(None)]; its parameter [namespace]
    is not used in its body. *)
Definition create_simple_job (name image : string)
    (command args : option (list string)) (env : PyDict.t string string)
    (accelerator : option Accelerator) (accelerator_count : Z)
    (namespace : string) (machine_type : option string) (preemptible : bool)
    (labels : option (PyDict.t string string)) (preemptible_tpu : bool)
    : Py W (option JobManifest) :=
  connected None (
    let container_resources :=
      container_limits accelerator accelerator_count preemptible_tpu in
    let container_env := env in
    let container :=
      mkV1Container name image command args container_resources
        container_env in
    let template_spec :=
      mkV1PodSpec "Never" [container]
        (node_selector preemptible machine_type accelerator) in
    let template :=
      mkV1PodTemplateSpec (template_metadata accelerator) template_spec in
    let job_spec := mkV1JobSpec template 4 in
    let job_metadata := mkV1ObjectMeta None (Some (name +:+ "-")) labels in
    let job := mkJobManifest _BATCH_V1_VERSION "Job" job_metadata job_spec in
    mret (Some job)).

End Selector.

(** What a built job asks for. *)
Definition job_container_limits (job : JobManifest) : list (PyDict.t string Z) :=
  omap resources_limits job.(spec).(template).(template_spec).(containers).

Definition asks_gpu (job : JobManifest) : Prop :=
  exists limits, limits ∈ job_container_limits job
                 /\ PyDict.contains limits _CONTAINER_RESOURCE_LIMIT_GPU = true.

Definition asks_tpu (job : JobManifest) : Prop :=
  exists limits key,
    limits ∈ job_container_limits job
    /\ key ∈ PyDict.keys limits
    /\ String.prefix (_CONTAINER_RESOURCE_LIMIT_TPU +:+ "/") key = true.

Definition selects_gpu_nodes (job : JobManifest) : Prop :=
  exists selector,
    job.(spec).(template).(template_spec).(pod_node_selector) = Some selector
    /\ PyDict.contains selector _NODE_SELECTOR_GKE_ACCELERATOR = true.

Definition has_tpu_annotation (job : JobManifest) : Prop :=
  exists meta notes,
    job.(spec).(template).(template_meta) = Some meta
    /\ meta.(annotations) = Some notes
    /\ PyDict.get notes _TEMPLATE_META_ANNOTATION_TPU_TF_VERSION = Some "1.14".

(** ** [_cluster_delete]

    The body of the command, for the cluster that its decorators
    [_project_and_creds] and [_with_cluster] hand over; [stdin] is what
    the user types.  The function returns [None]; the value here is what
    it leaves of the terminal, the lines unread and what it wrote. *)
Definition _cluster_delete {W PyObj} `{!Backend W PyObj} (fuel : nat)
    (stdin : list string) : Py W (list string * list Written) :=
  name ← call (fun w => (Ret (cluster_name w), w));
  match
    _user_verify ("Are you sure you want to delete " +:+ name +:+ "?") false
      stdin
  with
  | (Ret true, unread, written) => delete fuel;; mret (unread, written)
  | (Ret false, unread, written) => mret (unread, written)
  | (Raise e, _, _) => lift (Raise e)
  | (Diverge, _, _) => lift Diverge
  end.

(** ** [_job_str]

    [nonnull_dict] works on what [job.to_dict()] gives: dictionaries with
    string keys, lists, [None], and other values, which it only passes
    on. *)

#[local] Unset Elimination Schemes.
Inductive pyval : Type :=
| PNone
| PAtom (repr : string)
| PDict (items : list (string * pyval))
| PList (elems : list pyval).
#[local] Set Elimination Schemes.

(** [nonnull_dict(v)] for a dictionary [v]; the function is applied to
    dictionaries only, any other value stands for itself. *)
Fixpoint nonnull_value (v : pyval) : pyval :=
  match v with
  | PDict d =>
      PDict
        (fold_left
           (fun nnd kv =>
              match kv with
              | (k, v) =>
                  match v with
                  | PNone => nnd
                  | PDict _ => PyDict.set k (nonnull_value v) nnd
                  | PList l =>
                      PyDict.set k
                        (PList
                           (List.map
                              (fun x =>
                                 match x with
                                 | PDict _ => nonnull_value x
                                 | _ => x
                                 end) l)) nnd
                  | PAtom _ => PyDict.set k v nnd
                  end
              end) d [])
  | _ => v
  end.

(** [nonnull_dict(x) if type(x) == dict else x] *)
Definition nonnull_elem (x : pyval) : pyval :=
  match x with
  | PDict _ => nonnull_value x
  | _ => x
  end.

(** The value stored for a value [v] that is not [None]. *)
Definition nonnull_kept (v : pyval) : pyval :=
  match v with
  | PDict _ => nonnull_value v
  | PList l => PList (List.map nonnull_elem l)
  | _ => v
  end.

(** The body of the loop [for k, v in d.items()]. *)
Definition nonnull_step (nnd : PyDict.t string pyval) (kv : string * pyval)
    : PyDict.t string pyval :=
  match kv.2 with
  | PNone => nnd
  | v => PyDict.set kv.1 (nonnull_kept v) nnd
  end.

Definition nonnull_dict (d : PyDict.t string pyval) : PyDict.t string pyval :=
  fold_left nonnull_step d [].

(** A value in which [nonnull_dict] finds nothing to do: in a dictionary
    no key is repeated, no value is [None], and the values are such
    values; in a list the elements that are dictionaries are such
    values. *)
Fixpoint settled (v : pyval) : Prop :=
  match v with
  | PDict d =>
      NoDup d.*1
      /\ fold_right
           (fun kv rest =>
              match kv with (_, v) => v <> PNone /\ settled v end /\ rest)
           True d
  | PList l =>
      fold_right
        (fun x rest => match x with PDict _ => settled x | _ => True end /\ rest)
        True l
  | _ => True
  end.

(** ** [_cluster_create]

    The command reads the terminal, writes to it, logs, and asks the cloud
    services; it also runs [_generate_resource_limits] and
    [_wait_for_operation].  A run is recorded as one trace. *)

Definition _DEFAULT_CLUSTER_NAME : string := "blueshift".
Definition _NVIDIA_DRIVER_COS_DAEMONSET_URL : string :=
  "https://raw.githubusercontent.com/GoogleCloudPlatform/container-engine-accelerators/master/nvidia-driver-installer/cos/daemonset-preloaded.yaml".

(** The request that creates the cluster: the entries of the dictionary
    that are not constants. *)
Record ClusterRequest : Type := mkClusterRequest {
  request_name : string;                                (* cluster.name *)
  request_zone : string;                                (* cluster.zone *)
  request_limits : option (list ResourceLimit);
                              (* cluster.autoscaling.resourceLimits *)
  request_parent : string                               (* parent *)
}.

Inductive Ask : Type :=
(* client.list_clusters(project_id=..., zone='-') *)
| ask_list_clusters
(* googleapiclient.discovery.build(service, 'v1', ...) *)
| ask_build (service : string)
(* cluster_client.projects().zones().clusters().create(...).execute() *)
| ask_create_cluster (project_id zone : string) (request : ClusterRequest)
(* Cluster.get(name=..., project_id=..., zone=..., creds=...) *)
| ask_get_cluster (name zone : string)
(* cluster.apply_daemonset_from_url(url, ...) *)
| ask_apply_daemonset (url : string)
(* cluster.node_pools() *)
| ask_node_pools.

Inductive Act : Type :=
| Did (e : Event)       (* what the functions above record *)
| Logged (l : LogLine)
| Wrote (x : Written)
| Asked (a : Ask).

(** What [Cluster.list] returns: [False], [None] or the names. *)
Inductive Listing : Type :=
| ListedFalse
| ListedNone
| Listed (names : list string).

Section Commands.
Context {W : Type}.

(** A command takes the lines still to be read and the world. *)
Definition Cmd (A : Type) : Type :=
  list string -> W -> outcome A * list string * W * list Act.

Definition cmd_ret {A} (a : A) : Cmd A := fun stdin w => (Ret a, stdin, w, []).

Definition cmd_bind {A B} (m : Cmd A) (k : A -> Cmd B) : Cmd B :=
  fun stdin w =>
    match m stdin w with
    | (Ret a, stdin1, w1, tr1) =>
        match k a stdin1 w1 with
        | (r, stdin2, w2, tr2) => (r, stdin2, w2, tr1 ++ tr2)
        end
    | (Raise e, stdin1, w1, tr1) => (Raise e, stdin1, w1, tr1)
    | (Diverge, stdin1, w1, tr1) => (Diverge, stdin1, w1, tr1)
    end.

Definition cmd_lift {A} (o : outcome A) : Cmd A :=
  fun stdin w => (o, stdin, w, []).

Definition cmd_act (a : Act) : Cmd unit := fun stdin w => (Ret tt, stdin, w, [a]).

(** [print(text)] and [logging.error(text)]. *)
Definition cmd_print (text : string) : Cmd unit :=
  cmd_act (Wrote (PrintLine text)).
Definition cmd_error (text : string) : Cmd unit :=
  cmd_act (Logged (ErrorLine text)).

(** A request to a service. *)
Definition cmd_ask {A} (a : Ask) (f : W -> outcome A * W) : Cmd A :=
  fun stdin w => match f w with (o, w') => (o, stdin, w', [Asked a]) end.

(** A request whose failure the caller handles itself. *)
Definition cmd_try {A} (a : Ask) (f : W -> outcome A * W) : Cmd (outcome A) :=
  fun stdin w => match f w with (o, w') => (Ret o, stdin, w', [Asked a]) end.

(** A call that is not recorded. *)
Definition cmd_call {A} (f : W -> outcome A * W) : Cmd A :=
  fun stdin w => match f w with (o, w') => (o, stdin, w', []) end.

Definition cmd_py {A} (m : Py W A) : Cmd A :=
  fun stdin w => match m w with (o, w', ev) => (o, stdin, w', Did <$> ev) end.

Definition cmd_log {A} (m : Log A) : Cmd A :=
  fun stdin w => match m with (o, ls) => (o, stdin, w, Logged <$> ls) end.

Definition cmd_user_verify (msg : string) (default : bool) : Cmd bool :=
  fun stdin w =>
    match _user_verify msg default stdin with
    | (o, unread, written) => (o, unread, w, Wrote <$> written)
    end.

Fixpoint cmd_for {A} (l : list A) (body : A -> Cmd unit) : Cmd unit :=
  match l with
  | [] => cmd_ret tt
  | x :: l' => cmd_bind (body x) (fun _ => cmd_for l' body)
  end.

End Commands.

Arguments Cmd : clear implicits.

#[global] Instance Cmd_ret {W} : MRet (Cmd W) := fun A => cmd_ret.
#[global] Instance Cmd_bind {W} : MBind (Cmd W) := fun A B k m => cmd_bind m k.

(** The services of [_cluster_create] and how values are shown. *)
Class CreateBackend (W : Type) : Type := {
  (* container_v1.ClusterManagerClient(credentials=creds) *)
  cluster_manager_client : W -> outcome (option unit) * W;
  (* client.list_clusters(project_id=..., zone='-'): its clusters *)
  list_clusters : W -> outcome (list GCPCluster) * W;
  (* googleapiclient.discovery.build(service, 'v1', ...) *)
  discovery_build : string -> W -> outcome (option unit) * W;
  (* ....clusters().create(projectId=..., zone=..., body=request).execute() *)
  clusters_create :
    string -> string -> ClusterRequest -> W
    -> outcome (option (PyDict.t string string)) * W;
  (* cluster_client as the client of _wait_for_operation *)
  container_client_operation : string -> W -> outcome (option Operation) * W;
  (* Cluster.get(...): a cluster or None *)
  Cluster_get : string -> string -> W -> outcome (option unit) * W;
  (* cluster.apply_daemonset_from_url(url, ...) *)
  apply_daemonset_from_url : string -> W -> outcome unit * W;
  (* pp.pformat(request) *)
  pformat : ClusterRequest -> string;
  (* str(e) *)
  str_of_exception : exn -> string
}.

(** The arguments [_cluster_create] reads. *)
Record CreateArgs : Type := mkCreateArgs {
  create_dry_run : bool;                  (* args['dry_run'] *)
  create_cluster_name : option string;    (* args['cluster_name'] *)
  create_zone : string                    (* args['zone'] *)
}.

Section Create.
Context {W PyObj : Type} `{!Backend W PyObj} `{!CreateBackend W}.

(** [Cluster.list(project_id=project_id, creds=creds)] *)
Definition Cluster_list : Cmd W Listing :=
  client ← cmd_call cluster_manager_client;
  match client with
  | None =>
      cmd_error "error getting cluster management client";;
      mret ListedFalse
  | Some _ =>
      answer ← cmd_try ask_list_clusters list_clusters;
      clusters ← cmd_log (_get_gcp_clusters str_of_exception answer);
      mret match clusters with
           | Some cs => Listed (gcp_name <$> cs)
           | None => ListedNone
           end
  end.

(** [len(clusters)] *)
Definition len_listing (clusters : Listing) : outcome nat :=
  match clusters with
  | Listed names => Ret (length names)
  | _ => Raise TypeError
  end.

(** [x in clusters] *)
Definition in_listing (x : string) (clusters : Listing) : outcome bool :=
  match clusters with
  | Listed names => Ret (bool_decide (x ∈ names))
  | _ => Raise TypeError
  end.

(** [for c in clusters] *)
Definition iter_listing (clusters : Listing) : outcome (list string) :=
  match clusters with
  | Listed names => Ret names
  | _ => Raise TypeError
  end.

(** The body of the command, for the project that its decorator
    [_project_and_creds] hands over. *)
Definition _cluster_create (fuel : nat) (args : CreateArgs)
    (project_id : string) : Cmd W unit :=
  let dry_run := args.(create_dry_run) in
  let cluster_name :=
    match args.(create_cluster_name) with
    | Some s => if bool_decide (s = "") then _DEFAULT_CLUSTER_NAME else s
    | None => _DEFAULT_CLUSTER_NAME
    end in
  clusters ← Cluster_list;
  let create : Cmd W unit :=
    let zone := args.(create_zone) in
    rz ← cmd_lift (_parse_zone (Some zone));
    match rz with
    | None => cmd_error ("invalid zone specified: " +:+ zone);; mret tt
    | Some (region, _) =>
        compute_api ← cmd_ask (ask_build "compute") (discovery_build "compute");
        resource_limits ←
          cmd_py (_generate_resource_limits project_id region);
        cluster_client ←
          cmd_ask (ask_build "container") (discovery_build "container");
        match cluster_client with
        | None => cmd_error "error building cluster client";; mret tt
        | Some _ =>
            let request :=
              mkClusterRequest cluster_name zone resource_limits
                ("projects/" +:+ project_id +:+ "/locations/" +:+ zone) in
            if dry_run then
              cmd_print (String "010"%char
                           ("request:" +:+ String "010"%char (pformat request)));;
              mret tt
            else
              cmd_print ("creating cluster " +:+ cluster_name +:+ " in project "
                         +:+ project_id +:+ " in " +:+ zone +:+ "...");;
              cmd_print "please be patient, this may take several minutes";;
              rsp ← cmd_ask (ask_create_cluster project_id zone request)
                      (clusters_create project_id zone request);
              match rsp with
              | None => cmd_error "error: could not create cluster";; mret tt
              | Some rsp =>
                  operation_name ← cmd_lift (PyDict.getitem rsp "name");
                  rsp ← cmd_py
                          (_wait_for_operation fuel container_client_operation
                             ("projects/" +:+ project_id +:+ "/locations/"
                              +:+ zone +:+ "/operations/" +:+ operation_name)
                             default_conditions default_sleep_sec);
                  rsp_status ←
                    cmd_lift match rsp with
                             | Some r => Ret r.(status)
                             | None => Raise TypeError
                             end;
                  if bool_decide (rsp_status ≠ "DONE") then
                    cmd_error ("error creating cluster " +:+ cluster_name
                               +:+ "!");;
                    mret tt
                  else
                    cluster ← cmd_ask (ask_get_cluster cluster_name zone)
                                (Cluster_get cluster_name zone);
                    match cluster with
                    | None =>
                        cmd_print ("error: unable to connect to cluster "
                                   +:+ cluster_name);;
                        cmd_print
                          "nvidia-driver daemonset not applied, to do this manually:";;
                        cmd_print ("kubectl apply -f "
                                   +:+ _NVIDIA_DRIVER_COS_DAEMONSET_URL);;
                        mret tt
                    | Some _ =>
                        cmd_print ("created cluster " +:+ cluster_name
                                   +:+ " successfully");;
                        cmd_print "applying nvidia driver daemonset...";;
                        cmd_ask
                          (ask_apply_daemonset _NVIDIA_DRIVER_COS_DAEMONSET_URL)
                          (apply_daemonset_from_url
                             _NVIDIA_DRIVER_COS_DAEMONSET_URL);;
                        mret tt
                    end
              end
        end
    end in
  n ← cmd_lift (len_listing clusters);
  if bool_decide (n ≠ 0%nat) then
    exists_ ← cmd_lift (in_listing cluster_name clusters);
    if (exists_ : bool) then
      cmd_error ("cluster " +:+ cluster_name +:+ " already exists");; mret tt
    else
      cmd_print (PyStr.of_int (Z.of_nat n)
                 +:+ " clusters already exist for this project:");;
      names ← cmd_lift (iter_listing clusters);
      cmd_for names cmd_print;;
      ok ← cmd_user_verify "Do you really want to create a new cluster?" false;
      if negb ok then mret tt else create
  else create.

End Create.

(** The parts of a run. *)
Definition cmd_result {W A} (r : outcome A * list string * W * list Act)
  : outcome A := r.1.1.1.
Definition cmd_unread {W A} (r : outcome A * list string * W * list Act)
  : list string := r.1.1.2.
Definition cmd_final {W A} (r : outcome A * list string * W * list Act)
  : W := r.1.2.
Definition cmd_trace {W A} (r : outcome A * list string * W * list Act)
  : list Act := r.2.

(** Every act of every run satisfies [P]. *)
Definition cmd_always {W A} (P : Act -> Prop) (m : Cmd W A) : Prop :=
  forall stdin w, Forall P (cmd_trace (m stdin w)).

(** The name the cluster is created under. *)
Definition effective_cluster_name (args : CreateArgs) : string :=
  match args.(create_cluster_name) with
  | Some s => if bool_decide (s = "") then _DEFAULT_CLUSTER_NAME else s
  | None => _DEFAULT_CLUSTER_NAME
  end.

(** A scripted set of services for [_cluster_create]: one other cluster
    exists, every request is answered. *)
#[global] Instance mock_create_backend : CreateBackend Mock := {|
  cluster_manager_client := fun w => (Ret (Some tt), w);
  list_clusters := fun w =>
    (Ret [mkGCPCluster "other" "us-east1-b" "10.0.0.2"], w);
  discovery_build := fun _ w => (Ret (Some tt), w);
  clusters_create := fun _ _ _ w => (Ret (Some [("name", "operation-1")]), w);
  container_client_operation := fun _ => mock_next_operation;
  Cluster_get := fun _ _ w => (Ret (Some tt), w);
  apply_daemonset_from_url := fun _ w => (Ret tt, w);
  pformat := fun _ => "{...}";
  str_of_exception := fun _ => "error"
|}.

Definition mock_create_args : CreateArgs :=
  mkCreateArgs false None "us-central1-a".

Definition mock_create_request : ClusterRequest :=
  mkClusterRequest "blueshift" "us-central1-a"
    (Some [mkLimit "cpu" "10"; mkLimit "memory" "640";
           mkLimit "nvidia-tesla-v100" "4"])
    "projects/project/locations/us-central1-a".

(** The operation is reported done at once; then the operations API stops
    answering. *)
Definition mock_creating : Mock :=
  mkMock true
    (Some [mkQuota "CPUS" 10 0; mkQuota "NVIDIA_V100_GPUS" 4 0])
    None None None None [Some op_done] [] JobMode_CPU [] 0.

Definition mock_lost_operation : Mock :=
  mkMock true
    (Some [mkQuota "CPUS" 10 0; mkQuota "NVIDIA_V100_GPUS" 4 0])
    None None None None [None] [] JobMode_CPU [] 0.

(** ** [_node_pool_ls] *)

(** A node pool: what the command prints of it. *)
Record NodePool : Type := mkNodePool {
  pool_name : string;                        (* p.name *)
  pool_machine_type : string;                (* p.config.machine_type *)
  pool_accelerators : list (string * Z);     (* p.config.accelerators *)
  pool_max_node_count : Z                    (* p.autoscaling.max_node_count *)
}.

Class PoolBackend (W : Type) : Type := {
  (* cluster.node_pools() *)
  cluster_node_pools : W -> outcome (option (list NodePool)) * W
}.

Fixpoint spaces (n : nat) : string :=
  match n with
  | O => ""
  | S n' => String " "%char (spaces n')
  end.

(** ['%-Ns' % s] *)
Definition ljust (width : nat) (s : string) : string :=
  s +:+ spaces (width - String.length s).

(** [sep.join(l)] *)
Fixpoint join (sep : string) (l : list string) : string :=
  match l with
  | [] => ""
  | [x] => x
  | x :: l' => x +:+ sep +:+ join sep l'
  end.

(** [FMT % (a, b, c, d)] for [FMT = '%-20s%-20s%-40s%-20s'] *)
Definition FMT (a b c d : string) : string :=
  ljust 20 a +:+ ljust 20 b +:+ ljust 40 c +:+ ljust 20 d.

Definition pool_row (p : NodePool) : string :=
  let accel :=
    join ","
      ((fun a => a.1 +:+ "(" +:+ PyStr.of_int a.2 +:+ ")")
         <$> p.(pool_accelerators)) in
  FMT p.(pool_name) p.(pool_machine_type) accel
    (PyStr.of_int p.(pool_max_node_count)).

(** The body of the command, for the cluster that its decorators hand
    over. *)
Definition _node_pool_ls {W} `{!CreateBackend W} `{!PoolBackend W}
    : Cmd W unit :=
  np ← cmd_ask ask_node_pools cluster_node_pools;
  match np with
  | None => mret tt
  | Some np =>
      if bool_decide (length np = 0%nat) then
        cmd_print "no node pools found";; mret tt
      else
        cmd_print (FMT "NAME" "MACHINE TYPE" "ACCELERATORS" "MAX NODES");;
        cmd_for np (fun p => cmd_print (pool_row p));;
        cmd_ask (ask_apply_daemonset _NVIDIA_DRIVER_COS_DAEMONSET_URL)
          (apply_daemonset_from_url _NVIDIA_DRIVER_COS_DAEMONSET_URL);;
        mret tt
  end.

(** The lines a run prints. *)
Definition printed_lines (trace : list Act) : list string :=
  omap (fun a => match a with Wrote (PrintLine text) => Some text | _ => None end)
    trace.

#[global] Instance mock_pool_backend : PoolBackend Mock := {|
  cluster_node_pools := fun w =>
    (Ret (Some [mkNodePool "default-pool" "n1-standard-1" [] 3;
                mkNodePool "nap-n1-standard-8-gpu1" "n1-standard-8"
                  [("nvidia-tesla-p100", 1)] 1000]), w)
|}.

(* ===================================================================== *)
(** * Part II: properties *)
(* ===================================================================== *)

(** ** Strings *)

Lemma map_append f (a b : string) :
  PyStr.map f (a +:+ b) = PyStr.map f a +:+ PyStr.map f b.
Proof. induction a as [|c a IH]; simpl; [done | by rewrite IH]. Qed.

Lemma forallb_append p (a b : string) :
  PyStr.forallb p (a +:+ b) = PyStr.forallb p a && PyStr.forallb p b.
Proof.
  induction a as [|c a IH]; simpl; [done |].
  by rewrite IH, andb_assoc.
Qed.

Lemma forallb_map p f (s : string) :
  (forall c, p (f c) = true) -> PyStr.forallb p (PyStr.map f s) = true.
Proof. intros Hp. induction s as [|c s IH]; simpl; [done |]. by rewrite Hp, IH. Qed.

Lemma last_append (a b : string) :
  b <> EmptyString -> PyStr.last (a +:+ b) = PyStr.last b.
Proof.
  intros Hb. induction a as [|c a IH]; [done |].
  simpl. rewrite IH. destruct (a +:+ b) eqn:E; [| done].
  destruct a; simpl in E; [contradiction | discriminate].
Qed.

Lemma last_map f (s : string) c :
  PyStr.last s = Ret c -> PyStr.last (PyStr.map f s) = Ret (f c).
Proof.
  induction s as [|a s IH]; [done |].
  destruct s as [|b s]; simpl in *; [by intros [= ->] | auto].
Qed.

Lemma last_nonempty (s : string) :
  s <> EmptyString -> exists c, PyStr.last s = Ret c.
Proof.
  induction s as [|a s IH]; [done | intros _].
  destruct s as [|b s]; [by exists a |].
  destruct IH as [c Hc]; [done |]. by exists c.
Qed.

Lemma lower_nonempty (s : string) : s <> EmptyString -> PyStr.lower s <> EmptyString.
Proof. by destruct s. Qed.

(** ** Characters: the facts below hold of each of the 256 characters. *)

Ltac each_char c :=
  destruct c as [[] [] [] [] [] [] [] []]; vm_compute; try reflexivity.

Lemma keep_or_dash_valid c : valid (keep_or_dash c) = true.
Proof. unfold keep_or_dash. destruct (valid c) eqn:E; [done | reflexivity]. Qed.

Lemma keep_or_dash_alnum c :
  PyStr.isalnum c = true -> keep_or_dash c = c.
Proof. intros Hc. unfold keep_or_dash, valid. by rewrite Hc. Qed.

Lemma lower_char_not_upper c : PyStr.isupper (PyStr.lower_char c) = false.
Proof. each_char c. Qed.

Lemma keep_or_dash_not_upper c :
  PyStr.isupper c = false -> PyStr.isupper (keep_or_dash c) = false.
Proof. unfold keep_or_dash. by destruct (valid c). Qed.

Lemma lower_char_fixed c : PyStr.isupper c = false -> PyStr.lower_char c = c.
Proof. intros Hc. unfold PyStr.lower_char. by rewrite Hc. Qed.

Lemma forallb_map_impl (p q : ascii -> bool) f (s : string) :
  (forall c, p c = true -> q (f c) = true) ->
  PyStr.forallb p s = true -> PyStr.forallb q (PyStr.map f s) = true.
Proof.
  intros Hpq. induction s as [|c s IH]; simpl; [done |].
  intros [Hc Hs]%andb_true_iff. by rewrite (Hpq c Hc), IH.
Qed.

Lemma lower_fixed (s : string) :
  PyStr.forallb (fun c => negb (PyStr.isupper c)) s = true -> PyStr.lower s = s.
Proof.
  induction s as [|c s IH]; simpl; [done |].
  intros [Hc Hs]%andb_true_iff. apply negb_true_iff in Hc.
  unfold PyStr.lower in *. simpl. by rewrite (lower_char_fixed c Hc), IH.
Qed.

Lemma lower_not_upper (s : string) :
  PyStr.forallb (fun c => negb (PyStr.isupper c)) (PyStr.lower s) = true.
Proof.
  unfold PyStr.lower. induction s as [|c s IH]; simpl; [done |].
  by rewrite lower_char_not_upper, IH.
Qed.

Lemma append_assoc (a b c : string) : (a +:+ b) +:+ c = a +:+ (b +:+ c).
Proof.
  induction a as [|x a IH]; [done |].
  change (String x ((a +:+ b) +:+ c) = String x (a +:+ (b +:+ c))).
  by rewrite IH.
Qed.

Lemma append_empty_r (a : string) : a +:+ EmptyString = a.
Proof.
  induction a as [|x a IH]; [done |].
  change (String x (a +:+ EmptyString) = String x a). by rewrite IH.
Qed.

(** ** [_sanitize_job_name] *)

(** The code is the rule of the documentation on every name that has a
    first character. *)
Lemma sanitize_job_name_by_rule (name : string) :
  name <> EmptyString ->
  _sanitize_job_name name = Ret (sanitized_by_rule name).
Proof.
  intros Hne. unfold _sanitize_job_name, sanitized_by_rule.
  pose proof (lower_nonempty name Hne) as Hl.
  destruct (PyStr.lower name) as [|c0 l] eqn:El; [done |]. clear Hl.
  cbn [PyStr.first mbind outcome_bind]. unfold starts_alnum. cbn [PyStr.first].
  destruct (last_nonempty (String c0 l)) as [cl Hcl]; [done |].
  assert (Hlast : PyStr.last
            (if negb (PyStr.isalnum c0) then "job-" +:+ String c0 l
             else String c0 l) = Ret cl).
  { destruct (PyStr.isalnum c0); cbn [negb]; [done |].
    by rewrite last_append. }
  rewrite Hlast. cbn [mbind outcome_bind]. unfold ends_alnum. rewrite Hcl.
  destruct (PyStr.isalnum c0), (PyStr.isalnum cl); cbn [negb];
    rewrite ?append_assoc, ?append_empty_r; reflexivity.
Qed.

Lemma sanitized_by_rule_dns_1123 (name : string) :
  name <> EmptyString -> dns_1123 (sanitized_by_rule name) = true.
Proof.
  intros Hne. unfold sanitized_by_rule.
  pose proof (lower_nonempty name Hne) as Hl.
  pose proof (lower_not_upper name) as Hup.
  destruct (PyStr.lower name) as [|c0 l] eqn:El; [done |]. clear Hl.
  destruct (last_nonempty (String c0 l)) as [cl Hcl]; [done |].
  unfold starts_alnum at 1, ends_alnum at 1. rewrite Hcl. cbn [PyStr.first].
  set (prefix := if PyStr.isalnum c0 then EmptyString else "job-").
  set (suffix := if PyStr.isalnum cl then EmptyString else "-0").
  set (body := prefix +:+ String c0 l +:+ suffix).
  assert (Hbody_up :
    PyStr.forallb (fun c => negb (PyStr.isupper c)) body = true).
  { unfold body. rewrite !forallb_append, Hup.
    unfold prefix, suffix.
    by destruct (PyStr.isalnum c0), (PyStr.isalnum cl). }
  assert (Hfirst : exists c rest,
    body = String c rest /\ PyStr.isalnum c = true).
  { unfold body, prefix. destruct (PyStr.isalnum c0) eqn:E0.
    - by exists c0, (l +:+ suffix).
    - by eexists "j"%char, _. }
  assert (Hlast : exists c, PyStr.last body = Ret c /\ PyStr.isalnum c = true).
  { unfold body, suffix. destruct (PyStr.isalnum cl) eqn:E1.
    - exists cl. rewrite append_empty_r, last_append by done. done.
    - exists "0"%char. rewrite <- append_assoc, last_append by done. done. }
  unfold dns_1123. repeat (apply andb_true_iff; split).
  - destruct Hfirst as (c & rest & -> & _). done.
  - apply (forallb_map_impl (fun c => negb (PyStr.isupper c))); [| done].
    intros c Hc. apply negb_true_iff. apply keep_or_dash_not_upper.
    by apply negb_true_iff.
  - destruct Hfirst as (c & rest & -> & Hc). unfold starts_alnum.
    cbn [PyStr.map PyStr.first]. by rewrite (keep_or_dash_alnum c Hc).
  - destruct Hlast as (c & Hc & Hal). unfold ends_alnum.
    rewrite (last_map _ _ _ Hc). by rewrite (keep_or_dash_alnum c Hal).
  - apply forallb_map. apply keep_or_dash_valid.
Qed.



Example sanitize_default_name :
  _sanitize_job_name "caliban_Some.User" = Ret "caliban-some.user".
Proof. reflexivity. Qed.

Example sanitize_leading_underscore :
  _sanitize_job_name "_Run 1_" = Ret "job--run-1--0".
Proof. reflexivity. Qed.


(** C4, as amended.  ["My Job!"] begins with a letter, so it gets no
    prefix; its last character is not alphanumeric, so [-0] is appended,
    and the space and the exclamation mark each become a dash. *)
Theorem sanitize_my_job : _sanitize_job_name "My Job!" = Ret "my-job--0".
Proof. reflexivity. Qed.

(** C4, as stated, gives another string. *)
Lemma sanitize_my_job_not_prefixed :
  _sanitize_job_name "My Job!" <> Ret "job-my-job-0".
Proof. discriminate. Qed.

(** ** Running a computation *)

(** Unfolds the plumbing of the monad and computes the run. *)
Ltac py_run :=
  cbv beta iota zeta delta
    [mbind mret Py_bind Py_ret bind ret lift emit request call
     result final events];
  cbn [fst snd app].

Section Properties.
Context {W PyObj : Type} `{!Backend W PyObj}.

(** ** [convert_accel_spec] *)

(** C7.  [convert_accel_spec] rejects (returns [None], and says why) when
    both specifications are given; with only a GPU specification it
    returns its kind and count, with only a TPU specification its kind
    and count, and with neither it returns [(None, 1)].  It leaves the
    world as it is. *)
Theorem convert_accel_spec_cases (w : W) :
  (forall g t,
     convert_accel_spec (Some g) (Some t) w
     = (Ret None, w, [LogError cannot_specify_both]))
  /\ (forall g,
        convert_accel_spec (Some g) None w
        = (Ret (Some (Some (AccelGPU g.(gpu)), g.(gpu_count))), w, []))
  /\ (forall t,
        convert_accel_spec None (Some t) w
        = (Ret (Some (Some (AccelTPU t.(tpu)), t.(tpu_count))), w, []))
  /\ convert_accel_spec None None w = (Ret (Some (None, 1)), w, []).
Proof. repeat split. Qed.

(** ** [_validate_gpu_spec_against_limits] *)

(** What the function does, by the shape of the limits: the kind is a key
    (the count decides); the kind is not a key and the dictionary has a
    first key (that key is printed, the answer is [False]); the kind is
    not a key of the empty dictionary (the loop body never runs, and the
    lookup that follows raises). *)
Lemma validate_against_limits_run gpu_spec gpu_limits limit_type (w : W) :
  _validate_gpu_spec_against_limits gpu_spec gpu_limits limit_type w =
  match PyDict.get gpu_limits gpu_spec.(gpu) with
  | Some max =>
      if bool_decide (gpu_spec.(gpu_count) > max) then
        (Ret false, w,
         [LogError (gpu_count_unsupported
                      gpu_spec.(gpu) gpu_spec.(gpu_count) limit_type max)])
      else (Ret true, w, [])
  | None =>
      match PyDict.keys gpu_limits with
      | g :: _ =>
          (Ret false, w,
           [LogError (unsupported_gpu_type gpu_spec.(gpu) limit_type);
            Printed (gpu_line g)])
      | [] =>
          (Raise KeyError, w,
           [LogError (unsupported_gpu_type gpu_spec.(gpu) limit_type)])
      end
  end.
Proof.
  unfold _validate_gpu_spec_against_limits, PyDict.contains, PyDict.getitem.
  destruct (PyDict.get gpu_limits (gpu gpu_spec)) as [max|] eqn:Hget.
  - py_run. by destruct (bool_decide (gpu_count gpu_spec > max)).
  - destruct gpu_limits as [|[g m] rest]; [reflexivity |].
    cbn [PyDict.keys fmap list_fmap for_return fst]. py_run.
    reflexivity.
Qed.

Lemma validate_against_limits_true gpu_spec gpu_limits limit_type (w : W) :
  result (_validate_gpu_spec_against_limits gpu_spec gpu_limits limit_type w)
  = Ret true
  <-> within_limits gpu_spec gpu_limits.
Proof.
  rewrite validate_against_limits_run. unfold within_limits.
  destruct (PyDict.get gpu_limits (gpu gpu_spec)) as [max|].
  - case_bool_decide as Hgt; cbn; split; try done.
    + intros (m & [= <-] & Hle). lia.
    + intros _. exists max. split; [done | lia].
  - split.
    + by destruct (PyDict.keys gpu_limits).
    + by intros (m & Hm & _).
Qed.

Lemma validate_against_limits_ok gpu_spec gpu_limits limit_type (w : W) :
  within_limits gpu_spec gpu_limits ->
  _validate_gpu_spec_against_limits gpu_spec gpu_limits limit_type w
  = (Ret true, w, []).
Proof.
  intros (max & Hget & Hle). rewrite validate_against_limits_run, Hget.
  by rewrite bool_decide_eq_false_2 by lia.
Qed.

(** ** [validate_gpu_spec] *)

Lemma validate_gpu_spec_true gs (w : W) :
  result (validate_gpu_spec (Some gs) w) = Ret true ->
  exists zl w1 cl,
    zone_gpu_types w = (Ret (Some zl), w1)
    /\ result (get_gpu_types w1) = Ret (Some cl)
    /\ within_limits gs (limits_dict zl)
    /\ within_limits gs (limits_dict cl).
Proof.
  unfold validate_gpu_spec. py_run.
  destruct (zone_gpu_types w) as [[[zl|]|e|] w1] eqn:Hz; try discriminate.
  fold (limits_dict zl). rewrite validate_against_limits_run.
  destruct (PyDict.get (limits_dict zl) (gpu gs)) as [zmax|] eqn:Hzget;
    [case_bool_decide as Hzc | destruct (PyDict.keys (limits_dict zl))];
    cbn; try discriminate.
  destruct (get_gpu_types w1) as [[[[cl|]|e|] w3] ev0] eqn:Hc;
    cbn; try discriminate.
  fold (limits_dict cl). rewrite validate_against_limits_run.
  destruct (PyDict.get (limits_dict cl) (gpu gs)) as [cmax|] eqn:Hcget;
    [case_bool_decide as Hcc | destruct (PyDict.keys (limits_dict cl))];
    cbn; try discriminate.
  intros _. exists zl, w1, cl. unfold within_limits.
  split; [done |]. split; [by rewrite Hc |].
  split; eexists; (split; [done | lia]).
Qed.

Lemma validate_gpu_spec_within gs zl cl (w w1 w2 : W) ev :
  zone_gpu_types w = (Ret (Some zl), w1) ->
  get_gpu_types w1 = (Ret (Some cl), w2, ev) ->
  within_limits gs (limits_dict zl) ->
  within_limits gs (limits_dict cl) ->
  validate_gpu_spec (Some gs) w
  = (Ret true, w2, Called req_zone_gpu_types :: ev).
Proof.
  intros Hz Hc Hzone Hcluster. unfold validate_gpu_spec. py_run.
  rewrite Hz. fold (limits_dict zl).
  rewrite (validate_against_limits_ok _ _ _ _ Hzone). cbn.
  rewrite Hc. fold (limits_dict cl).
  rewrite (validate_against_limits_ok _ _ _ _ Hcluster). cbn.
  by rewrite app_nil_r.
Qed.

(** The zone is consulted first: a count above the zone's maximum is
    refused there, and the cluster is not asked. *)
Lemma validate_gpu_spec_zone_first gs zl max (w w1 : W) :
  zone_gpu_types w = (Ret (Some zl), w1) ->
  PyDict.get (limits_dict zl) gs.(gpu) = Some max ->
  gs.(gpu_count) > max ->
  validate_gpu_spec (Some gs) w
  = (Ret false, w1,
     [Called req_zone_gpu_types;
      LogError (gpu_count_unsupported gs.(gpu) gs.(gpu_count) "zone" max)]).
Proof.
  intros Hz Hget Hgt. unfold validate_gpu_spec. py_run.
  rewrite Hz. fold (limits_dict zl).
  rewrite validate_against_limits_run, Hget.
  by rewrite bool_decide_eq_true_2 by done.
Qed.

End Properties.

(** C1.  [validate_gpu_spec] returns [True] for the CPU-only request
    [None].  For a GPU request it returns [True] exactly when the zone
    and the cluster both report their GPU types, the requested kind is a
    key of both limit dictionaries and the requested count exceeds
    neither maximum.  The zone is checked before the cluster: a count
    above the zone's maximum (2 against 1, say) is refused with the
    zone's message whatever the cluster allows, without asking the
    cluster; a request within both limits succeeds. *)
Theorem validate_gpu_spec_correct {W PyObj} `{!Backend W PyObj} :
  (forall w : W, validate_gpu_spec None w = (Ret true, w, []))
  /\ (forall gs (w : W),
        result (validate_gpu_spec (Some gs) w) = Ret true
        <-> exists zl w1 cl,
              zone_gpu_types w = (Ret (Some zl), w1)
              /\ result (get_gpu_types w1) = Ret (Some cl)
              /\ within_limits gs (limits_dict zl)
              /\ within_limits gs (limits_dict cl))
  /\ (forall gs zl max (w w1 : W),
        zone_gpu_types w = (Ret (Some zl), w1) ->
        PyDict.get (limits_dict zl) gs.(gpu) = Some max ->
        gs.(gpu_count) > max ->
        validate_gpu_spec (Some gs) w
        = (Ret false, w1,
           [Called req_zone_gpu_types;
            LogError
              (gpu_count_unsupported gs.(gpu) gs.(gpu_count) "zone" max)])).
Proof.
  split; [done |]. split.
  - intros gs w. split; [apply validate_gpu_spec_true |].
    intros (zl & w1 & cl & Hz & Hc & Hzone & Hcluster).
    destruct (get_gpu_types w1) as [[o w2] ev] eqn:Hrun.
    unfold result in Hc. cbn in Hc. subst o.
    by rewrite (validate_gpu_spec_within gs zl cl w w1 w2 ev).
  - apply @validate_gpu_spec_zone_first.
Qed.

Lemma validate_gpu_spec_correct_witness :
  validate_gpu_spec (Some (mkGPUSpec "P100" 2)) mock_p100
  = (Ret false, mock_p100,
     [Called req_zone_gpu_types;
      LogError (gpu_count_unsupported "P100" 2 "zone" 1)])
  /\ result (validate_gpu_spec (Some (mkGPUSpec "P100" 1)) mock_p100)
     = Ret true.
Proof.
  destruct (validate_gpu_spec_correct (W := Mock) (PyObj := unit))
    as (_ & Hiff & Hzone).
  split.
  - apply (Hzone (mkGPUSpec "P100" 2)
             [mkGPUSpec "K80" 8; mkGPUSpec "P100" 1] 1 mock_p100 mock_p100);
      [reflexivity | reflexivity | cbn; lia].
  - apply Hiff.
    exists [mkGPUSpec "K80" 8; mkGPUSpec "P100" 1], mock_p100,
           [mkGPUSpec "P100" 8].
    split; [reflexivity |]. split; [reflexivity |].
    split; [exists 1 | exists 8]; (split; [reflexivity | cbn; lia]).
Defined.

(** When the kind is not a key and the dictionary is not empty, the
    answer is [False], and of the supported kinds only the first is
    printed. *)
Lemma validate_against_limits_absent {W} gs g m rest limit_type (w : W) :
  PyDict.get ((g, m) :: rest) gs.(gpu) = None ->
  _validate_gpu_spec_against_limits gs ((g, m) :: rest) limit_type w
  = (Ret false, w,
     [LogError (unsupported_gpu_type gs.(gpu) limit_type);
      Printed (gpu_line g)]).
Proof. intros Hget. by rewrite validate_against_limits_run, Hget. Qed.

(** C9.  Against the empty limits dictionary the function does not
    return [False]: the loop that holds the [return] has nothing to run
    over, and the lookup [gpu_limits[gpu_spec.gpu]] that follows raises
    [KeyError]. *)
Theorem validate_against_empty_limits_raises {W} gs limit_type (w : W) :
  _validate_gpu_spec_against_limits gs [] limit_type w
  = (Raise KeyError, w,
     [LogError (unsupported_gpu_type gs.(gpu) limit_type)]).
Proof. reflexivity. Qed.

(** The same through [validate_gpu_spec], for a zone that offers no GPU. *)
Example validate_gpu_spec_no_zone_gpu :
  validate_gpu_spec (Some _DEFAULT_GPU_SPEC)
    (mkMock true None (Some []) (Some [mkGPUSpec "P100" 8]) None None
       [] [] JobMode_GPU [] 0)
  = (Raise KeyError,
     mkMock true None (Some []) (Some [mkGPUSpec "P100" 8]) None None
       [] [] JobMode_GPU [] 0,
     [Called req_zone_gpu_types;
      LogError (unsupported_gpu_type "P100" "zone")]).
Proof. reflexivity. Qed.

(** ** Regular expressions *)

Lemma strip_prefix_append (p s : string) : Re.strip_prefix p (p +:+ s) = Some s.
Proof.
  induction p as [|a p IH]; [done |].
  change (String a p +:+ s) with (String a (p +:+ s)).
  cbn [Re.strip_prefix]. by rewrite decide_True.
Qed.

Lemma strip_prefix_inv (p s s' : string) :
  Re.strip_prefix p s = Some s' -> s = p +:+ s'.
Proof.
  revert s. induction p as [|a p IH]; intros s; cbn [Re.strip_prefix].
  - by intros [= ->].
  - destruct s as [|b s]; [done |]. case_decide as Hab; [| done].
    intros Hs. subst b. apply IH in Hs. subst s. done.
Qed.

(** The longest run is tried first: when what follows the group accepts
    it, that is the match. *)
Lemma plus_greedy_longest {R} cls (k : string -> string -> option R)
    (run rest taken : string) r :
  run <> EmptyString ->
  PyStr.forallb cls run = true ->
  stops cls rest ->
  k (taken +:+ run) rest = Some r ->
  Re.plus_greedy cls k taken (run +:+ rest) = Some r.
Proof.
  revert taken. induction run as [|c run IH]; intros taken Hne Hcls Hstop Hk.
  { done. }
  cbn [PyStr.forallb] in Hcls. apply andb_true_iff in Hcls as [Hc Hrun].
  change (String c run +:+ rest) with (String c (run +:+ rest)).
  cbn [Re.plus_greedy]. rewrite Hc.
  assert (Htaken : (taken +:+ String c EmptyString) +:+ run
                   = taken +:+ String c run) by by rewrite append_assoc.
  destruct run as [|c' run].
  - change (EmptyString +:+ rest) with rest.
    assert (Hnone : Re.plus_greedy cls k (taken +:+ String c EmptyString) rest
                    = None).
    { destruct rest as [|c' rest]; [done |]. cbn in Hstop.
      cbn [Re.plus_greedy]. by rewrite Hstop. }
    by rewrite Hnone.
  - rewrite (IH (taken +:+ String c EmptyString)); [done | done | done | done |].
    by rewrite Htaken.
Qed.

(** Whatever run the group settles on, it is a non-empty run of the class
    that what follows accepts. *)
Lemma plus_greedy_inv {R} cls (k : string -> string -> option R)
    (s taken : string) r :
  Re.plus_greedy cls k taken s = Some r ->
  exists run rest,
    run <> EmptyString
    /\ PyStr.forallb cls run = true
    /\ s = run +:+ rest
    /\ k (taken +:+ run) rest = Some r.
Proof.
  revert taken. induction s as [|c s IH]; intros taken; cbn [Re.plus_greedy].
  { done. }
  destruct (cls c) eqn:Hc; [| done].
  destruct (Re.plus_greedy cls k (taken +:+ String c EmptyString) s)
    as [r'|] eqn:Hmore.
  - intros [= ->]. apply IH in Hmore as (run & rest & Hne & Hcls & -> & Hk).
    exists (String c run), rest. split; [done |].
    split; [cbn [PyStr.forallb]; by rewrite Hc, Hcls |].
    split; [done |]. by rewrite append_assoc in Hk.
  - intros Hk. exists (String c EmptyString), s.
    split; [done |]. split; [cbn [PyStr.forallb]; by rewrite Hc |]. done.
Qed.

Lemma at_eos_inv (s : string) :
  Re.at_eos s = true -> s = EmptyString \/ s = String "010" EmptyString.
Proof.
  unfold Re.at_eos. intros [H|H]%orb_true_iff; apply bool_decide_eq_true in H; auto.
Qed.

(** ** [_generate_resource_limits] *)




Example gpu_metric_with_suffix : gpu_kind_of_metric "NVIDIA_P100_VWS_GPUS" = None.
Proof. reflexivity. Qed.

Example gpu_metric_without_kind : gpu_kind_of_metric "NVIDIA__GPUS" = None.
Proof. reflexivity. Qed.

Example gpu_metric_lower_case : gpu_kind_of_metric "NVIDIA_v100_GPUS" = None.
Proof. reflexivity. Qed.

Example gpu_metric_not_at_start : gpu_kind_of_metric "XNVIDIA_V100_GPUS" = None.
Proof. reflexivity. Qed.





(** ** [_wait_for_operation] *)

Section Polling.
Context {W PyObj : Type} `{!Backend W PyObj}.
Variable client : string -> W -> outcome (option Operation) * W.
Variables (name : string) (conditions : list string) (sleep_sec : Z).

Lemma wait_step_pending fuel (w w1 : W) r :
  client name w = (Ret (Some r), w1) ->
  r.(status) ∉ conditions ->
  _wait_for_operation (S fuel) client name conditions sleep_sec w
  = (let run := _wait_for_operation fuel client name conditions sleep_sec
                  (time_sleep sleep_sec w1) in
     (result run, final run,
      Called (req_operations_get name) :: Called (req_sleep sleep_sec)
        :: events run)).
Proof.
  intros Hget Hstatus. cbn [_wait_for_operation]. unfold sleep. py_run.
  rewrite Hget. rewrite bool_decide_eq_false_2 by done.
  by destruct (_wait_for_operation fuel client name conditions sleep_sec
                 (time_sleep sleep_sec w1)) as [[o w2] ev].
Qed.

Lemma wait_step_terminal fuel (w w1 : W) r :
  client name w = (Ret (Some r), w1) ->
  r.(status) ∈ conditions ->
  _wait_for_operation (S fuel) client name conditions sleep_sec w
  = (Ret (Some r), w1, [Called (req_operations_get name)]).
Proof.
  intros Hget Hstatus. cbn [_wait_for_operation]. py_run.
  rewrite Hget. by rewrite bool_decide_eq_true_2 by done.
Qed.

Lemma wait_step_no_response fuel (w w1 : W) :
  client name w = (Ret None, w1) ->
  _wait_for_operation (S fuel) client name conditions sleep_sec w
  = (Ret None, w1,
     [Called (req_operations_get name);
      LogError (error_getting_operation name)]).
Proof. intros Hget. cbn [_wait_for_operation]. py_run. by rewrite Hget. Qed.

(** Polls that find the operation pending are gone through one by one. *)
Lemma wait_pending k (w w' : W) :
  pending client name conditions sleep_sec k w w' ->
  forall fuel,
    _wait_for_operation (k + fuel) client name conditions sleep_sec w
    = (let run :=
         _wait_for_operation fuel client name conditions sleep_sec w' in
       (result run, final run,
        pending_events name sleep_sec k ++ events run)).
Proof.
  induction 1 as [w | k w r w1 w' Hget Hstatus Hrest IH]; intros fuel.
  - cbn. by destruct (_wait_for_operation _ _ _ _ _ w) as [[o w2] ev].
  - change (S k + fuel)%nat with (S (k + fuel)).
    rewrite (wait_step_pending _ w w1 r Hget Hstatus), IH.
    reflexivity.
Qed.

Lemma wait_returns_terminal k (w w' w'' : W) r fuel :
  pending client name conditions sleep_sec k w w' ->
  client name w' = (Ret (Some r), w'') ->
  r.(status) ∈ conditions ->
  (k < fuel)%nat ->
  _wait_for_operation fuel client name conditions sleep_sec w
  = (Ret (Some r), w'',
     pending_events name sleep_sec k ++ [Called (req_operations_get name)]).
Proof.
  intros Hpending Hget Hstatus Hfuel.
  replace fuel with (k + S (fuel - S k))%nat by lia.
  rewrite (wait_pending k w w' Hpending).
  by rewrite (wait_step_terminal _ w' w'' r Hget Hstatus).
Qed.

Lemma wait_returns_failure k (w w' w'' : W) fuel :
  pending client name conditions sleep_sec k w w' ->
  client name w' = (Ret None, w'') ->
  (k < fuel)%nat ->
  _wait_for_operation fuel client name conditions sleep_sec w
  = (Ret None, w'',
     pending_events name sleep_sec k
       ++ [Called (req_operations_get name);
           LogError (error_getting_operation name)]).
Proof.
  intros Hpending Hget Hfuel.
  replace fuel with (k + S (fuel - S k))%nat by lia.
  rewrite (wait_pending k w w' Hpending).
  by rewrite (wait_step_no_response _ w' w'' Hget).
Qed.

(** A response that is returned is in a terminal state. *)
Lemma wait_returned_terminal fuel (w w' : W) r ev :
  _wait_for_operation fuel client name conditions sleep_sec w
  = (Ret (Some r), w', ev) ->
  r.(status) ∈ conditions.
Proof.
  revert w ev. induction fuel as [|fuel IH]; intros w ev; [done |].
  cbn [_wait_for_operation]. unfold sleep. py_run.
  destruct (client name w) as [[[r0|]|e|] w1]; try done.
  case_bool_decide as Hstatus; [by intros [= <- _ _] |].
  destruct (_wait_for_operation fuel client name conditions sleep_sec
              (time_sleep sleep_sec w1)) as [[o w2] ev2] eqn:Hrun.
  intros [= -> -> _]. by eapply IH.
Qed.

Lemma fetches_pending k :
  fetches (pending_events name sleep_sec k ++ [Called (req_operations_get name)])
  = replicate (S k) name.
Proof.
  induction k as [|k IH]; [done |].
  change (pending_events name sleep_sec (S k))
    with ([Called (req_operations_get name); Called (req_sleep sleep_sec)]
            ++ pending_events name sleep_sec k).
  rewrite <- app_assoc. unfold fetches in *.
  cbn [app omap list_omap]. by rewrite IH.
Qed.

End Polling.

(** C6.  [_wait_for_operation] fetches the status of the operation again
    and again, sleeping [sleep_sec] between two fetches.  After [k]
    fetches that found a status outside the terminal conditions, a fetch
    that finds one inside them ends the wait: that response is returned,
    after [k + 1] fetches and [k] sleeps; a fetch that brings no response
    ends it with [None] and an error in the log, without another poll.
    A response that is returned always has a terminal status.  When the
    operations API answers PENDING, PENDING, DONE, the DONE response is
    returned after exactly three fetches. *)
Theorem wait_for_operation_correct {W PyObj} `{!Backend W PyObj} :
  (forall client name conditions sleep_sec k (w w' w'' : W) r fuel,
     pending client name conditions sleep_sec k w w' ->
     client name w' = (Ret (Some r), w'') ->
     r.(status) ∈ conditions ->
     (k < fuel)%nat ->
     _wait_for_operation fuel client name conditions sleep_sec w
     = (Ret (Some r), w'',
        pending_events name sleep_sec k ++ [Called (req_operations_get name)])
     /\ fetches
          (events (_wait_for_operation fuel client name conditions sleep_sec w))
        = replicate (S k) name)
  /\ (forall client name conditions sleep_sec k (w w' w'' : W) fuel,
        pending client name conditions sleep_sec k w w' ->
        client name w' = (Ret None, w'') ->
        (k < fuel)%nat ->
        _wait_for_operation fuel client name conditions sleep_sec w
        = (Ret None, w'',
           pending_events name sleep_sec k
             ++ [Called (req_operations_get name);
                 LogError (error_getting_operation name)]))
  /\ (forall client name conditions sleep_sec fuel (w w' : W) r ev,
        _wait_for_operation fuel client name conditions sleep_sec w
        = (Ret (Some r), w', ev) ->
        r.(status) ∈ conditions)
  /\ (forall fuel,
        (3 <= fuel)%nat ->
        _wait_for_operation fuel cluster_client_operation "operation-1"
          default_conditions default_sleep_sec mock_polling
        = (Ret (Some op_done), mock_polled,
           [Called (req_operations_get "operation-1"); Called (req_sleep 1);
            Called (req_operations_get "operation-1"); Called (req_sleep 1);
            Called (req_operations_get "operation-1")])).
Proof.
  split; [| split; [| split]].
  - intros client name conditions sleep_sec k w w' w'' r fuel Hp Hget Hst Hk.
    pose proof (wait_returns_terminal client name conditions sleep_sec
                  k w w' w'' r fuel Hp Hget Hst Hk) as Hrun.
    split; [done |]. rewrite Hrun. apply fetches_pending.
  - intros client name conditions sleep_sec k w w' w'' fuel.
    apply wait_returns_failure.
  - intros client name conditions sleep_sec fuel w w' r ev.
    apply wait_returned_terminal.
  - intros fuel Hfuel.
    destruct fuel as [|[|[|fuel]]]; [lia | lia | lia |]. reflexivity.
Qed.

Lemma wait_for_operation_correct_witness :
  _wait_for_operation 3 cluster_client_operation "operation-1"
    default_conditions default_sleep_sec mock_polling
  = (Ret (Some op_done), mock_polled,
     pending_events "operation-1" 1 2
       ++ [Called (req_operations_get "operation-1")])
  /\ fetches
       (events (_wait_for_operation 3 cluster_client_operation "operation-1"
                  default_conditions default_sleep_sec mock_polling))
     = ["operation-1"; "operation-1"; "operation-1"].
Proof.
  destruct (wait_for_operation_correct (W := Mock) (PyObj := unit))
    as (Hreturns & _).
  apply (Hreturns cluster_client_operation "operation-1" default_conditions
           default_sleep_sec 2%nat mock_polling
           (mkMock true None None None None None [Some op_done] []
              JobMode_CPU [] 2)
           mock_polled op_done 3%nat).
  - eapply pending_S; [reflexivity | compute_done |].
    eapply pending_S; [reflexivity | compute_done |].
    apply pending_O.
  - reflexivity.
  - apply list_elem_of_here.
  - lia.
Defined.

(** ** The submission loop of [_job_submit] *)

Section Submission.
Context {W PyObj : Type} `{!Backend W PyObj}.






End Submission.



(** ** The TPU check of [_job_submit] *)

Section TpuCheck.
Context {W PyObj : Type} `{!Backend W PyObj}.

Lemma print_tpus_run (l : list TPUSpec) (w : W) :
  for_acc l (fun _ t => emit (Printed (tpu_line t))) () w
  = (Ret (), w, (fun t => Printed (tpu_line t)) <$> l).
Proof.
  induction l as [|t l IH]; [done |].
  cbn [for_acc]. unfold bind at 1, emit at 1. by rewrite IH.
Qed.

Lemma validate_tpu_spec_run t (w : W) :
  validate_tpu_spec (Some t) w =
  match get_tpu_types w with
  | (Ret (Some l), w1, ev) =>
      if bool_decide (t ∈ l) then (Ret true, w1, ev)
      else
        (Ret false, w1,
         ev ++ LogError invalid_tpu_spec
            :: ((fun t => Printed (tpu_line t)) <$> l))
  | (Ret None, w1, ev) =>
      (Ret false, w1, ev ++ [LogError error_getting_tpu_types])
  | (Raise e, w1, ev) => (Raise e, w1, ev)
  | (Diverge, w1, ev) => (Diverge, w1, ev)
  end.
Proof.
  unfold validate_tpu_spec.
  cbv beta iota zeta delta [mbind mret Py_bind Py_ret bind ret emit].
  destruct (get_tpu_types w) as [[[[l|]|e|] w1] ev]; try reflexivity.
  case_bool_decide; cbn [negb].
  - by rewrite app_nil_r.
  - rewrite print_tpus_run. cbn. by rewrite app_nil_r.
Qed.

Lemma validate_tpu_spec_true_iff t (w : W) :
  result (validate_tpu_spec (Some t) w) = Ret true
  <-> exists l, result (get_tpu_types w) = Ret (Some l) /\ t ∈ l.
Proof.
  rewrite validate_tpu_spec_run. unfold result.
  destruct (get_tpu_types w) as [[[[l|]|e|] w1] ev]; cbn.
  - case_bool_decide as Hin; cbn.
    + split; [intros _; by exists l | done].
    + split; [done | intros (l' & [= <-] & Hin'); done].
  - split; [done | by intros (l & Hl & _)].
  - split; [done | by intros (l & Hl & _)].
  - split; [done | by intros (l & Hl & _)].
Qed.

Lemma validate_tpu_spec_false_iff t (w : W) :
  result (validate_tpu_spec (Some t) w) = Ret false
  <-> result (get_tpu_types w) = Ret None
      \/ exists l, result (get_tpu_types w) = Ret (Some l) /\ t ∉ l.
Proof.
  rewrite validate_tpu_spec_run. unfold result.
  destruct (get_tpu_types w) as [[[[l|]|e|] w1] ev]; cbn.
  - case_bool_decide as Hin; cbn.
    + split; [done | intros [? | (l' & [= <-] & Hin')]; done].
    + split; [intros _; right; by exists l | done].
  - split; [by left | done].
  - split; [done | by intros [? | (l & Hl & _)]].
  - split; [done | by intros [? | (l & Hl & _)]].
Qed.

(** When the run of [_job_submit] reaches the TPU check and the check
    fails, the function returns [None] there and then. *)
Lemma job_submit_tpu_rejected (args : Args) (w w1 w2 w3 w4 w5 w6 : W)
    script_args job_mode docker_args job_name ev4 ev5 ev6 :
  extract_script_args args.(arg_dict) w = (Ret script_args, w1) ->
  resolve_job_mode args.(arg_dict) w1 = (Ret job_mode, w2) ->
  generate_docker_args job_mode args.(arg_dict) w2 = (Ret docker_args, w3) ->
  or_else args.(arg_name)
    (user ← call current_user; mret ("caliban_" +:+ user)) w3
  = (Ret job_name, w4, ev4) ->
  validate_gpu_spec
    match job_mode, args.(arg_gpu_spec) with
    | JobMode_GPU, None => Some _DEFAULT_GPU_SPEC
    | _, _ => args.(arg_gpu_spec)
    end w4
  = (Ret true, w5, ev5) ->
  validate_tpu_spec args.(arg_tpu_spec) w5 = (Ret false, w6, ev6) ->
  _job_submit args w = (Ret None, w6, ev4 ++ ev5 ++ ev6).
Proof.
  intros H1 H2 H3 H4 H5 H6. unfold _job_submit.
  cbv beta iota zeta delta [mbind mret Py_bind Py_ret bind ret call] in *.
  rewrite H1, H2, H3, H4, H5. cbn [negb]. rewrite H6. cbn.
  by rewrite app_nil_r.
Qed.

End TpuCheck.

(** C8.  The TPU check of [_job_submit] lets a request through exactly
    when the cluster reports its supported TPU types and the requested
    pair of kind and count is one of them.  It stops the submission, and
    [_job_submit] returns [None] without doing anything further, when
    the list cannot be obtained or does not contain the pair.  The test is
    membership and not a bound on the count: four V3 cores are refused by
    a cluster that supports eight, and nothing is submitted; eight are
    accepted. *)
Theorem job_submit_tpu_validation {W PyObj} `{!Backend W PyObj} :
  (forall t (w : W),
     result (validate_tpu_spec (Some t) w) = Ret true
     <-> exists l, result (get_tpu_types w) = Ret (Some l) /\ t ∈ l)
  /\ (forall t (w : W),
        result (validate_tpu_spec (Some t) w) = Ret false
        <-> result (get_tpu_types w) = Ret None
            \/ exists l, result (get_tpu_types w) = Ret (Some l) /\ t ∉ l)
  /\ (forall (args : Args) (w w1 w2 w3 w4 w5 w6 : W)
             script_args job_mode docker_args job_name ev4 ev5 ev6,
        extract_script_args args.(arg_dict) w = (Ret script_args, w1) ->
        resolve_job_mode args.(arg_dict) w1 = (Ret job_mode, w2) ->
        generate_docker_args job_mode args.(arg_dict) w2
        = (Ret docker_args, w3) ->
        or_else args.(arg_name)
          (user ← call current_user; mret ("caliban_" +:+ user)) w3
        = (Ret job_name, w4, ev4) ->
        validate_gpu_spec
          match job_mode, args.(arg_gpu_spec) with
          | JobMode_GPU, None => Some _DEFAULT_GPU_SPEC
          | _, _ => args.(arg_gpu_spec)
          end w4
        = (Ret true, w5, ev5) ->
        validate_tpu_spec args.(arg_tpu_spec) w5 = (Ret false, w6, ev6) ->
        _job_submit args w = (Ret None, w6, ev4 ++ ev5 ++ ev6))
  /\ (_job_submit (args_tpu (mkTPUSpec "V3" 4)) mock_tpu
      = (Ret None, mock_tpu,
         [Called req_get_tpu_types; LogError invalid_tpu_spec;
          Printed (tpu_line (mkTPUSpec "V2" 8));
          Printed (tpu_line (mkTPUSpec "V3" 8))])
      /\ result (_job_submit (args_tpu (mkTPUSpec "V3" 8)) mock_tpu)
         = Ret (Some [job1])).
Proof.
  split; [| split; [| split]].
  - apply @validate_tpu_spec_true_iff.
  - apply @validate_tpu_spec_false_iff.
  - apply @job_submit_tpu_rejected.
  - by vm_compute.
Qed.

Lemma job_submit_tpu_validation_witness :
  _job_submit (args_tpu (mkTPUSpec "V3" 4)) mock_tpu
  = (Ret None, mock_tpu,
     [] ++ [] ++
     [Called req_get_tpu_types; LogError invalid_tpu_spec;
      Printed (tpu_line (mkTPUSpec "V2" 8));
      Printed (tpu_line (mkTPUSpec "V3" 8))])
  /\ result (validate_tpu_spec (Some (mkTPUSpec "V3" 4)) mock_tpu) = Ret false
  /\ result (validate_tpu_spec (Some (mkTPUSpec "V3" 8)) mock_tpu) = Ret true.
Proof.
  destruct (job_submit_tpu_validation (W := Mock) (PyObj := unit))
    as (Htrue & Hfalse & Habort & _).
  split; [| split].
  - apply (Habort (args_tpu (mkTPUSpec "V3" 4))
             mock_tpu mock_tpu mock_tpu mock_tpu mock_tpu mock_tpu mock_tpu
             tt JobMode_CPU tt "sweep"); reflexivity.
  - apply Hfalse. right. exists [mkTPUSpec "V2" 8; mkTPUSpec "V3" 8].
    split; [reflexivity | compute_done].
  - apply Htrue. exists [mkTPUSpec "V2" 8; mkTPUSpec "V3" 8].
    split; [reflexivity | compute_done].
Defined.

(** ** [Cluster.delete] *)

(** An event is none of the first events of a list: it differs from each,
    and what remains is left to the context. *)
Ltac not_among :=
  let Hin := fresh "Hin" in
  intros Hin;
  repeat (apply elem_of_cons in Hin as [Hin | Hin]; [discriminate Hin |]);
  try (by apply elem_of_nil in Hin);
  try contradiction.

Section Deletion.
Context {W PyObj : Type} `{!Backend W PyObj}.

(** [rsp] is bound neither at module level nor in [builtins]. *)
Lemma rsp_not_global : "rsp" ∉ module_names ++ builtin_names.
Proof. compute_done. Qed.

Lemma load_unbound_rsp (f : frame) (w : W) :
  PyDict.get f "rsp" = None ->
  load_name f "rsp" w = (Raise (NameError "rsp"), w, []).
Proof.
  intros Hget. unfold load_name. rewrite Hget.
  by rewrite bool_decide_eq_false_2 by apply rsp_not_global.
Qed.

(** The wait prints nothing. *)
Lemma wait_prints_nothing fuel client name conditions sleep_sec (w : W) m :
  Printed m ∉ events (_wait_for_operation fuel client name conditions sleep_sec w).
Proof.
  revert w. induction fuel as [|fuel IH]; intros w.
  { cbn. apply not_elem_of_nil. }
  cbn [_wait_for_operation]. unfold sleep. py_run.
  destruct (client name w) as [[[r|]|e|] w1]; cbn; try by not_among.
  case_bool_decide; cbn; [by not_among |].
  specialize (IH (time_sleep sleep_sec w1)). unfold events in IH.
  destruct (_wait_for_operation fuel client name conditions sleep_sec
              (time_sleep sleep_sec w1)) as [[o w2] ev]; cbn in *.
  not_among.
Qed.

(** The decorator adds to the events of the method only the request to
    connect and the error about it. *)
Lemma connected_events {A} (error_value : A) (fn : Py W A) (w : W) e :
  (forall w0, e ∉ events (fn w0)) ->
  e <> LogError error_connecting ->
  e <> Called req_connect ->
  e ∉ events (connected error_value fn w).
Proof.
  intros Hfn He1 He2. unfold connected. py_run.
  destruct (cluster_connected w); cbn [negb]; cbn.
  - specialize (Hfn w). unfold events in Hfn.
    by destruct (fn w) as [[o w1] ev].
  - destruct (cluster_connect w) as [[[|]|e'|] w1]; cbn [negb]; cbn.
    + specialize (Hfn w1). unfold events in Hfn.
      destruct (fn w1) as [[o w2] ev]. cbn in *.
      intros [-> | Hin]%elem_of_cons; done.
    + intros [-> | [-> | Hin%elem_of_nil]%elem_of_cons]%elem_of_cons; done.
    + intros [-> | Hin%elem_of_nil]%elem_of_cons; done.
    + intros [-> | Hin%elem_of_nil]%elem_of_cons; done.
Qed.

Lemma delete_raises fuel (w w1 w2 : W) o r ev :
  cluster_connected w = true ->
  delete_cluster w = (Ret (Some o), w1) ->
  _wait_for_operation fuel cluster_client_operation
    ("projects/" +:+ cluster_name w1 +:+ "/locations/" +:+ cluster_zone w1
     +:+ "/operations/" +:+ o.(op_name))
    default_conditions default_sleep_sec w1
  = (Ret r, w2, ev) ->
  delete fuel w
  = (Raise (NameError "rsp"), w2, Called req_delete_cluster :: ev).
Proof.
  intros Hconn Hdel Hwait. unfold delete, connected.
  cbv beta iota zeta delta [mbind mret Py_bind Py_ret bind ret call request emit].
  rewrite Hconn. cbn [negb]. rewrite Hdel, Hwait.
  rewrite load_unbound_rsp by reflexivity. cbn. by rewrite app_nil_r.
Qed.

(** No run of [delete] prints that the cluster was deleted. *)
Lemma delete_never_succeeds fuel (w : W) :
  Printed successfully_deleted_cluster ∉ events (delete fuel w).
Proof.
  unfold delete. apply connected_events; [| done | done].
  intros w0. py_run.
  destruct (delete_cluster w0) as [[[o|]|e|] w1]; cbn; try by not_among.
  pose proof (wait_prints_nothing fuel cluster_client_operation
                ("projects/" +:+ cluster_name w1 +:+ "/locations/"
                 +:+ cluster_zone w1 +:+ "/operations/" +:+ op_name o)
                default_conditions default_sleep_sec w1
                successfully_deleted_cluster) as Hwait.
  unfold events in Hwait.
  destruct (_wait_for_operation fuel cluster_client_operation _ _ _ w1)
    as [[[r| |] w2] ev]; cbn in *.
  - rewrite load_unbound_rsp by reflexivity. cbn.
    rewrite app_nil_r. by not_among.
  - by not_among.
  - by not_among.
Qed.

End Deletion.

(** C10.  [Cluster.delete] cannot reach the line that reports success.
    On a connected cluster whose deletion request is accepted, once the
    wait for the operation returns (with a response or with [None]) the
    status check reads [rsp], a name that [delete] never binds (the
    result of the wait is bound to [op]) and that neither the module nor
    [builtins] defines: the call raises [NameError].  No run of [delete]
    at all prints the success message. *)
Theorem delete_never_reaches_success {W PyObj} `{!Backend W PyObj} :
  (forall fuel (w w1 w2 : W) o r ev,
     cluster_connected w = true ->
     delete_cluster w = (Ret (Some o), w1) ->
     _wait_for_operation fuel cluster_client_operation
       ("projects/" +:+ cluster_name w1 +:+ "/locations/" +:+ cluster_zone w1
        +:+ "/operations/" +:+ o.(op_name))
       default_conditions default_sleep_sec w1
     = (Ret r, w2, ev) ->
     delete fuel w
     = (Raise (NameError "rsp"), w2, Called req_delete_cluster :: ev))
  /\ (forall fuel (w : W),
        Printed successfully_deleted_cluster ∉ events (delete fuel w)).
Proof.
  split.
  - apply @delete_raises.
  - apply @delete_never_succeeds.
Qed.

Lemma delete_never_reaches_success_witness :
  delete 2 mock_deleting
  = (Raise (NameError "rsp"), mock_deleted,
     [Called req_delete_cluster;
      Called (req_operations_get
                "projects/blueshift/locations/us-central1-a/operations/operation-1");
      Called (req_sleep 1);
      Called (req_operations_get
                "projects/blueshift/locations/us-central1-a/operations/operation-1")]).
Proof.
  destruct (delete_never_reaches_success (W := Mock) (PyObj := unit))
    as (Hraises & _).
  apply (Hraises 2%nat mock_deleting mock_deleting mock_deleted
           (mkOperation "operation-1" "RUNNING") (Some op_done));
    reflexivity.
Defined.

(* ===================================================================== *)
(** * Part II, continued: the rest of the module *)
(* ===================================================================== *)

(** ** [int] on strings *)

Example int_plain : PyText.to_int "8" = Some 8. Proof. reflexivity. Qed.
Example int_zeros : PyText.to_int "008" = Some 8. Proof. reflexivity. Qed.
Example int_grouped : PyText.to_int "1_000" = Some 1000. Proof. reflexivity. Qed.
Example int_signed : PyText.to_int "-7" = Some (-7). Proof. reflexivity. Qed.
Example int_plus : PyText.to_int "+7" = Some 7. Proof. reflexivity. Qed.
Example int_spaces : PyText.to_int " 7 " = Some 7. Proof. reflexivity. Qed.
Example int_empty : PyText.to_int EmptyString = None. Proof. reflexivity. Qed.
Example int_sign_only : PyText.to_int "-" = None. Proof. reflexivity. Qed.
Example int_sign_space : PyText.to_int "+ 7" = None. Proof. reflexivity. Qed.
Example int_leading_bar : PyText.to_int "_7" = None. Proof. reflexivity. Qed.
Example int_trailing_bar : PyText.to_int "7_" = None. Proof. reflexivity. Qed.
Example int_double_bar : PyText.to_int "7__7" = None. Proof. reflexivity. Qed.
Example int_inner_space : PyText.to_int "1 2" = None. Proof. reflexivity. Qed.
Example int_float : PyText.to_int "1.0" = None. Proof. reflexivity. Qed.

Example parse_zone_central :
  _parse_zone (Some "us-central1-a") = Ret (Some ("us-central1", "a")).
Proof. reflexivity. Qed.

Example parse_zone_region_only : _parse_zone (Some "us-central1") = Ret None.
Proof. reflexivity. Qed.

Example parse_zone_four_parts : _parse_zone (Some "a-b-c-d") = Ret None.
Proof. reflexivity. Qed.

Example parse_tpu_spec_8xV3 : _parse_tpu_spec "8xV3" = Ret (mkTPUSpec "V3" 8).
Proof. reflexivity. Qed.

Example parse_tpu_spec_08xV2 : _parse_tpu_spec "08xV2" = Ret (mkTPUSpec "V2" 8).
Proof. reflexivity. Qed.

Example parse_tpu_spec_V4 : _parse_tpu_spec "8xV4" = Raise ArgumentTypeError.
Proof. reflexivity. Qed.

Example parse_tpu_spec_two_kinds :
  _parse_tpu_spec "8xV2V3" = Raise ArgumentTypeError.
Proof. reflexivity. Qed.

(** ** [_parse_zone] *)

Lemma match_zone_re_unfold (s : string) :
  Rx.match_ zone_re s =
  Re.plus_greedy lower_or_digit
    (fun t1 s1 =>
       match Re.strip_prefix "-" s1 with
       | Some s2 =>
           Re.plus_greedy lower_or_digit
             (fun t2 s3 =>
                match Re.strip_prefix "-" s3 with
                | Some s4 =>
                    Re.plus_greedy lower_letter
                      (fun t3 s5 =>
                         if Re.at_eos s5 then
                           Some [("region", (t1 +:+ "-") +:+ t2); ("zone", t3)]
                         else None)
                      EmptyString s4
                | None => None
                end)
             EmptyString s2
       | None => None
       end)
    EmptyString s.
Proof. reflexivity. Qed.

Lemma match_zone_re_exact (r1 r2 z : string) :
  r1 <> EmptyString -> PyStr.forallb lower_or_digit r1 = true ->
  r2 <> EmptyString -> PyStr.forallb lower_or_digit r2 = true ->
  z <> EmptyString -> PyStr.forallb lower_letter z = true ->
  Rx.match_ zone_re (r1 +:+ "-" +:+ r2 +:+ "-" +:+ z)
  = Some [("region", r1 +:+ "-" +:+ r2); ("zone", z)].
Proof.
  intros Hr1 Hc1 Hr2 Hc2 Hz Hcz. rewrite match_zone_re_unfold.
  apply plus_greedy_longest; [done | done | reflexivity |].
  rewrite strip_prefix_append.
  apply plus_greedy_longest; [done | done | reflexivity |].
  rewrite strip_prefix_append.
  rewrite <- (append_empty_r z) at 1.
  apply plus_greedy_longest; [done | done | exact I |].
  cbn [Re.at_eos bool_decide decide_rel orb]. by rewrite append_assoc.
Qed.

Lemma match_zone_re_inv (s : string) gd :
  Rx.match_ zone_re s = Some gd ->
  exists r1 r2 z,
    r1 <> EmptyString /\ PyStr.forallb lower_or_digit r1 = true
    /\ r2 <> EmptyString /\ PyStr.forallb lower_or_digit r2 = true
    /\ z <> EmptyString /\ PyStr.forallb lower_letter z = true
    /\ gd = [("region", r1 +:+ "-" +:+ r2); ("zone", z)]
    /\ (s = r1 +:+ "-" +:+ r2 +:+ "-" +:+ z
        \/ s = r1 +:+ "-" +:+ r2 +:+ "-" +:+ z +:+ String "010" EmptyString).
Proof.
  rewrite match_zone_re_unfold.
  intros (r1 & s1 & Hr1 & Hc1 & -> & Hk1)%plus_greedy_inv.
  destruct (Re.strip_prefix "-" s1) as [s2|] eqn:H1; [| done].
  apply strip_prefix_inv in H1 as ->.
  apply plus_greedy_inv in Hk1 as (r2 & s3 & Hr2 & Hc2 & -> & Hk2).
  destruct (Re.strip_prefix "-" s3) as [s4|] eqn:H2; [| done].
  apply strip_prefix_inv in H2 as ->.
  apply plus_greedy_inv in Hk2 as (z & s5 & Hz & Hcz & -> & Hk3).
  destruct (Re.at_eos s5) eqn:Heos; [| done].
  injection Hk3 as <-. exists r1, r2, z.
  change (EmptyString +:+ r1) with r1. change (EmptyString +:+ r2) with r2.
  change (EmptyString +:+ z) with z.
  repeat (split; [done |]).
  split; [by rewrite append_assoc |].
  apply at_eos_inv in Heos as [-> | ->]; [left | right];
    by rewrite ?append_empty_r.
Qed.

(** X1.  [_parse_zone] gives [None] for no zone and never raises.  A
    zone [<a>-<b>-<c>], with [<a>] and [<b>] non-empty runs of lower-case
    letters and digits and [<c>] a non-empty run of lower-case letters,
    is split into the region [<a>-<b>] and the zone letter [<c>].
    Whenever a pair is returned, the input is the region, a dash and the
    zone letters (one newline may follow), so joining the pair gives the
    zone back. *)
Theorem parse_zone_correct :
  _parse_zone None = Ret None
  /\ (forall zone, exists r, _parse_zone zone = Ret r)
  /\ (forall r1 r2 z,
        r1 <> EmptyString -> PyStr.forallb lower_or_digit r1 = true ->
        r2 <> EmptyString -> PyStr.forallb lower_or_digit r2 = true ->
        z <> EmptyString -> PyStr.forallb lower_letter z = true ->
        _parse_zone (Some (r1 +:+ "-" +:+ r2 +:+ "-" +:+ z))
        = Ret (Some (r1 +:+ "-" +:+ r2, z)))
  /\ (forall s region z,
        _parse_zone (Some s) = Ret (Some (region, z)) ->
        z <> EmptyString /\ PyStr.forallb lower_letter z = true
        /\ (s = region +:+ "-" +:+ z
            \/ s = region +:+ "-" +:+ z +:+ String "010" EmptyString)
        /\ exists r1 r2,
             region = r1 +:+ "-" +:+ r2
             /\ r1 <> EmptyString /\ PyStr.forallb lower_or_digit r1 = true
             /\ r2 <> EmptyString /\ PyStr.forallb lower_or_digit r2 = true).
Proof.
  split; [done |]. split; [| split].
  - intros [s|]; [| by eexists]. unfold _parse_zone.
    destruct (Rx.match_ zone_re s) as [gd|] eqn:Hm; [| by eexists].
    apply match_zone_re_inv in Hm as (r1 & r2 & z & _ & _ & _ & _ & _ & _ & -> & _).
    by eexists.
  - intros r1 r2 z Hr1 Hc1 Hr2 Hc2 Hz Hcz. unfold _parse_zone.
    by rewrite match_zone_re_exact.
  - intros s region z. unfold _parse_zone.
    destruct (Rx.match_ zone_re s) as [gd|] eqn:Hm; [| done].
    apply match_zone_re_inv in Hm
      as (r1 & r2 & z' & Hr1 & Hc1 & Hr2 & Hc2 & Hz & Hcz & -> & Hs).
    cbn. intros [= <- <-]. split; [done |]. split; [done |].
    split; [by rewrite !append_assoc | by exists r1, r2].
Qed.

Lemma parse_zone_correct_witness :
  _parse_zone (Some "europe-west4-ab") = Ret (Some ("europe-west4", "ab"))
  /\ ("us-central1-a" = "us-central1" +:+ "-" +:+ "a"
      \/ "us-central1-a"
         = "us-central1" +:+ "-" +:+ "a" +:+ String "010" EmptyString).
Proof.
  destruct parse_zone_correct as (_ & _ & Hsplit & Hjoin).
  split.
  - apply (Hsplit "europe" "west4" "ab"); (discriminate || reflexivity).
  - apply (Hjoin "us-central1-a" "us-central1" "a"). reflexivity.
Defined.

(** ** [int] and [str] *)

Lemma digits_not_space c : PyText.is_digit c = true -> PyText.is_int_space c = false.
Proof. each_char c; done. Qed.

Lemma digits_not_sign c :
  PyText.is_digit c = true -> c <> "-"%char /\ c <> "+"%char /\ c <> "_"%char.
Proof. each_char c; done. Qed.

Lemma rstrip_digits (s : string) :
  PyStr.forallb PyText.is_digit s = true -> PyText.rstrip s = s.
Proof.
  induction s as [|c s IH]; [done |]. cbn [PyStr.forallb PyText.rstrip].
  intros [Hc Hs]%andb_true_iff. rewrite (IH Hs).
  destruct s; [by rewrite digits_not_space | done].
Qed.

Lemma lstrip_digits (s : string) :
  PyStr.forallb PyText.is_digit s = true -> PyText.lstrip s = s.
Proof.
  destruct s as [|c s]; [done |]. cbn [PyStr.forallb PyText.lstrip].
  intros [Hc _]%andb_true_iff. by rewrite digits_not_space.
Qed.

Lemma grouped_digits_plain (s : string) after :
  PyStr.forallb PyText.is_digit s = true ->
  s <> EmptyString \/ after = true ->
  PyText.grouped_digits s after = Some s.
Proof.
  revert after. induction s as [|c s IH]; intros after Hs Hne.
  - destruct Hne as [? | ->]; done.
  - cbn [PyStr.forallb] in Hs. apply andb_true_iff in Hs as [Hc Hs].
    cbn [PyText.grouped_digits]. rewrite Hc, (IH true); auto.
Qed.

Lemma uint_of_digits (s : string) :
  PyStr.forallb PyText.is_digit s = true ->
  exists d, NilEmpty.uint_of_string s = Some d.
Proof.
  induction s as [|c s IH]; [by eexists |]. cbn [PyStr.forallb].
  intros [Hc Hs]%andb_true_iff. destruct (IH Hs) as [d Hd].
  cbn [NilEmpty.uint_of_string]. rewrite Hd. revert Hc.
  each_char c; intros; try discriminate; by eexists.
Qed.

Lemma unsigned_digits (s : string) :
  s <> EmptyString -> PyStr.forallb PyText.is_digit s = true ->
  exists n, PyText.unsigned s = Some n /\ 0 <= n.
Proof.
  intros Hne Hs. unfold PyText.unsigned.
  rewrite grouped_digits_plain by auto. destruct (uint_of_digits s Hs) as [d Hd].
  cbn. rewrite Hd. cbn. eexists. split; [done |]. unfold Z.of_uint. lia.
Qed.

(** A non-empty string of digits is the decimal notation of a natural
    number. *)
Lemma to_int_digits (s : string) :
  s <> EmptyString -> PyStr.forallb PyText.is_digit s = true ->
  exists n, PyText.to_int s = Some n /\ 0 <= n /\ PyText.unsigned s = Some n.
Proof.
  intros Hne Hs. destruct (unsigned_digits s Hne Hs) as (n & Hn & Hpos).
  exists n. split; [| done]. unfold PyText.to_int.
  rewrite lstrip_digits, rstrip_digits by done.
  destruct s as [|c s]; [done |]. cbn [PyStr.forallb] in Hs.
  apply andb_true_iff in Hs as [Hc _].
  destruct (digits_not_sign c Hc) as (Hm & Hp & _).
  destruct c as [[] [] [] [] [] [] [] []]; try done.
Qed.

Lemma string_of_uint_digits d :
  PyStr.forallb PyText.is_digit (NilEmpty.string_of_uint d) = true.
Proof. induction d; cbn; auto. Qed.

Lemma string_of_uint_nonempty d :
  d <> Decimal.Nil -> NilEmpty.string_of_uint d <> EmptyString.
Proof. by destruct d. Qed.

Lemma unsigned_of_pos p :
  PyText.unsigned (NilEmpty.string_of_uint (Pos.to_uint p)) = Some (Z.pos p).
Proof.
  unfold PyText.unsigned. rewrite grouped_digits_plain.
  - cbn. rewrite NilEmpty.usu. cbn. unfold Z.of_uint.
    by rewrite DecimalPos.Unsigned.of_to.
  - apply string_of_uint_digits.
  - left. apply string_of_uint_nonempty. apply DecimalPos.Unsigned.to_uint_nonnil.
Qed.

Lemma of_int_pos p :
  PyStr.of_int (Z.pos p) = NilEmpty.string_of_uint (Pos.to_uint p).
Proof.
  unfold PyStr.of_int. cbn. pose proof (DecimalPos.Unsigned.to_uint_nonnil p).
  by destruct (Pos.to_uint p).
Qed.

Lemma of_int_neg p :
  PyStr.of_int (Z.neg p) = String "-" (NilEmpty.string_of_uint (Pos.to_uint p)).
Proof.
  unfold PyStr.of_int. cbn. pose proof (DecimalPos.Unsigned.to_uint_nonnil p).
  by destruct (Pos.to_uint p).
Qed.

Lemma of_int_nonneg_digits n :
  0 <= n ->
  PyStr.of_int n <> EmptyString
  /\ PyStr.forallb PyText.is_digit (PyStr.of_int n) = true.
Proof.
  intros Hn. destruct n as [|p|p]; [done | | lia].
  rewrite of_int_pos. split; [| apply string_of_uint_digits].
  apply string_of_uint_nonempty, DecimalPos.Unsigned.to_uint_nonnil.
Qed.

(** [int(str(n)) == n] for every integer. *)
Lemma to_int_of_int n : PyText.to_int (PyStr.of_int n) = Some n.
Proof.
  destruct n as [|p|p]; [done | |].
  - destruct (to_int_digits (PyStr.of_int (Z.pos p))) as (m & Hm & _ & Hu);
      [apply of_int_nonneg_digits; lia .. |].
    rewrite Hm. rewrite of_int_pos, unsigned_of_pos in Hu. done.
  - rewrite of_int_neg. unfold PyText.to_int.
    set (ds := NilEmpty.string_of_uint (Pos.to_uint p)).
    assert (Hds : PyStr.forallb PyText.is_digit ds = true)
      by apply string_of_uint_digits.
    assert (Hne : ds <> EmptyString)
      by apply string_of_uint_nonempty, DecimalPos.Unsigned.to_uint_nonnil.
    cbn [PyText.lstrip]. change (PyText.is_int_space "-") with false. cbn iota.
    cbn [PyText.rstrip]. rewrite rstrip_digits by done.
    destruct ds as [|c ds'] eqn:Eds; [done |].
    subst ds. rewrite <- Eds, unsigned_of_pos. done.
Qed.

(** ** [_parse_tpu_spec] *)

Lemma match_tpu_spec_re_unfold (spec : string) :
  Rx.match_ tpu_spec_re spec =
  Re.plus_greedy PyText.is_digit
    (fun count s1 =>
       match Re.strip_prefix "x" s1 with
       | Some s2 =>
           match
             match Re.strip_prefix "V2" s2 with
             | Some s3 =>
                 if Re.at_eos s3 then Some [("count", count); ("tpu", "V2")]
                 else None
             | None => None
             end
           with
           | Some r => Some r
           | None =>
               match
                 match Re.strip_prefix "V3" s2 with
                 | Some s3 =>
                     if Re.at_eos s3 then Some [("count", count); ("tpu", "V3")]
                     else None
                 | None => None
                 end
               with
               | Some r => Some r
               | None => None
               end
           end
       | None => None
       end)
    EmptyString spec.
Proof. reflexivity. Qed.

Lemma match_tpu_spec_re_exact (digits kind : string) :
  digits <> EmptyString -> PyStr.forallb PyText.is_digit digits = true ->
  kind ∈ ["V2"; "V3"] ->
  Rx.match_ tpu_spec_re (digits +:+ "x" +:+ kind)
  = Some [("count", digits); ("tpu", kind)].
Proof.
  intros Hne Hd Hkind. rewrite match_tpu_spec_re_unfold.
  apply plus_greedy_longest; [done | done | reflexivity |].
  rewrite strip_prefix_append.
  apply elem_of_cons in Hkind as [-> | Hkind]; [reflexivity |].
  apply elem_of_cons in Hkind as [-> | Hkind]; [reflexivity |].
  by apply elem_of_nil in Hkind.
Qed.

Lemma match_tpu_spec_re_inv (spec : string) gd :
  Rx.match_ tpu_spec_re spec = Some gd ->
  exists digits kind,
    digits <> EmptyString /\ PyStr.forallb PyText.is_digit digits = true
    /\ kind ∈ ["V2"; "V3"]
    /\ gd = [("count", digits); ("tpu", kind)]
    /\ (spec = digits +:+ "x" +:+ kind
        \/ spec = digits +:+ "x" +:+ kind +:+ String "010" EmptyString).
Proof.
  rewrite match_tpu_spec_re_unfold.
  intros (digits & s1 & Hne & Hd & -> & Hk)%plus_greedy_inv.
  change (EmptyString +:+ digits) with digits in Hk.
  destruct (Re.strip_prefix "x" s1) as [s2|] eqn:H1; [| done].
  apply strip_prefix_inv in H1 as ->.
  destruct (Re.strip_prefix "V2" s2) as [s3|] eqn:H2.
  - apply strip_prefix_inv in H2 as ->.
    destruct (Re.at_eos s3) eqn:Heos.
    + injection Hk as <-. exists digits, "V2".
      repeat (split; [done || apply list_elem_of_here |]).
      apply at_eos_inv in Heos as [-> | ->]; [left | right]; done.
    + destruct s3; done.
  - destruct (Re.strip_prefix "V3" s2) as [s3|] eqn:H3; [| done].
    apply strip_prefix_inv in H3 as ->.
    destruct (Re.at_eos s3) eqn:Heos; [| done].
    injection Hk as <-. exists digits, "V3".
    split; [done |]. split; [done |].
    split; [apply list_elem_of_further, list_elem_of_here |].
    split; [done |].
    apply at_eos_inv in Heos as [-> | ->]; [left | right]; done.
Qed.

Lemma parse_tpu_spec_exact n (kind : string) :
  0 <= n -> kind ∈ ["V2"; "V3"] ->
  _parse_tpu_spec (PyStr.of_int n +:+ "x" +:+ kind) = Ret (mkTPUSpec kind n).
Proof.
  intros Hn Hkind. unfold _parse_tpu_spec.
  destruct (of_int_nonneg_digits n Hn) as [Hne Hd].
  rewrite match_tpu_spec_re_exact by done.
  cbn [PyDict.getitem PyDict.get mbind outcome_bind decide decide_rel].
  change (PyDict.getitem [("count", PyStr.of_int n); ("tpu", kind)] "tpu")
    with (Ret (A := string) kind).
  change (PyDict.getitem [("count", PyStr.of_int n); ("tpu", kind)] "count")
    with (Ret (A := string) (PyStr.of_int n)).
  cbv beta iota delta [mbind outcome_bind]. unfold TPU_by_name.
  case_bool_decide; [| done].
  unfold int_of_str. by rewrite to_int_of_int.
Qed.

(** X2.  [_parse_tpu_spec] reads [<count>x<kind>]: the decimal notation
    of any count that is not negative, an [x] and one of the kinds [V2]
    and [V3] give back that kind and that count.  Whatever it returns has
    one of the two kinds and a count that is not negative, and comes from
    a string of that form (digits, [x], kind; one newline may follow).
    Any other string is an [ArgumentTypeError] and no other exception. *)
Theorem parse_tpu_spec_correct :
  (forall n kind,
     0 <= n -> kind ∈ ["V2"; "V3"] ->
     _parse_tpu_spec (PyStr.of_int n +:+ "x" +:+ kind) = Ret (mkTPUSpec kind n))
  /\ (forall spec t,
        _parse_tpu_spec spec = Ret t ->
        t.(tpu) ∈ ["V2"; "V3"] /\ 0 <= t.(tpu_count)
        /\ exists digits,
             digits <> EmptyString
             /\ PyStr.forallb PyText.is_digit digits = true
             /\ PyText.to_int digits = Some t.(tpu_count)
             /\ (spec = digits +:+ "x" +:+ t.(tpu)
                 \/ spec = digits +:+ "x" +:+ t.(tpu)
                           +:+ String "010" EmptyString))
  /\ (forall spec,
        (exists t, _parse_tpu_spec spec = Ret t)
        \/ _parse_tpu_spec spec = Raise ArgumentTypeError).
Proof.
  split; [| split].
  - intros n kind Hn Hkind. by apply parse_tpu_spec_exact.
  - intros spec t. unfold _parse_tpu_spec.
    destruct (Rx.match_ tpu_spec_re spec) as [gd|] eqn:Hm; [| done].
    apply match_tpu_spec_re_inv in Hm as (digits & kind & Hne & Hd & Hkind & -> & Hs).
    destruct (to_int_digits digits Hne Hd) as (n & Hn & Hpos & _).
    cbn [PyDict.getitem PyDict.get decide decide_rel].
    change (PyDict.getitem [("count", digits); ("tpu", kind)] "tpu")
      with (Ret (A := string) kind).
    change (PyDict.getitem [("count", digits); ("tpu", kind)] "count")
      with (Ret (A := string) digits).
    cbv beta iota delta [mbind outcome_bind]. unfold TPU_by_name.
    case_bool_decide; [| done].
    unfold int_of_str. rewrite Hn. intros [= <-]. cbn.
    split; [done |]. split; [done |]. by exists digits.
  - intros spec. unfold _parse_tpu_spec.
    destruct (Rx.match_ tpu_spec_re spec) as [gd|] eqn:Hm; [| by right].
    apply match_tpu_spec_re_inv in Hm as (digits & kind & Hne & Hd & Hkind & -> & Hs).
    destruct (to_int_digits digits Hne Hd) as (n & Hn & Hpos & _).
    left.
    change (PyDict.getitem [("count", digits); ("tpu", kind)] "tpu")
      with (Ret (A := string) kind).
    change (PyDict.getitem [("count", digits); ("tpu", kind)] "count")
      with (Ret (A := string) digits).
    cbv beta iota delta [mbind outcome_bind]. unfold TPU_by_name.
    case_bool_decide; [| done].
    unfold int_of_str. rewrite Hn. by eexists.
Qed.

Lemma parse_tpu_spec_correct_witness :
  _parse_tpu_spec (PyStr.of_int 32 +:+ "x" +:+ "V2") = Ret (mkTPUSpec "V2" 32)
  /\ 0 <= 8.
Proof.
  destruct parse_tpu_spec_correct as (Hparse & Hinv & _).
  split.
  - apply (Hparse 32 "V2"); [lia | compute_done].
  - apply (Hinv "8xV3" (mkTPUSpec "V3" 8)). reflexivity.
Defined.

(** X3.  The lines [_job_submit] prints to say which TPU types the
    cluster supports are written kind first ([V3x8]); [_parse_tpu_spec]
    wants the count first and refuses every one of them. *)
Theorem printed_tpu_line_does_not_parse (t : TPUSpec) :
  t.(tpu) ∈ ["V2"; "V3"] ->
  _parse_tpu_spec (tpu_line_text t) = Raise ArgumentTypeError.
Proof.
  intros Hkind. unfold _parse_tpu_spec, tpu_line_text.
  rewrite match_tpu_spec_re_unfold.
  apply elem_of_cons in Hkind as [-> | Hkind]; [reflexivity |].
  apply elem_of_cons in Hkind as [-> | Hkind]; [reflexivity |].
  by apply elem_of_nil in Hkind.
Qed.

Lemma printed_tpu_line_does_not_parse_witness :
  _parse_tpu_spec (tpu_line_text (mkTPUSpec "V3" 8)) = Raise ArgumentTypeError.
Proof. apply (printed_tpu_line_does_not_parse (mkTPUSpec "V3" 8)). compute_done. Defined.

(** ** The accelerator types of a zone and of a cluster *)

Example zone_tpu_types_example :
  _get_zone_tpu_types (Some (Some ["v2-8"; "v3-8"; "v3-32"; "v4-8"; "tpu"]))
  = (Ret (Some [mkTPUSpec "V2" 8; mkTPUSpec "V3" 8; mkTPUSpec "V3" 32]), []).
Proof. reflexivity. Qed.

Example zone_gpu_types_example :
  _get_zone_gpu_types ["K80"; "P100"; "V100"]
    (Some (Some [mkZoneAccelerator "nvidia-tesla-k80" 8;
                 mkZoneAccelerator "nvidia-tesla-p100-vws" 4;
                 mkZoneAccelerator "nvidia-tesla-p100" 4]))
  = (Ret (Some [mkGPUSpec "K80" 8; mkGPUSpec "P100" 4]), []).
Proof. reflexivity. Qed.


Lemma match_tpu_re_unfold (s : string) :
  Rx.match_ tpu_re s =
  match
    match Re.strip_prefix "v2" s with
    | Some s1 =>
        match Re.strip_prefix "-" s1 with
        | Some s2 =>
            Re.plus_greedy PyText.is_digit
              (fun count s3 =>
                 if Re.at_eos s3 then Some [("tpu", "v2"); ("count", count)]
                 else None)
              EmptyString s2
        | None => None
        end
    | None => None
    end
  with
  | Some r => Some r
  | None =>
      match
        match Re.strip_prefix "v3" s with
        | Some s1 =>
            match Re.strip_prefix "-" s1 with
            | Some s2 =>
                Re.plus_greedy PyText.is_digit
                  (fun count s3 =>
                     if Re.at_eos s3 then Some [("tpu", "v3"); ("count", count)]
                     else None)
                  EmptyString s2
            | None => None
            end
        | None => None
        end
      with
      | Some r => Some r
      | None => None
      end
  end.
Proof. reflexivity. Qed.

Lemma match_tpu_re_inv (s : string) gd :
  Rx.match_ tpu_re s = Some gd ->
  exists kind digits,
    kind ∈ ["v2"; "v3"]
    /\ digits <> EmptyString /\ PyStr.forallb PyText.is_digit digits = true
    /\ gd = [("tpu", kind); ("count", digits)]
    /\ (s = kind +:+ "-" +:+ digits
        \/ s = kind +:+ "-" +:+ digits +:+ String "010" EmptyString).
Proof.
  rewrite match_tpu_re_unfold.
  assert (Hbranch : forall kind r,
    match Re.strip_prefix kind s with
    | Some s1 =>
        match Re.strip_prefix "-" s1 with
        | Some s2 =>
            Re.plus_greedy PyText.is_digit
              (fun count s3 =>
                 if Re.at_eos s3 then Some [("tpu", kind); ("count", count)]
                 else None)
              EmptyString s2
        | None => None
        end
    | None => None
    end = Some r ->
    exists digits,
      digits <> EmptyString /\ PyStr.forallb PyText.is_digit digits = true
      /\ r = [("tpu", kind); ("count", digits)]
      /\ (s = kind +:+ "-" +:+ digits
          \/ s = kind +:+ "-" +:+ digits +:+ String "010" EmptyString)).
  { intros kind r.
    destruct (Re.strip_prefix kind s) as [s1|] eqn:H1; [| done].
    apply strip_prefix_inv in H1 as ->.
    destruct (Re.strip_prefix "-" s1) as [s2|] eqn:H2; [| done].
    apply strip_prefix_inv in H2 as ->.
    intros (digits & s3 & Hne & Hd & -> & Hk)%plus_greedy_inv.
    destruct (Re.at_eos s3) eqn:Heos; [| done].
    injection Hk as <-. exists digits. split; [done |]. split; [done |].
    split; [done |].
    apply at_eos_inv in Heos as [-> | ->]; [left | right];
      by rewrite ?append_empty_r. }
  destruct (match Re.strip_prefix "v2" s with Some _ => _ | None => _ end)
    as [r|] eqn:Hv2.
  - intros [= <-]. apply Hbranch in Hv2 as (digits & ? & ? & ? & ?).
    exists "v2", digits. split; [apply list_elem_of_here | done].
  - destruct (match Re.strip_prefix "v3" s with Some _ => _ | None => _ end)
      as [r|] eqn:Hv3; [| done].
    intros [= <-]. apply Hbranch in Hv3 as (digits & ? & ? & ? & ?).
    exists "v3", digits.
    split; [apply list_elem_of_further, list_elem_of_here | done].
Qed.

Lemma match_tpu_re_exact (kind digits : string) :
  kind ∈ ["v2"; "v3"] ->
  digits <> EmptyString -> PyStr.forallb PyText.is_digit digits = true ->
  Rx.match_ tpu_re (kind +:+ "-" +:+ digits)
  = Some [("tpu", kind); ("count", digits)].
Proof.
  intros Hkind Hne Hd. rewrite match_tpu_re_unfold.
  assert (Hrun : forall k,
    Re.plus_greedy PyText.is_digit
      (fun count s3 =>
         if Re.at_eos s3 then Some [("tpu", k); ("count", count)] else None)
      EmptyString digits
    = Some [("tpu", k); ("count", digits)]).
  { intros k. rewrite <- (append_empty_r digits) at 1.
    by apply plus_greedy_longest. }
  apply elem_of_cons in Hkind as [-> | Hkind].
  { change ("v2" +:+ "-" +:+ digits) with (String "v" (String "2" (String "-" digits))).
    cbn [Re.strip_prefix]. rewrite !decide_True by done. by rewrite Hrun. }
  apply elem_of_cons in Hkind as [-> | Hkind]; [| by apply elem_of_nil in Hkind].
  change ("v3" +:+ "-" +:+ digits) with (String "v" (String "3" (String "-" digits))).
  cbn [Re.strip_prefix]. rewrite decide_True by done.
  rewrite decide_False by done. rewrite !decide_True by done.
  by rewrite Hrun.
Qed.

Lemma zone_tpu_step_appends tpus type_ :
  zone_tpu_step tpus type_
  = Ret (tpus ++ match tpu_of_type type_ with Some t => [t] | None => [] end).
Proof.
  unfold tpu_of_type, zone_tpu_step.
  destruct (Rx.match_ tpu_re type_) as [gd|] eqn:Hm; [| by rewrite app_nil_r].
  apply match_tpu_re_inv in Hm as (kind & digits & Hkind & Hne & Hd & -> & _).
  destruct (to_int_digits digits Hne Hd) as (n & Hn & _).
  change (PyDict.getitem [("tpu", kind); ("count", digits)] "tpu")
    with (Ret (A := string) kind).
  change (PyDict.getitem [("tpu", kind); ("count", digits)] "count")
    with (Ret (A := string) digits).
  cbv beta iota delta [mbind outcome_bind]. unfold int_of_str. rewrite Hn.
  apply elem_of_cons in Hkind as [-> | Hkind]; [reflexivity |].
  apply elem_of_cons in Hkind as [-> | Hkind]; [reflexivity |].
  by apply elem_of_nil in Hkind.
Qed.

Lemma zone_tpu_types_run (types : list string) tpus :
  for_each types zone_tpu_step tpus = Ret (tpus ++ omap tpu_of_type types).
Proof.
  revert tpus. induction types as [|x types IH]; intros tpus.
  - cbn. by rewrite app_nil_r.
  - cbn [for_each omap list_omap]. rewrite zone_tpu_step_appends.
    cbv beta iota delta [mbind outcome_bind]. rewrite IH.
    destruct (tpu_of_type x); cbn; by rewrite <- ?app_assoc, ?app_nil_r.
Qed.

Lemma tpu_of_type_exact (kind : string) n :
  kind ∈ ["V2"; "V3"] -> 0 <= n ->
  tpu_of_type (PyStr.lower kind +:+ "-" +:+ PyStr.of_int n)
  = Some (mkTPUSpec kind n).
Proof.
  intros Hkind Hn. unfold tpu_of_type, zone_tpu_step.
  destruct (of_int_nonneg_digits n Hn) as [Hne Hd].
  assert (Hlow : PyStr.lower kind ∈ ["v2"; "v3"] /\ PyText.upper (PyStr.lower kind) = kind).
  { apply elem_of_cons in Hkind as [-> | Hkind];
      [split; [apply list_elem_of_here | reflexivity] |].
    apply elem_of_cons in Hkind as [-> | Hkind];
      [split; [apply list_elem_of_further, list_elem_of_here | reflexivity] |].
    by apply elem_of_nil in Hkind. }
  destruct Hlow as [Hlow Hup].
  rewrite match_tpu_re_exact by done.
  change (PyDict.getitem [("tpu", PyStr.lower kind); ("count", PyStr.of_int n)] "tpu")
    with (Ret (A := string) (PyStr.lower kind)).
  change (PyDict.getitem [("tpu", PyStr.lower kind); ("count", PyStr.of_int n)] "count")
    with (Ret (A := string) (PyStr.of_int n)).
  cbv beta iota delta [mbind outcome_bind]. rewrite Hup. unfold TPU_by_name.
  case_bool_decide; [| done]. unfold int_of_str. by rewrite to_int_of_int.
Qed.

Lemma tpu_of_type_inv (type_ : string) t :
  tpu_of_type type_ = Some t ->
  t.(tpu) ∈ ["V2"; "V3"] /\ 0 <= t.(tpu_count)
  /\ exists digits,
       PyText.to_int digits = Some t.(tpu_count)
       /\ (type_ = PyStr.lower t.(tpu) +:+ "-" +:+ digits
           \/ type_ = PyStr.lower t.(tpu) +:+ "-" +:+ digits
                      +:+ String "010" EmptyString).
Proof.
  unfold tpu_of_type, zone_tpu_step.
  destruct (Rx.match_ tpu_re type_) as [gd|] eqn:Hm; [| done].
  apply match_tpu_re_inv in Hm as (kind & digits & Hkind & Hne & Hd & -> & Hs).
  destruct (to_int_digits digits Hne Hd) as (n & Hn & Hpos & _).
  change (PyDict.getitem [("tpu", kind); ("count", digits)] "tpu")
    with (Ret (A := string) kind).
  change (PyDict.getitem [("tpu", kind); ("count", digits)] "count")
    with (Ret (A := string) digits).
  cbv beta iota delta [mbind outcome_bind]. unfold int_of_str. rewrite Hn.
  apply elem_of_cons in Hkind as [-> | Hkind].
  { cbn. intros [= <-]. cbn. split; [compute_done |]. split; [done |].
    by exists digits. }
  apply elem_of_cons in Hkind as [-> | Hkind]; [| by apply elem_of_nil in Hkind].
  cbn. intros [= <-]. cbn. split; [compute_done |]. split; [done |].
  by exists digits.
Qed.

(** X4.  [_get_zone_tpu_types] answers [None], with an error in the log,
    when the service gives no answer, and raises [KeyError] when the
    answer lacks the key [acceleratorTypes].  Otherwise it never raises:
    it returns, in the order of the answer, one specification for every
    entry of the form [v2-<n>] or [v3-<n>] and nothing for any other
    entry.  Every specification it returns has the kind [V2] or [V3] and
    a count that is not negative. *)
Theorem get_zone_tpu_types_correct :
  _get_zone_tpu_types None = (Ret None, ["error getting tpu types"])
  /\ _get_zone_tpu_types (Some None) = (Raise KeyError, [])
  /\ (forall types,
        _get_zone_tpu_types (Some (Some types))
        = (Ret (Some (omap tpu_of_type types)), []))
  /\ (forall kind n,
        kind ∈ ["V2"; "V3"] -> 0 <= n ->
        tpu_of_type (PyStr.lower kind +:+ "-" +:+ PyStr.of_int n)
        = Some (mkTPUSpec kind n))
  /\ (forall type_ t,
        tpu_of_type type_ = Some t ->
        t.(tpu) ∈ ["V2"; "V3"] /\ 0 <= t.(tpu_count)
        /\ exists digits,
             PyText.to_int digits = Some t.(tpu_count)
             /\ (type_ = PyStr.lower t.(tpu) +:+ "-" +:+ digits
                 \/ type_ = PyStr.lower t.(tpu) +:+ "-" +:+ digits
                            +:+ String "010" EmptyString)).
Proof.
  split; [done |]. split; [done |]. split; [| split].
  - intros types. unfold _get_zone_tpu_types.
    cbv beta iota delta [mbind outcome_bind]. by rewrite zone_tpu_types_run.
  - apply tpu_of_type_exact.
  - apply tpu_of_type_inv.
Qed.

Lemma get_zone_tpu_types_correct_witness :
  tpu_of_type (PyStr.lower "V3" +:+ "-" +:+ PyStr.of_int 8)
  = Some (mkTPUSpec "V3" 8)
  /\ 0 <= 32.
Proof.
  destruct get_zone_tpu_types_correct as (_ & _ & _ & Hexact & Hinv).
  split.
  - apply (Hexact "V3" 8); [compute_done | lia].
  - apply (Hinv "v2-32" (mkTPUSpec "V2" 32)). reflexivity.
Defined.

(** X5.  What the command line asks for and what the zone offers meet:
    when the TPU service lists the type [<kind in lower case>-<n>], the
    specification parsed from [<n>x<kind>] is a member of the list that
    [_get_zone_tpu_types] returns, which is the test [_job_submit]
    applies. *)
Theorem parsed_tpu_spec_is_listed (types : list string) (kind : string) n :
  kind ∈ ["V2"; "V3"] -> 0 <= n ->
  PyStr.lower kind +:+ "-" +:+ PyStr.of_int n ∈ types ->
  exists t available,
    _parse_tpu_spec (PyStr.of_int n +:+ "x" +:+ kind) = Ret t
    /\ _get_zone_tpu_types (Some (Some types)) = (Ret (Some available), [])
    /\ t ∈ available.
Proof.
  intros Hkind Hn Hin.
  exists (mkTPUSpec kind n), (omap tpu_of_type types).
  split; [by apply parse_tpu_spec_exact |].
  split.
  { unfold _get_zone_tpu_types. cbv beta iota delta [mbind outcome_bind].
    by rewrite zone_tpu_types_run. }
  apply list_elem_of_omap. eexists. split; [exact Hin |].
  by apply tpu_of_type_exact.
Qed.

Lemma parsed_tpu_spec_is_listed_witness :
  exists t available,
    _parse_tpu_spec (PyStr.of_int 8 +:+ "x" +:+ "V3") = Ret t
    /\ _get_zone_tpu_types (Some (Some ["v2-8"; "v3-8"]))
       = (Ret (Some available), [])
    /\ t ∈ available.
Proof.
  apply (parsed_tpu_spec_is_listed ["v2-8"; "v3-8"] "V3" 8);
    [compute_done | lia | compute_done].
Defined.

(** ** GPU types *)

Lemma match_gpu_type_re_unfold (name : string) :
  Re.match_ gpu_type_re name =
  match Re.strip_prefix "nvidia-tesla-" name with
  | Some s =>
      Re.plus_greedy lower_or_digit
        (fun taken s' =>
           if Re.at_eos s' then Some (PyDict.set "type" taken []) else None)
        EmptyString s
  | None => None
  end.
Proof. reflexivity. Qed.

Lemma gpu_kind_of_type_inv (name kind : string) :
  gpu_kind_of_type name = Some kind ->
  kind <> EmptyString
  /\ PyStr.forallb lower_or_digit kind = true
  /\ (name = "nvidia-tesla-" +:+ kind
      \/ name = "nvidia-tesla-" +:+ kind +:+ String "010" EmptyString).
Proof.
  unfold gpu_kind_of_type. rewrite match_gpu_type_re_unfold.
  destruct (Re.strip_prefix "nvidia-tesla-" name) as [s|] eqn:Hpre; [| done].
  apply strip_prefix_inv in Hpre as ->.
  destruct (Re.plus_greedy _ _ _ s) as [gd|] eqn:Hm; [| done].
  apply plus_greedy_inv in Hm as (k & rest & Hne & Hcls & -> & Hk).
  destruct (Re.at_eos rest) eqn:Heos; [| done].
  injection Hk as <-. cbn. intros [= <-]. split; [done |]. split; [done |].
  apply at_eos_inv in Heos as [-> | ->]; [left | right];
    by rewrite ?append_empty_r.
Qed.

Lemma gpu_kind_of_type_exact (kind : string) :
  kind <> EmptyString -> PyStr.forallb lower_or_digit kind = true ->
  gpu_kind_of_type ("nvidia-tesla-" +:+ kind) = Some kind.
Proof.
  intros Hne Hcls. unfold gpu_kind_of_type.
  rewrite match_gpu_type_re_unfold, strip_prefix_append.
  rewrite <- (append_empty_r kind) at 1.
  by rewrite (plus_greedy_longest _ _ kind EmptyString EmptyString
                [("type", kind)]).
Qed.

Lemma match_gpu_type_re_dict (name : string) gd :
  Re.match_ gpu_type_re name = Some gd ->
  exists kind, gd = [("type", kind)] /\ gpu_kind_of_type name = Some kind.
Proof.
  intros Hm. unfold gpu_kind_of_type. rewrite Hm.
  rewrite match_gpu_type_re_unfold in Hm.
  destruct (Re.strip_prefix "nvidia-tesla-" name) as [s|]; [| done].
  apply plus_greedy_inv in Hm as (k & rest & _ & _ & _ & Hk).
  destruct (Re.at_eos rest); [| done]. injection Hk as <-. by exists k.
Qed.

Lemma zone_gpu_step_run members gpus (x : ZoneAccelerator) :
  zone_gpu_step members gpus x =
  if known_gpu_type members x.(accel_name) then
    Ret (gpus ++ match gpu_spec_of_accelerator x with
                 | Some g => [g]
                 | None => []
                 end)
  else Raise KeyError.
Proof.
  unfold zone_gpu_step, known_gpu_type, gpu_spec_of_accelerator.
  destruct (Re.match_ gpu_type_re (accel_name x)) as [gd|] eqn:Hm.
  - apply match_gpu_type_re_dict in Hm as (kind & -> & ->).
    change (PyDict.getitem [("type", kind)] "type") with (Ret (A := string) kind).
    cbv beta iota delta [mbind outcome_bind]. unfold GPU_by_name.
    by case_bool_decide.
  - unfold gpu_kind_of_type. rewrite Hm. cbn. by rewrite app_nil_r.
Qed.

Lemma zone_gpu_types_run members (items : list ZoneAccelerator) gpus :
  for_each items (zone_gpu_step members) gpus =
  if forallb (fun x => known_gpu_type members x.(accel_name)) items then
    Ret (gpus ++ omap gpu_spec_of_accelerator items)
  else Raise KeyError.
Proof.
  revert gpus. induction items as [|x items IH]; intros gpus.
  - cbn. by rewrite app_nil_r.
  - cbn [for_each forallb omap list_omap]. rewrite zone_gpu_step_run.
    destruct (known_gpu_type members (accel_name x)); [| done].
    cbv beta iota delta [mbind outcome_bind]. rewrite IH. cbn [andb].
    destruct (forallb _ items); [| done].
    destruct (gpu_spec_of_accelerator x); cbn;
      by rewrite <- ?app_assoc, ?app_nil_r.
Qed.

(** X6.  [_get_zone_gpu_types] answers [None], with an error in the log,
    when the compute service gives no answer, and raises [KeyError] when
    the answer has no [items].  An item counts when its name is
    [nvidia-tesla-<kind>], with [<kind>] a non-empty run of lower-case
    letters and digits (so [nvidia-tesla-p100-vws] does not count).
    When the upper-cased kind of every such item is a member of [GPU],
    the result is the list of their specifications, with the item's
    maximum number of cards, in the order of the answer.  As soon as one
    such item names a kind that is not a member, the call raises
    [KeyError] and returns no list at all. *)
Theorem get_zone_gpu_types_correct (GPU_members : list string) :
  _get_zone_gpu_types GPU_members None
  = (Ret None, ["error getting accelerator types"])
  /\ _get_zone_gpu_types GPU_members (Some None) = (Raise KeyError, [])
  /\ (forall items,
        _get_zone_gpu_types GPU_members (Some (Some items)) =
        (if forallb (fun x => known_gpu_type GPU_members x.(accel_name)) items
         then Ret (Some (omap gpu_spec_of_accelerator items))
         else Raise KeyError, []))
  /\ (forall items x kind,
        x ∈ items ->
        gpu_kind_of_type x.(accel_name) = Some kind ->
        PyText.upper kind ∉ GPU_members ->
        _get_zone_gpu_types GPU_members (Some (Some items))
        = (Raise KeyError, []))
  /\ (forall kind,
        kind <> EmptyString -> PyStr.forallb lower_or_digit kind = true ->
        gpu_kind_of_type ("nvidia-tesla-" +:+ kind) = Some kind)
  /\ (forall name kind,
        gpu_kind_of_type name = Some kind ->
        kind <> EmptyString
        /\ PyStr.forallb lower_or_digit kind = true
        /\ (name = "nvidia-tesla-" +:+ kind
            \/ name = "nvidia-tesla-" +:+ kind +:+ String "010" EmptyString)).
Proof.
  assert (Hrun : forall items,
    _get_zone_gpu_types GPU_members (Some (Some items)) =
    (if forallb (fun x => known_gpu_type GPU_members x.(accel_name)) items
     then Ret (Some (omap gpu_spec_of_accelerator items))
     else Raise KeyError, [])).
  { intros items. unfold _get_zone_gpu_types.
    cbv beta iota delta [mbind outcome_bind]. rewrite zone_gpu_types_run.
    by destruct (forallb _ items). }
  split; [done |]. split; [done |]. split; [done |]. split; [| split].
  - intros items x kind Hin Hkind Hmem. rewrite Hrun.
    destruct (forallb _ items) eqn:Hall; [| done].
    rewrite forallb_forall in Hall. apply list_elem_of_In, Hall in Hin.
    unfold known_gpu_type in Hin. rewrite Hkind in Hin.
    by apply bool_decide_eq_true in Hin.
  - apply gpu_kind_of_type_exact.
  - apply gpu_kind_of_type_inv.
Qed.

Lemma get_zone_gpu_types_correct_witness :
  _get_zone_gpu_types ["K80"; "P100"]
    (Some (Some [mkZoneAccelerator "nvidia-tesla-k80" 8;
                 mkZoneAccelerator "nvidia-tesla-a100" 16]))
  = (Raise KeyError, [])
  /\ gpu_kind_of_type ("nvidia-tesla-" +:+ "p100") = Some "p100"
  /\ "k80" <> EmptyString.
Proof.
  destruct (get_zone_gpu_types_correct ["K80"; "P100"])
    as (_ & _ & _ & Hraise & Hexact & Hinv).
  split; [| split].
  - apply (Hraise _ (mkZoneAccelerator "nvidia-tesla-a100" 16) "a100");
      [apply list_elem_of_further, list_elem_of_here | reflexivity
      | compute_done].
  - apply (Hexact "p100"); [discriminate | reflexivity].
  - apply (Hinv "nvidia-tesla-k80" "k80"). reflexivity.
Defined.

(** ** From the quotas of a region to the GPU limits of a cluster *)










Example cluster_gpu_types_example :
  get_gpu_types_body ["P100"; "V100"]
    (Some (mkClusterInfo
             (Some (Some [mkLimit "cpu" "10"; mkLimit "memory" "640";
                          mkLimit "nvidia-tesla-v100" "4"]))))
  = (Ret (Some [mkGPUSpec "V100" 4]), []).
Proof. reflexivity. Qed.

(** ** More on [_sanitize_job_name] *)

Lemma map_valid_fixed (s : string) :
  PyStr.forallb valid s = true -> PyStr.map keep_or_dash s = s.
Proof.
  induction s as [|c s IH]; [done |]. cbn [PyStr.forallb PyStr.map].
  intros [Hc Hs]%andb_true_iff. unfold keep_or_dash at 1. by rewrite Hc, IH.
Qed.

Lemma sanitize_dns_1123_fixed (r : string) :
  dns_1123 r = true -> _sanitize_job_name r = Ret r.
Proof.
  unfold dns_1123. intros Hd.
  apply andb_true_iff in Hd as [Hd Hvalid].
  apply andb_true_iff in Hd as [Hd Hend].
  apply andb_true_iff in Hd as [Hd Hstart].
  apply andb_true_iff in Hd as [Hne Hlow].
  unfold _sanitize_job_name. rewrite (lower_fixed r Hlow).
  unfold starts_alnum in Hstart. unfold ends_alnum in Hend.
  destruct (PyStr.first r) as [c0| |]; [| done | done].
  cbv beta iota delta [mbind outcome_bind]. rewrite Hstart. cbn [negb].
  destruct (PyStr.last r) as [cl| |]; [| done | done].
  rewrite Hend. cbn [negb]. by rewrite map_valid_fixed.
Qed.

(** X8.  Sanitising is idempotent: what [_sanitize_job_name] returns for
    a name, it returns unchanged when given it again. *)
Theorem sanitize_job_name_idempotent (name r : string) :
  _sanitize_job_name name = Ret r -> _sanitize_job_name r = Ret r.
Proof.
  intros Hr. destruct name as [|c name]; [done |].
  rewrite sanitize_job_name_by_rule in Hr by done. injection Hr as <-.
  apply sanitize_dns_1123_fixed. by apply sanitized_by_rule_dns_1123.
Qed.

Lemma sanitize_job_name_idempotent_witness :
  _sanitize_job_name "_run-1-0" = Ret "job--run-1-0"
  /\ _sanitize_job_name "job--run-1-0" = Ret "job--run-1-0".
Proof.
  split; [reflexivity |].
  apply (sanitize_job_name_idempotent "_run-1-0" "job--run-1-0"). reflexivity.
Defined.


Lemma length_append (a b : string) :
  String.length (a +:+ b) = (String.length a + String.length b)%nat.
Proof.
  induction a as [|c a IH]; [done |].
  change (String c a +:+ b) with (String c (a +:+ b)).
  cbn [String.length]. by rewrite IH.
Qed.




(** ** More on [_wait_for_operation] *)

(** X10.  [_wait_for_operation] has no time limit: after any number of
    polls that found the operation outside its terminal states it has not
    returned and is about to poll again (the model is out of fuel, not
    the loop at its end).  An exception of the operations service leaves
    the loop at once, after the pending polls so far. *)
Theorem wait_for_operation_no_timeout {W PyObj} `{!Backend W PyObj}
    client name conditions sleep_sec k (w w' : W) :
  pending client name conditions sleep_sec k w w' ->
  _wait_for_operation k client name conditions sleep_sec w
  = (Diverge, w', pending_events name sleep_sec k)
  /\ (forall e w'' fuel,
        client name w' = (Raise e, w'') -> (k < fuel)%nat ->
        _wait_for_operation fuel client name conditions sleep_sec w
        = (Raise e, w'',
           pending_events name sleep_sec k
             ++ [Called (req_operations_get name)])).
Proof.
  intros Hp. split.
  - replace k with (k + 0)%nat at 1 by lia.
    rewrite (wait_pending _ _ _ _ k w w' Hp). cbn. by rewrite app_nil_r.
  - intros e w'' fuel Hget Hfuel.
    replace fuel with (k + S (fuel - S k))%nat by lia.
    rewrite (wait_pending _ _ _ _ k w w' Hp).
    cbn [_wait_for_operation]. py_run. by rewrite Hget.
Qed.

Lemma wait_for_operation_no_timeout_witness :
  _wait_for_operation 2 cluster_client_operation "operation-1"
    default_conditions default_sleep_sec mock_polling
  = (Diverge,
     mkMock true None None None None None [Some op_done] [] JobMode_CPU [] 2,
     pending_events "operation-1" 1 2).
Proof.
  apply (wait_for_operation_no_timeout (W := Mock) (PyObj := unit)
           cluster_client_operation "operation-1" default_conditions
           default_sleep_sec 2%nat mock_polling
           (mkMock true None None None None None [Some op_done] []
              JobMode_CPU [] 2)).
  eapply pending_S; [reflexivity | compute_done |].
  eapply pending_S; [reflexivity | compute_done |].
  apply pending_O.
Defined.

(** ** What every run of a computation does *)

Section Always.
Context {W PyObj : Type} `{!Backend W PyObj}.
Variable P : Event -> Prop.

Lemma always_ret {A} (a : A) : always P (mret a : Py W A).
Proof. intros w. constructor. Qed.

Lemma always_lift {A} (o : outcome A) : always P (lift o : Py W A).
Proof. intros w. constructor. Qed.

Lemma always_emit e : P e -> always P (emit e : Py W unit).
Proof. intros He w. by repeat constructor. Qed.

Lemma always_request {A} r (f : W -> outcome A * W) :
  P (Called r) -> always P (request r f).
Proof.
  intros Hr w. unfold events, request. destruct (f w). by repeat constructor.
Qed.

Lemma always_call {A} (f : W -> outcome A * W) : always P (call f).
Proof. intros w. unfold events, call. destruct (f w). constructor. Qed.

(** The continuation has to behave on the values the first part can
    return. *)
Lemma always_bind {A B} (m : Py W A) (k : A -> Py W B) :
  always P m ->
  (forall a, (exists w, result (m w) = Ret a) -> always P (k a)) ->
  always P (m ≫= k).
Proof.
  intros Hm Hk w. specialize (Hm w).
  unfold events, result, mbind, Py_bind, bind in *.
  destruct (m w) as [[[a| |] w1] ev1] eqn:Hrun; cbn in *; try done.
  assert (Ha : exists w0, (m w0).1.1 = Ret a) by (exists w; by rewrite Hrun).
  specialize (Hk a Ha w1). destruct (k a w1) as [[r w2] ev2]. cbn in *.
  by apply Forall_app.
Qed.

Lemma always_for_acc {A S} (l : list A) (body : S -> A -> Py W S) acc :
  (forall s x, always P (body s x)) -> always P (for_acc l body acc).
Proof.
  intros Hbody. revert acc. induction l as [|x l IH]; intros acc.
  - apply (always_ret acc).
  - cbn [for_acc]. apply (always_bind (body acc x)); [apply Hbody |].
    intros s _. apply IH.
Qed.

Lemma always_for_return {A B} (l : list A) (body : A -> Py W (option B)) :
  (forall x, always P (body x)) -> always P (for_return l body).
Proof.
  intros Hbody. induction l as [|x l IH].
  - apply (always_ret None).
  - cbn [for_return]. apply (always_bind (body x)); [apply Hbody |].
    intros [b|] _; [apply (always_ret (Some b)) | apply IH].
Qed.

Lemma always_connected {A} (error_value : A) (fn : Py W A) :
  P (Called req_connect) -> P (LogError error_connecting) ->
  always P fn -> always P (connected error_value fn).
Proof.
  intros H1 H2 Hfn. unfold connected.
  apply always_bind; [apply always_call |]. intros [|] _; cbn [negb]; [done |].
  apply always_bind; [by apply always_request |]. intros [|] _; cbn [negb]; [done |].
  apply always_bind; [by apply always_emit |]. intros _ _. apply always_ret.
Qed.

End Always.

Section Returns.
Context {W PyObj : Type} `{!Backend W PyObj}.

Lemma returns_ret {A} (Q : A -> Prop) (a : A) : Q a -> returns Q (mret a : Py W A).
Proof. intros Ha w a'. unfold result. cbn. by intros [= <-]. Qed.

Lemma returns_bind {A B} (Q : B -> Prop) (m : Py W A) (k : A -> Py W B) :
  (forall a, (exists w, result (m w) = Ret a) -> returns Q (k a)) ->
  returns Q (m ≫= k).
Proof.
  intros Hk w b. unfold result, mbind, Py_bind, bind in *.
  destruct (m w) as [[[a| |] w1] ev1] eqn:Hrun; cbn; try done.
  assert (Ha : exists w0, (m w0).1.1 = Ret a) by (exists w; by rewrite Hrun).
  specialize (Hk a Ha w1 b). destruct (k a w1) as [[r w2] ev2]. cbn in *. done.
Qed.

End Returns.

Lemma attempted_none (evs : list Event) :
  Forall not_a_submission evs -> attempted evs = [].
Proof.
  induction 1 as [|e evs He _ IH]; [done |].
  unfold attempted in *. cbn [omap list_omap]. rewrite IH.
  by destruct e as [| | |[]].
Qed.

Section Pipeline.
Context {W PyObj : Type} `{!Backend W PyObj}.

Lemma validate_against_limits_quiet gs d limit_type :
  always (W := W) not_a_submission
    (_validate_gpu_spec_against_limits gs d limit_type).
Proof.
  intros w. rewrite validate_against_limits_run. unfold events.
  destruct (PyDict.get d (gpu gs));
    [case_bool_decide | destruct (PyDict.keys d)]; cbn; by repeat constructor.
Qed.

Lemma get_gpu_types_quiet : always (W := W) not_a_submission get_gpu_types.
Proof. apply always_connected; [done | done |]. by apply always_request. Qed.

Lemma get_tpu_types_quiet : always (W := W) not_a_submission get_tpu_types.
Proof. apply always_connected; [done | done |]. by apply always_request. Qed.

Lemma validate_gpu_spec_quiet gpu_spec :
  always (W := W) not_a_submission (validate_gpu_spec gpu_spec).
Proof.
  destruct gpu_spec as [gs|]; [| apply always_ret]. unfold validate_gpu_spec.
  apply always_bind; [by apply always_request |]. intros [zl|] _; [| apply always_ret].
  apply always_bind; [apply validate_against_limits_quiet |].
  intros [|] _; cbn [negb]; [| apply always_ret].
  apply always_bind; [apply get_gpu_types_quiet |].
  intros [cl|] _; [| apply always_ret].
  apply always_bind; [apply validate_against_limits_quiet |].
  intros [|] _; apply always_ret.
Qed.

Lemma validate_tpu_spec_quiet tpu_spec :
  always (W := W) not_a_submission (validate_tpu_spec tpu_spec).
Proof.
  destruct tpu_spec as [t|]; [| apply always_ret]. unfold validate_tpu_spec.
  apply always_bind; [apply get_tpu_types_quiet |].
  intros [l|] _.
  - destruct (negb _); [| apply always_ret].
    apply always_bind; [by apply always_emit |]. intros _ _.
    apply always_bind; [| intros _ _; apply always_ret].
    apply always_for_acc. intros _ x. by apply always_emit.
  - apply always_bind; [by apply always_emit |]. intros _ _. apply always_ret.
Qed.

Lemma convert_accel_spec_quiet gpu_spec tpu_spec :
  always (W := W) not_a_submission (convert_accel_spec gpu_spec tpu_spec).
Proof.
  destruct gpu_spec, tpu_spec; cbn; try apply always_ret.
  apply always_bind; [by apply always_emit |]. intros _ _. apply always_ret.
Qed.

Lemma or_else_quiet x (d : Py W string) :
  always not_a_submission d -> always not_a_submission (or_else x d).
Proof.
  intros Hd. destruct x as [s|]; [| done]. cbn.
  destruct (bool_decide _); [done | apply always_ret].
Qed.

(** Everything [_job_submit] does before it looks at [dry_run] leaves the
    jobs alone; what follows depends on the last part [tail]. *)
Lemma job_submit_quiet_upto (args : Args) :
  (forall jobs,
     always (W := W) not_a_submission
       (if args.(arg_dry_run) then
          emit (Printed jobs_that_would_be_submitted);;
          for_acc jobs (fun _ j => emit (Printed (job_line j))) tt;;
          mret None
        else
          submitted ← for_acc jobs submit_step [];
          mret (Some submitted))) ->
  always (W := W) not_a_submission (_job_submit args).
Proof.
  intros Htail. unfold _job_submit.
  apply always_bind; [apply always_call |]. intros script_args _.
  apply always_bind; [apply always_call |]. intros job_mode _.
  apply always_bind; [apply always_call |]. intros docker_args _.
  apply always_bind.
  { apply or_else_quiet. apply always_bind; [apply always_call |].
    intros u _. apply always_ret. }
  intros job_name _.
  apply always_bind; [apply validate_gpu_spec_quiet |].
  intros [|] _; cbn [negb]; [| apply always_ret].
  apply always_bind; [apply validate_tpu_spec_quiet |].
  intros [|] _; cbn [negb]; [| apply always_ret].
  apply always_bind.
  { apply or_else_quiet. by apply always_request. }
  intros image_tag _.
  apply always_bind.
  { destruct (arg_machine_type args); apply always_call. }
  intros machine_type _.
  apply always_bind; [apply always_call |]. intros experiments _.
  apply always_bind.
  { destruct (arg_label args); [| apply always_ret].
    apply always_bind; [apply always_call |]. intros l _. apply always_ret. }
  intros labels _.
  apply always_bind; [apply convert_accel_spec_quiet |].
  intros [[accel accel_count]|] _; [| apply always_ret].
  apply always_bind; [apply always_lift |]. intros name _.
  apply always_bind; [apply always_call |]. intros jobs _.
  apply Htail.
Qed.

Lemma job_submit_dry_run_quiet (args : Args) :
  args.(arg_dry_run) = true ->
  always (W := W) not_a_submission (_job_submit args).
Proof.
  intros Hdry. apply job_submit_quiet_upto. intros jobs. rewrite Hdry.
  apply always_bind; [by apply always_emit |]. intros _ _.
  apply always_bind; [| intros _ _; apply always_ret].
  apply always_for_acc. intros _ j. by apply always_emit.
Qed.

Lemma job_submit_dry_run_returns (args : Args) :
  args.(arg_dry_run) = true ->
  returns (W := W) (fun r => r = None) (_job_submit args).
Proof.
  intros Hdry. unfold _job_submit.
  do 5 (apply returns_bind; intros ? _).
  match goal with |- returns _ (if negb ?b then _ else _) => destruct b end;
    cbn [negb]; [| by apply returns_ret].
  apply returns_bind; intros [|] _; cbn [negb]; [| by apply returns_ret].
  do 5 (apply returns_bind; intros ? _).
  match goal with |- returns _ (match ?x with _ => _ end) =>
    destruct x as [[accel accel_count]|] end; [| by apply returns_ret].
  do 2 (apply returns_bind; intros ? _).
  rewrite Hdry.
  do 2 (apply returns_bind; intros ? _). by apply returns_ret.
Qed.

End Pipeline.

(** X11.  A dry run submits nothing: with [dry_run] set, no run of
    [_job_submit], whatever the services answer, contains a request to
    submit a job, and whenever the function returns it returns [None]. *)
Theorem job_submit_dry_run {W PyObj} `{!Backend W PyObj} (args : Args) (w : W) :
  args.(arg_dry_run) = true ->
  attempted (events (_job_submit args w)) = []
  /\ (forall r, result (_job_submit args w) = Ret r -> r = None).
Proof.
  intros Hdry. split.
  - apply attempted_none. by apply job_submit_dry_run_quiet.
  - intros r. by apply job_submit_dry_run_returns.
Qed.

Lemma job_submit_dry_run_witness :
  attempted
    (events
       (_job_submit
          (mkArgs tt true tt (Some "sweep") None false None None None None
             None None)
          mock_partial)) = []
  /\ (forall r,
        result
          (_job_submit
             (mkArgs tt true tt (Some "sweep") None false None None None
                None None None)
             mock_partial) = Ret r -> r = None).
Proof.
  apply (job_submit_dry_run (W := Mock) (PyObj := unit)
           (mkArgs tt true tt (Some "sweep") None false None None None None
              None None) mock_partial).
  reflexivity.
Defined.

(** ** A GPU and a TPU request together *)

Section Both.
Context {W PyObj : Type} `{!Backend W PyObj}.

Lemma run_call_bind {A B} (f : W -> outcome A * W) (k : A -> Py W B) w :
  (call f ≫= k) w =
  match f w with
  | (Ret a, w') => k a w'
  | (Raise e, w') => (Raise e, w', [])
  | (Diverge, w') => (Diverge, w', [])
  end.
Proof.
  py_run. destruct (f w) as [[a| |] w']; [| done | done].
  by destruct (k a w') as [[r w2] ev].
Qed.

Lemma always_at {A} P (m : Py W A) w :
  always P m -> Forall P (events (m w)).
Proof. intros Hm. apply Hm. Qed.

Lemma returns_at {A} (Q : A -> Prop) (m : Py W A) w a :
  returns Q m -> result (m w) = Ret a -> Q a.
Proof. intros Hm. apply Hm. Qed.

Lemma convert_accel_spec_both g t w :
  result (convert_accel_spec (W := W) (Some g) (Some t) w) = Ret None.
Proof. reflexivity. Qed.

End Both.

(** X12.  A TPU request never reaches the cluster together with a GPU
    request.  When [args] holds a TPU spec and either holds a GPU spec as
    well or the job mode resolves to GPU (so that the default GPU spec is
    filled in), no run of [_job_submit] asks for a job to be submitted, and
    whenever the function returns it returns [None]. *)
Theorem job_submit_gpu_and_tpu {W PyObj} `{!Backend W PyObj} (args : Args)
    (w : W) (t : TPUSpec) :
  args.(arg_tpu_spec) = Some t ->
  args.(arg_gpu_spec) <> None \/ resolved_job_mode args w = Ret JobMode_GPU ->
  attempted (events (_job_submit args w)) = []
  /\ (forall r, result (_job_submit args w) = Ret r -> r = None).
Proof.
  intros Ht Hmode. unfold resolved_job_mode in Hmode.
  unfold _job_submit. cbv zeta. rewrite Ht.
  rewrite run_call_bind. rewrite run_call_bind in Hmode.
  destruct (extract_script_args (arg_dict args) w) as [[script_args| |] w1];
    [| by split | by split].
  rewrite run_call_bind. unfold call in Hmode.
  destruct (resolve_job_mode (arg_dict args) w1) as [[job_mode| |] w2];
    [| by split | by split].
  assert (Hg : exists g,
             match job_mode, arg_gpu_spec args with
             | JobMode_GPU, None => Some _DEFAULT_GPU_SPEC
             | _, _ => arg_gpu_spec args
             end = Some g).
  { destruct Hmode as [Hgpu | Hres].
    - destruct (arg_gpu_spec args) as [g|]; [| done].
      exists g. by destruct job_mode.
    - unfold result in Hres. cbn in Hres. injection Hres as ->.
      destruct (arg_gpu_spec args) as [g|]; eauto. }
  destruct Hg as [g ->]. clear Hmode. split.
  - apply attempted_none. apply always_at.
    apply always_bind; [apply always_call |]. intros docker_args _.
    apply always_bind.
    { apply or_else_quiet. apply always_bind; [apply always_call |].
      intros u _. apply always_ret. }
    intros job_name _.
    apply always_bind; [apply validate_gpu_spec_quiet |].
    intros [|] _; cbn [negb]; [| apply always_ret].
    apply always_bind; [apply validate_tpu_spec_quiet |].
    intros [|] _; cbn [negb]; [| apply always_ret].
    apply always_bind.
    { apply or_else_quiet. by apply always_request. }
    intros image_tag _.
    apply always_bind.
    { destruct (arg_machine_type args); apply always_call. }
    intros machine_type _.
    apply always_bind; [apply always_call |]. intros experiments _.
    apply always_bind.
    { destruct (arg_label args); [| apply always_ret].
      apply always_bind; [apply always_call |]. intros l _. apply always_ret. }
    intros labels _.
    apply always_bind; [apply convert_accel_spec_quiet |].
    intros accel_spec [w' Hres]. rewrite convert_accel_spec_both in Hres.
    injection Hres as <-. apply always_ret.
  - intros r. apply (returns_at (fun r => r = None)).
    do 2 (apply returns_bind; intros ? _).
    apply returns_bind; intros [|] _; cbn [negb]; [| by apply returns_ret].
    apply returns_bind; intros [|] _; cbn [negb]; [| by apply returns_ret].
    do 4 (apply returns_bind; intros ? _).
    apply returns_bind. intros accel_spec [w' Hres].
    rewrite convert_accel_spec_both in Hres. injection Hres as <-.
    by apply returns_ret.
Qed.

Lemma job_submit_gpu_and_tpu_witness :
  attempted
    (events
       (_job_submit
          (mkArgs tt false tt (Some "sweep") None false
             (Some (mkTPUSpec "V3" 8)) None None None None None)
          (mkMock true None (Some [mkGPUSpec "P100" 4])
             (Some [mkGPUSpec "P100" 4]) (Some [mkTPUSpec "V3" 8]) None [] []
             JobMode_GPU [job1] 0))) = []
  /\ (forall r,
        result
          (_job_submit
             (mkArgs tt false tt (Some "sweep") None false
                (Some (mkTPUSpec "V3" 8)) None None None None None)
             (mkMock true None (Some [mkGPUSpec "P100" 4])
                (Some [mkGPUSpec "P100" 4]) (Some [mkTPUSpec "V3" 8]) None []
                [] JobMode_GPU [job1] 0)) = Ret r -> r = None).
Proof.
  apply (job_submit_gpu_and_tpu (W := Mock) (PyObj := unit)
           (mkArgs tt false tt (Some "sweep") None false
              (Some (mkTPUSpec "V3" 8)) None None None None None)
           (mkMock true None (Some [mkGPUSpec "P100" 4])
              (Some [mkGPUSpec "P100" 4]) (Some [mkTPUSpec "V3" 8]) None [] []
              JobMode_GPU [job1] 0)
           (mkTPUSpec "V3" 8)).
  - reflexivity.
  - right. reflexivity.
Defined.

(** ** Fewer GPUs of an accepted kind *)

Section Fewer.
Context {W PyObj : Type} `{!Backend W PyObj}.

Lemma within_limits_fewer g n m limits :
  m <= n ->
  within_limits (mkGPUSpec g n) limits -> within_limits (mkGPUSpec g m) limits.
Proof.
  intros Hle (max & Hget & Hmax). exists max. cbn in *. split; [done | lia].
Qed.

Lemma validate_gpu_spec_run_true gs (w : W) :
  result (validate_gpu_spec (Some gs) w) = Ret true ->
  exists zl w1 cl w2 ev,
    zone_gpu_types w = (Ret (Some zl), w1)
    /\ get_gpu_types w1 = (Ret (Some cl), w2, ev)
    /\ within_limits gs (limits_dict zl)
    /\ within_limits gs (limits_dict cl).
Proof.
  intros (zl & w1 & cl & Hz & Hc & Hzone & Hcluster)%validate_gpu_spec_true.
  destruct (get_gpu_types w1) as [[o w2] ev] eqn:Hrun.
  unfold result in Hc. cbn in Hc. subst o.
  by exists zl, w1, cl, w2, ev.
Qed.

End Fewer.

(** X13.  [validate_gpu_spec] only bounds the count from above.  When a
    request for [n] GPUs of a kind is accepted, the request for any
    smaller number [m] of the same kind, zero and negative counts
    included, is accepted in the same state of the services, by the very
    same run: the same requests, the same final state, nothing logged. *)
Theorem validate_gpu_spec_fewer {W PyObj} `{!Backend W PyObj}
    (g : GPU) (n m : Z) (w : W) :
  result (validate_gpu_spec (Some (mkGPUSpec g n)) w) = Ret true ->
  m <= n ->
  validate_gpu_spec (Some (mkGPUSpec g m)) w
  = validate_gpu_spec (Some (mkGPUSpec g n)) w
  /\ Forall (fun e => match e with LogError _ | Printed _ => False | _ => True end)
       (events (validate_gpu_spec (Some (mkGPUSpec g m)) w)).
Proof.
  intros Hn Hle.
  apply validate_gpu_spec_run_true in Hn
    as (zl & w1 & cl & w2 & ev & Hz & Hc & Hzone & Hcluster).
  rewrite (validate_gpu_spec_within (mkGPUSpec g n) zl cl w w1 w2 ev)
    by done.
  rewrite (validate_gpu_spec_within (mkGPUSpec g m) zl cl w w1 w2 ev)
    by eauto using within_limits_fewer.
  split; [done |]. unfold events. cbn. constructor; [done |].
  revert Hc. unfold get_gpu_types, connected. py_run.
  destruct (cluster_connected w1); cbn [negb].
  - destruct (cluster_gpu_types w1) as [o w']. intros [= _ _ <-].
    by repeat constructor.
  - destruct (cluster_connect w1) as [[[|]| |] w']; cbn [negb]; try done.
    destruct (cluster_gpu_types w') as [o w'']. cbn. intros [= _ _ <-].
    by repeat constructor.
Qed.

Lemma validate_gpu_spec_fewer_witness :
  validate_gpu_spec (Some (mkGPUSpec "P100" (-3))) mock_p100
  = validate_gpu_spec (Some (mkGPUSpec "P100" 1)) mock_p100
  /\ Forall (fun e => match e with LogError _ | Printed _ => False | _ => True end)
       (events (validate_gpu_spec (Some (mkGPUSpec "P100" (-3))) mock_p100)).
Proof.
  apply (validate_gpu_spec_fewer (W := Mock) (PyObj := unit)
           "P100" 1 (-3) mock_p100).
  - reflexivity.
  - lia.
Defined.

(** ** Asking the user *)

Lemma lower_is_y l : PyStr.lower l = "y" <-> l = "y" \/ l = "Y".
Proof.
  split; [| by intros [-> | ->]].
  destruct l as [|c [|c' l']]; [done | | done].
  unfold PyStr.lower. cbn [PyStr.map].
  each_char c; intros; first [done | by left | by right].
Qed.

Lemma lower_is_n l : PyStr.lower l = "n" <-> l = "n" \/ l = "N".
Proof.
  split; [| by intros [-> | ->]].
  destruct l as [|c [|c' l']]; [done | | done].
  unfold PyStr.lower. cbn [PyStr.map].
  each_char c; intros; first [done | by left | by right].
Qed.

Lemma lower_in_yn l :
  PyStr.lower l ∈ ["y"; "n"] <-> l ∈ ["y"; "Y"; "n"; "N"].
Proof.
  rewrite !elem_of_cons, !elem_of_nil, lower_is_y, lower_is_n. tauto.
Qed.

Lemma answers_spec l : l ∈ answers <-> l = "" \/ l ∈ ["y"; "Y"; "n"; "N"].
Proof. unfold answers. rewrite !elem_of_cons, !elem_of_nil. tauto. Qed.

Lemma user_verify_other msg default l stdin :
  l ∉ answers ->
  _user_verify msg default (l :: stdin) =
  match _user_verify msg default stdin with
  | (r, unread, out) =>
      (r, unread,
       Prompt (verify_prompt msg default)
       :: PrintLine "please enter y or n" :: out)
  end.
Proof.
  rewrite answers_spec. intros Hl. cbn [_user_verify].
  rewrite bool_decide_eq_false_2.
  2:{ destruct l; [tauto | done]. }
  rewrite bool_decide_eq_false_2; [done |].
  rewrite lower_in_yn. tauto.
Qed.

Lemma user_verify_answer msg default a stdin :
  a ∈ answers ->
  _user_verify msg default (a :: stdin)
  = (Ret (decision default a), stdin, [Prompt (verify_prompt msg default)]).
Proof.
  unfold answers, decision. rewrite !elem_of_cons, elem_of_nil.
  intros [-> | [-> | [-> | [-> | [-> | []]]]]]; reflexivity.
Qed.

(** X14.  [_user_verify] asks until it reads one of the five answers it
    knows: the empty line, which stands for the default, and [y], [Y],
    [n], [N].  Every other line, [yes] and a [y] with a blank before it
    among them, is answered by [please enter y or n] and the same prompt
    again.  The decision is that of the first known answer, the lines
    after it are left unread, and if the input ends before one is read the
    function raises [EOFError] after a last prompt. *)
Theorem user_verify_correct (msg : string) (default : bool)
    (others : list string) :
  Forall (fun l => l ∉ answers) others ->
  (forall a stdin,
     a ∈ answers ->
     _user_verify msg default (others ++ a :: stdin)
     = (Ret (decision default a), stdin,
        flat_map (fun _ => [Prompt (verify_prompt msg default);
                            PrintLine "please enter y or n"]) others
        ++ [Prompt (verify_prompt msg default)]))
  /\ _user_verify msg default others
     = (Raise EOFError, [],
        flat_map (fun _ => [Prompt (verify_prompt msg default);
                            PrintLine "please enter y or n"]) others
        ++ [Prompt (verify_prompt msg default)]).
Proof.
  induction 1 as [|l others Hl _ [IHa IHe]].
  - split; [| done]. intros a stdin Ha. by apply user_verify_answer.
  - split.
    + intros a stdin Ha. cbn [app]. rewrite user_verify_other by done.
      by rewrite IHa.
    + rewrite user_verify_other by done. by rewrite IHe.
Qed.

Lemma user_verify_correct_witness :
  (forall a stdin,
     a ∈ answers ->
     _user_verify "Do you really want to create a new cluster?" false
       (["yes"; " y"] ++ a :: stdin)
     = (Ret (decision false a), stdin,
        flat_map
          (fun _ =>
             [Prompt (verify_prompt
                        "Do you really want to create a new cluster?" false);
              PrintLine "please enter y or n"]) ["yes"; " y"]
        ++ [Prompt (verify_prompt
                      "Do you really want to create a new cluster?" false)]))
  /\ _user_verify "Do you really want to create a new cluster?" false
       ["yes"; " y"]
     = (Raise EOFError, [],
        flat_map
          (fun _ =>
             [Prompt (verify_prompt
                        "Do you really want to create a new cluster?" false);
              PrintLine "please enter y or n"]) ["yes"; " y"]
        ++ [Prompt (verify_prompt
                      "Do you really want to create a new cluster?" false)]).
Proof.
  apply (user_verify_correct "Do you really want to create a new cluster?"
           false ["yes"; " y"]).
  repeat constructor; unfold answers; by not_among.
Defined.

Example user_verify_capital_y :
  _user_verify "Are you sure you want to delete blueshift?" false
    ["maybe"; "Y"; "n"]
  = (Ret true, ["n"],
     [Prompt (verify_prompt "Are you sure you want to delete blueshift?" false);
      PrintLine "please enter y or n";
      Prompt (verify_prompt "Are you sure you want to delete blueshift?" false)]).
Proof. reflexivity. Qed.

(** ** Dictionaries built from pairs *)

Section DictLast.
Context {K V : Type} `{EqDecision K}.

Lemma dict_get_set (d : PyDict.t K V) k v k' :
  PyDict.get (PyDict.set k v d) k'
  = if decide (k' = k) then Some v else PyDict.get d k'.
Proof.
  induction d as [|[k0 v0] d IH]; cbn [PyDict.set PyDict.get].
  - done.
  - destruct (decide (k = k0)) as [-> | Hk]; cbn [PyDict.get].
    + by destruct (decide (k' = k0)).
    + rewrite IH. destruct (decide (k' = k0)) as [-> | Hk']; [| done].
      by rewrite decide_False by done.
Qed.

(** A key given more than once keeps its last value. *)
Lemma dict_get_of_pairs_snoc (l : list (K * V)) k v k' :
  PyDict.get (PyDict.of_pairs (l ++ [(k, v)])) k'
  = if decide (k' = k) then Some v else PyDict.get (PyDict.of_pairs l) k'.
Proof.
  unfold PyDict.of_pairs. rewrite fold_left_app. cbn [fold_left fst snd].
  apply dict_get_set.
Qed.

End DictLast.

Ltac log_run :=
  cbv beta iota zeta delta
    [mbind mret Log_bind Log_ret outcome_bind log_lift log_line];
  cbn [app fst snd].

Lemma cluster_dict_get (l : list GCPCluster) (name : string) :
  PyDict.get (PyDict.of_pairs ((fun c => (gcp_name c, c)) <$> l)) name
  = last_named name l.
Proof.
  unfold last_named. induction l as [|c l IH] using rev_ind; [done |].
  rewrite fmap_app. cbn [fmap list_fmap]. rewrite dict_get_of_pairs_snoc.
  rewrite filter_app, filter_cons, filter_nil.
  destruct (decide (name = gcp_name c)) as [-> | Hne].
  - rewrite decide_True by done. by rewrite last_snoc.
  - rewrite decide_False by done. by rewrite app_nil_r.
Qed.

Lemma last_named_spec name l c :
  last_named name l = Some c ->
  c ∈ l /\ gcp_name c = name.
Proof.
  unfold last_named. intros Hlast.
  assert (Hin : c ∈ filter (fun c => gcp_name c = name) l).
  { destruct (filter _ l) as [|x xs] using rev_ind; [done |].
    rewrite last_snoc in Hlast. injection Hlast as ->.
    apply elem_of_app. right. apply list_elem_of_here. }
  by apply list_elem_of_filter in Hin as [? ?].
Qed.

Lemma last_named_none name l :
  last_named name l = None <-> name ∉ gcp_name <$> l.
Proof.
  unfold last_named. rewrite last_None. split.
  - intros Hnil (c & -> & Hc)%list_elem_of_fmap.
    assert (Hin : c ∈ filter (fun c0 => gcp_name c0 = gcp_name c) l)
      by by apply list_elem_of_filter.
    rewrite Hnil in Hin. by apply elem_of_nil in Hin.
  - intros Hnot. destruct (filter _ l) as [|c cs] eqn:Hf; [done |].
    exfalso. apply Hnot.
    assert (Hin : c ∈ filter (fun c0 => gcp_name c0 = name) l)
      by (rewrite Hf; apply list_elem_of_here).
    apply list_elem_of_filter in Hin as [<- Hin].
    by apply list_elem_of_fmap_2.
Qed.

Section Found.
Variable describe : exn -> string.

Lemma log_for_info (l : list GCPCluster) :
  log_for l (fun c => log_line (InfoLine c.(gcp_name)))
  = (Ret tt, (fun c => InfoLine c.(gcp_name)) <$> l).
Proof.
  induction l as [|c l IH]; [done |].
  cbn [log_for]. rewrite IH. reflexivity.
Qed.

Lemma set_gcp_cluster_run (l : list GCPCluster) (self : Self) :
  self.(self_gcp_cluster) = None ->
  _set_gcp_cluster describe (Ret (Some tt)) (Ret l) self =
  match self.(self_name) with
  | None =>
      match l with
      | [] => (Ret (false, self), [])
      | [c] =>
          (Ret (true,
                mkSelf None self.(self_zone) (Some c) self.(self_connected)),
           [])
      | _ =>
          (Ret (false, self),
           ErrorLine "multiple clusters found, please specify:"
           :: ((fun c => InfoLine c.(gcp_name)) <$> l))
      end
  | Some name =>
      match last_named name l with
      | Some c =>
          (Ret (true,
                mkSelf (Some name) self.(self_zone) (Some c)
                  self.(self_connected)),
           [])
      | None =>
          (Ret (false, self),
           match l with
           | [] => []
           | _ => [ErrorLine ("cluster " +:+ name +:+ " not found")]
           end)
      end
  end.
Proof.
  intros Hnone. unfold _set_gcp_cluster. rewrite Hnone.
  unfold _get_gcp_clusters, _k, PyDict.contains, PyDict.getitem.
  log_run. rewrite ?cluster_dict_get.
  destruct l as [|c l].
  { rewrite bool_decide_eq_true_2 by (cbn; lia).
    by destruct (self_name self). }
  rewrite bool_decide_eq_false_2 by (cbn; lia).
  destruct (self_name self) as [name|].
  - rewrite !cluster_dict_get. by destruct (last_named name (c :: l)).
  - destruct l as [|c' l].
    + by rewrite bool_decide_eq_false_2 by (cbn; lia).
    + rewrite bool_decide_eq_true_2 by (cbn; lia).
      rewrite log_for_info. by rewrite app_nil_r.
Qed.

End Found.

(** X15.  [Cluster._set_gcp_cluster] on an object without a cluster, when
    the service answers with a list.  Without a name the cluster is taken
    only if it is the only one; several are refused with their names
    logged, and none is refused silently.  With a name the cluster taken is
    the last of the list that bears it, and it bears that name; a name not
    in a non-empty list is logged as not found.  The object changes only
    by the cluster it takes. *)
Theorem set_gcp_cluster_correct (describe : exn -> string)
    (l : list GCPCluster) (self : Self) :
  self.(self_gcp_cluster) = None ->
  match self.(self_name) with
  | None =>
      match l with
      | [] =>
          _set_gcp_cluster describe (Ret (Some tt)) (Ret l) self
          = (Ret (false, self), [])
      | [c] =>
          _set_gcp_cluster describe (Ret (Some tt)) (Ret l) self
          = (Ret (true,
                  mkSelf None self.(self_zone) (Some c) self.(self_connected)),
             [])
      | _ =>
          _set_gcp_cluster describe (Ret (Some tt)) (Ret l) self
          = (Ret (false, self),
             ErrorLine "multiple clusters found, please specify:"
             :: ((fun c => InfoLine c.(gcp_name)) <$> l))
      end
  | Some name =>
      (forall c,
         last_named name l = Some c ->
         _set_gcp_cluster describe (Ret (Some tt)) (Ret l) self
         = (Ret (true,
                 mkSelf (Some name) self.(self_zone) (Some c)
                   self.(self_connected)),
            [])
         /\ c ∈ l /\ gcp_name c = name)
      /\ (name ∉ gcp_name <$> l ->
          _set_gcp_cluster describe (Ret (Some tt)) (Ret l) self
          = (Ret (false, self),
             match l with
             | [] => []
             | _ => [ErrorLine ("cluster " +:+ name +:+ " not found")]
             end))
      /\ (name ∈ gcp_name <$> l -> exists c, last_named name l = Some c)
  end.
Proof.
  intros Hnone. pose proof (set_gcp_cluster_run describe l self Hnone) as Hrun.
  destruct (self_name self) as [name|].
  - split; [| split].
    + intros c Hc. rewrite Hc in Hrun. split; [done |].
      by apply last_named_spec.
    + intros Hnot%last_named_none. by rewrite Hnot in Hrun.
    + intros Hin. destruct (last_named name l) as [c|] eqn:Hlast; [eauto |].
      by apply last_named_none in Hlast.
  - by destruct l as [|c [|c' l']].
Qed.

Lemma set_gcp_cluster_correct_witness :
  (forall c,
     last_named "blueshift"
       [mkGCPCluster "blueshift" "us-central1-a" "10.0.0.1";
        mkGCPCluster "other" "us-east1-b" "10.0.0.2";
        mkGCPCluster "blueshift" "europe-west4-a" "10.0.0.3"] = Some c ->
     _set_gcp_cluster (fun _ => "") (Ret (Some tt))
       (Ret [mkGCPCluster "blueshift" "us-central1-a" "10.0.0.1";
             mkGCPCluster "other" "us-east1-b" "10.0.0.2";
             mkGCPCluster "blueshift" "europe-west4-a" "10.0.0.3"])
       (mkSelf (Some "blueshift") "-" None false)
     = (Ret (true, mkSelf (Some "blueshift") "-" (Some c) false), [])
     /\ c ∈ [mkGCPCluster "blueshift" "us-central1-a" "10.0.0.1";
             mkGCPCluster "other" "us-east1-b" "10.0.0.2";
             mkGCPCluster "blueshift" "europe-west4-a" "10.0.0.3"]
     /\ gcp_name c = "blueshift")
  /\ ("blueshift" ∉ gcp_name <$>
        [mkGCPCluster "blueshift" "us-central1-a" "10.0.0.1";
         mkGCPCluster "other" "us-east1-b" "10.0.0.2";
         mkGCPCluster "blueshift" "europe-west4-a" "10.0.0.3"] ->
      _set_gcp_cluster (fun _ => "") (Ret (Some tt))
        (Ret [mkGCPCluster "blueshift" "us-central1-a" "10.0.0.1";
              mkGCPCluster "other" "us-east1-b" "10.0.0.2";
              mkGCPCluster "blueshift" "europe-west4-a" "10.0.0.3"])
        (mkSelf (Some "blueshift") "-" None false)
      = (Ret (false, mkSelf (Some "blueshift") "-" None false),
         [ErrorLine ("cluster " +:+ "blueshift" +:+ " not found")]))
  /\ ("blueshift" ∈ gcp_name <$>
        [mkGCPCluster "blueshift" "us-central1-a" "10.0.0.1";
         mkGCPCluster "other" "us-east1-b" "10.0.0.2";
         mkGCPCluster "blueshift" "europe-west4-a" "10.0.0.3"] ->
      exists c,
        last_named "blueshift"
          [mkGCPCluster "blueshift" "us-central1-a" "10.0.0.1";
           mkGCPCluster "other" "us-east1-b" "10.0.0.2";
           mkGCPCluster "blueshift" "europe-west4-a" "10.0.0.3"] = Some c).
Proof.
  apply (set_gcp_cluster_correct (fun _ => "")
           [mkGCPCluster "blueshift" "us-central1-a" "10.0.0.1";
            mkGCPCluster "other" "us-east1-b" "10.0.0.2";
            mkGCPCluster "blueshift" "europe-west4-a" "10.0.0.3"]
           (mkSelf (Some "blueshift") "-" None false)).
  reflexivity.
Defined.

Example set_gcp_cluster_takes_last :
  _set_gcp_cluster (fun _ => "x") (Ret (Some tt))
    (Ret [mkGCPCluster "blueshift" "us-central1-a" "10.0.0.1";
          mkGCPCluster "other" "us-east1-b" "10.0.0.2";
          mkGCPCluster "blueshift" "europe-west4-a" "10.0.0.3"])
    (mkSelf (Some "blueshift") "-" None false)
  = (Ret (true,
          mkSelf (Some "blueshift") "-"
            (Some (mkGCPCluster "blueshift" "europe-west4-a" "10.0.0.3"))
            false),
     []).
Proof. reflexivity. Qed.

Section Connect.
Variable describe : exn -> string.


Lemma set_gcp_cluster_no_answer list_clusters (self : Self) :
  self.(self_gcp_cluster) = None ->
  (forall l, list_clusters <> Ret l) ->
  forall self' log,
    _set_gcp_cluster describe (Ret (Some tt)) list_clusters self
    <> (Ret (true, self'), log).
Proof.
  intros Hnone Hl self' log. unfold _set_gcp_cluster. rewrite Hnone.
  unfold _get_gcp_clusters, _k.
  destruct list_clusters as [l|e|]; [by destruct (Hl l) | |]; log_run.
  - by destruct (is_Exception e).
  - done.
Qed.

Lemma connect_run (l : list GCPCluster) api_setup list_pods (self : Self) c :
  self.(self_gcp_cluster) = None ->
  match self.(self_name) with
  | Some name => last_named name l = Some c
  | None => l = [c]
  end ->
  connect describe (Ret (Some tt)) (Ret l) api_setup list_pods self =
  match api_setup with
  | Ret _ =>
      match _k describe false list_pods with
      | (Ret ok, log) =>
          (Ret (ok, mkSelf (Some c.(gcp_name)) c.(gcp_zone) (Some c) ok), log)
      | (Raise e, log) => (Raise e, log)
      | (Diverge, log) => (Diverge, log)
      end
  | Raise e => (Raise e, [])
  | Diverge => (Diverge, [])
  end.
Proof.
  intros Hnone Hc. unfold connect.
  rewrite set_gcp_cluster_run by done. cbn [self_name self_zone self_connected].
  destruct (self_name self) as [name|].
  - rewrite Hc. log_run. cbn [negb self_gcp_cluster self_name self_zone].
    destruct api_setup as [[]|e|]; [| done | done].
    destruct (_k describe false list_pods) as [[ok|e|] log];
      by rewrite ?app_nil_r.
  - subst l. log_run. cbn [negb self_gcp_cluster self_name self_zone].
    destruct api_setup as [[]|e|]; [| done | done].
    destruct (_k describe false list_pods) as [[ok|e|] log];
      by rewrite ?app_nil_r.
Qed.

Lemma connect_not_found (l : list GCPCluster) api_setup list_pods
    (self : Self) :
  self.(self_gcp_cluster) = None ->
  match self.(self_name) with
  | Some name => last_named name l = None
  | None => forall c, l <> [c]
  end ->
  forall self' log,
    connect describe (Ret (Some tt)) (Ret l) api_setup list_pods self
    <> (Ret (true, self'), log).
Proof.
  intros Hnone Hc self' log. unfold connect.
  rewrite set_gcp_cluster_run by done. cbn [self_name self_zone self_connected].
  destruct (self_name self) as [name|].
  - rewrite Hc. log_run. done.
  - destruct l as [|c [|c' l']]; [| by destruct (Hc c) |]; log_run; done.
Qed.

Lemma set_gcp_cluster_client_fails new_client list_clusters (self : Self) :
  self.(self_gcp_cluster) = None ->
  (forall c, new_client <> Ret (Some c)) ->
  forall self' log,
    _set_gcp_cluster describe new_client list_clusters self
    <> (Ret (true, self'), log).
Proof.
  intros Hnone Hc self' log. unfold _set_gcp_cluster. rewrite Hnone.
  destruct new_client as [[c|]|e|]; [by destruct (Hc c) | done ..].
Qed.

End Connect.

(** X16.  [Cluster.get] returns a cluster object exactly when the client
    exists, the service lists the clusters, one of them is taken (the only
    one when no name is asked for, otherwise the last one of that name),
    the API clients are set up and the connection test answers with a
    true value.  The object returned is connected, carries the name and
    the zone of the cluster taken, whatever zone was asked for, and
    nothing has been logged. *)
Theorem cluster_get_correct (describe : exn -> string)
    (new_client : outcome (option unit))
    (list_clusters : outcome (list GCPCluster)) (api_setup : outcome unit)
    (list_pods : outcome bool) (name : option string) (zone : string)
    (cluster : Self) (log : list LogLine) :
  get describe new_client list_clusters api_setup list_pods name zone
  = (Ret (Some cluster), log)
  <-> new_client = Ret (Some tt)
      /\ api_setup = Ret tt
      /\ list_pods = Ret true
      /\ log = []
      /\ exists l c,
           list_clusters = Ret l
           /\ match name with
              | Some n => last_named n l = Some c
              | None => l = [c]
              end
           /\ cluster = mkSelf (Some c.(gcp_name)) c.(gcp_zone) (Some c) true.
Proof.
  split.
  - intros Hget. unfold get in Hget.
    destruct (connect describe new_client list_clusters api_setup list_pods
                (mkSelf name zone None false)) as [[[ok self']|e|] log0]
      eqn:Hconnect; [| done | done].
    revert Hget. log_run. destruct ok; [| done]. intros [= -> <-].
    rewrite app_nil_r.
    assert (Hclient : new_client = Ret (Some tt)).
    { destruct new_client as [[[]|]|e|]; [done | exfalso ..];
        unfold connect in Hconnect;
        match type of Hconnect with
        | context [_set_gcp_cluster ?d ?c ?a ?s] =>
            destruct (_set_gcp_cluster d c a s)
              as [[[found self0]|e0|] log1] eqn:Hset
        end; revert Hconnect; log_run; try done;
        (destruct found; [| done]);
        by eapply set_gcp_cluster_client_fails in Hset. }
    subst new_client.
    destruct list_clusters as [l|e|].
    2,3: unfold connect in Hconnect;
         destruct (_set_gcp_cluster describe (Ret (Some ())) _ _)
           as [[[found self0]|e0|] log1] eqn:Hset; revert Hconnect; log_run;
         [destruct found; [by eapply set_gcp_cluster_no_answer in Hset | done]
         | done | done ..].
    assert (Hc : exists c,
               match name with
               | Some n => last_named n l = Some c
               | None => l = [c]
               end).
    { destruct name as [n|].
      - destruct (last_named n l) as [c|] eqn:Hlast; [eauto |].
        by eapply (connect_not_found describe l api_setup list_pods
                     (mkSelf (Some n) zone None false)) in Hconnect.
      - destruct l as [|c [|c' l']]; [| eauto |];
          by eapply (connect_not_found describe _ api_setup list_pods
                       (mkSelf None zone None false)) in Hconnect. }
    destruct Hc as [c Hc].
    rewrite (connect_run describe l api_setup list_pods _ c) in Hconnect
      by done.
    destruct api_setup as [[]|e|]; [| done | done].
    unfold _k in Hconnect.
    destruct list_pods as [[|]|e|]; revert Hconnect; log_run;
      [| done | by destruct (is_Exception e) | done].
    intros [= <- <-]. do 4 (split; [done |]). by exists l, c.
  - intros (-> & -> & -> & -> & l & c & -> & Hc & ->). unfold get.
    rewrite (connect_run describe l (Ret tt) (Ret true) _ c) by done.
    reflexivity.
Qed.

Lemma cluster_get_correct_witness :
  get (fun _ => "") (Ret (Some tt))
    (Ret [mkGCPCluster "blueshift" "us-central1-a" "10.0.0.1"]) (Ret tt)
    (Ret true) None "-"
  = (Ret (Some (mkSelf (Some "blueshift") "us-central1-a"
                  (Some (mkGCPCluster "blueshift" "us-central1-a" "10.0.0.1"))
                  true)), []).
Proof.
  apply (cluster_get_correct (fun _ => "") (Ret (Some tt))
           (Ret [mkGCPCluster "blueshift" "us-central1-a" "10.0.0.1"])
           (Ret tt) (Ret true) None "-").
  do 4 (split; [reflexivity |]).
  exists [mkGCPCluster "blueshift" "us-central1-a" "10.0.0.1"],
    (mkGCPCluster "blueshift" "us-central1-a" "10.0.0.1").
  repeat split.
Defined.

(** ** The jobs [create_simple_job] builds *)

Section Jobs.
Context {W PyObj : Type} `{!Backend W PyObj}.
Variable GPU_value : GPU -> string.

Lemma connected_ret_result {A} (error_value a r : A) (w : W) :
  result (connected error_value (mret a) w) = Ret r ->
  r = a \/ (r = error_value /\ cluster_connected w = false).
Proof.
  unfold connected. py_run.
  destruct (cluster_connected w); cbn [negb]; cbn.
  - intros [= <-]. by left.
  - destruct (cluster_connect w) as [[[|]| |] w1]; cbn [negb]; cbn;
      try done.
    + intros [= <-]. by left.
    + intros [= <-]. by right.
Qed.

Lemma connected_ret_connected {A} (error_value a : A) (w : W) :
  cluster_connected w = true ->
  connected error_value (mret a) w = (Ret a, w, []).
Proof. intros Hc. unfold connected. py_run. by rewrite Hc. Qed.

Lemma prefix_tpu_key rest :
  String.prefix (_CONTAINER_RESOURCE_LIMIT_TPU +:+ "/")
    (join2 "/" _CONTAINER_RESOURCE_LIMIT_TPU rest) = true.
Proof. vm_compute. by destruct rest. Qed.

Lemma tpu_key_not_gpu rest :
  _CONTAINER_RESOURCE_LIMIT_GPU
  <> join2 "/" _CONTAINER_RESOURCE_LIMIT_TPU rest.
Proof. intros Heq. vm_compute in Heq. discriminate Heq. Qed.

Lemma node_selector_gpu preemptible machine_type accelerator :
  (exists selector,
     node_selector GPU_value preemptible machine_type accelerator
     = Some selector
     /\ PyDict.contains selector _NODE_SELECTOR_GKE_ACCELERATOR = true)
  <-> exists g, accelerator = Some (AccelGPU g).
Proof.
  split.
  - intros (selector & Hsel & Hkey).
    destruct accelerator as [[g|t]|]; [eauto | exfalso ..];
      destruct preemptible, machine_type as [m|]; cbn in Hsel;
      try discriminate; injection Hsel as <-; cbn in Hkey; discriminate.
  - intros [g ->].
    destruct preemptible, machine_type as [m|]; eexists; split;
      try reflexivity; reflexivity.
Qed.

End Jobs.

(** X17.  Every job [create_simple_job] returns treats its accelerator
    consistently: it asks for GPUs in its container limits exactly when it
    selects GPU nodes, which is when the accelerator is a GPU; it asks for
    TPUs exactly when its pod template carries the TPU annotation, which is
    when the accelerator is a TPU; it never asks for both.  It has one
    container, named like the job, and its generated name is the name
    with a dash.  On a connected cluster the method does return a job. *)
Theorem create_simple_job_accelerator {W PyObj} `{!Backend W PyObj}
    (GPU_value : GPU -> string) (name image : string)
    (command args : option (list string)) (env : PyDict.t string string)
    (accelerator : option Accelerator) (accelerator_count : Z)
    (namespace : string) (machine_type : option string) (preemptible : bool)
    (labels : option (PyDict.t string string)) (preemptible_tpu : bool)
    (w : W) :
  (forall job,
     result (create_simple_job GPU_value name image command args env
               accelerator accelerator_count namespace machine_type
               preemptible labels preemptible_tpu w) = Ret (Some job) ->
     (asks_gpu job <-> selects_gpu_nodes job)
     /\ (asks_gpu job <-> exists g, accelerator = Some (AccelGPU g))
     /\ (asks_tpu job <-> has_tpu_annotation job)
     /\ (asks_tpu job <-> exists t, accelerator = Some (AccelTPU t))
     /\ ~ (asks_gpu job /\ asks_tpu job)
     /\ (exists container,
           job.(spec).(template).(template_spec).(containers) = [container]
           /\ container.(container_name) = name)
     /\ job.(metadata).(generate_name) = Some (name +:+ "-"))
  /\ (cluster_connected w = true ->
      exists job,
        result (create_simple_job GPU_value name image command args env
                  accelerator accelerator_count namespace machine_type
                  preemptible labels preemptible_tpu w) = Ret (Some job)).
Proof.
  split.
  - intros job Hjob. unfold create_simple_job in Hjob. cbv zeta in Hjob.
    apply connected_ret_result in Hjob as [[= ->] | [[=] _]].
    assert (Hgpu : asks_gpu
                     (mkJobManifest _BATCH_V1_VERSION "Job"
                        (mkV1ObjectMeta None (Some (name +:+ "-")) labels)
                        (mkV1JobSpec
                           (mkV1PodTemplateSpec (template_metadata accelerator)
                              (mkV1PodSpec "Never"
                                 [mkV1Container name image command args
                                    (container_limits accelerator
                                       accelerator_count preemptible_tpu) env]
                                 (node_selector GPU_value preemptible
                                    machine_type accelerator))) 4))
                   <-> exists g, accelerator = Some (AccelGPU g)).
    { unfold asks_gpu, job_container_limits. cbn. split.
      - intros (limits & Hin & Hkey).
        destruct accelerator as [[g|t]|]; [eauto | exfalso ..]; cbn in Hin.
        + apply list_elem_of_singleton in Hin as ->.
          unfold PyDict.contains in Hkey. cbn [PyDict.get] in Hkey.
          by rewrite decide_False in Hkey by apply tpu_key_not_gpu.
        + by apply elem_of_nil in Hin.
      - intros [g ->]. eexists. split; [apply list_elem_of_here | done]. }
    assert (Htpu : asks_tpu
                     (mkJobManifest _BATCH_V1_VERSION "Job"
                        (mkV1ObjectMeta None (Some (name +:+ "-")) labels)
                        (mkV1JobSpec
                           (mkV1PodTemplateSpec (template_metadata accelerator)
                              (mkV1PodSpec "Never"
                                 [mkV1Container name image command args
                                    (container_limits accelerator
                                       accelerator_count preemptible_tpu) env]
                                 (node_selector GPU_value preemptible
                                    machine_type accelerator))) 4))
                   <-> exists t, accelerator = Some (AccelTPU t)).
    { unfold asks_tpu, job_container_limits. cbn. split.
      - intros (limits & key & Hin & Hkey & Hprefix).
        destruct accelerator as [[g|t]|]; [exfalso | eauto | exfalso];
          cbn in Hin.
        + apply list_elem_of_singleton in Hin as ->.
          cbn in Hkey. apply list_elem_of_singleton in Hkey as ->.
          discriminate Hprefix.
        + by apply elem_of_nil in Hin.
      - intros [t ->]. eexists. eexists. split; [apply list_elem_of_here |].
        split; [apply list_elem_of_here |]. apply prefix_tpu_key. }
    split; [| split; [done | split; [| split; [done | split]]]].
    + rewrite Hgpu. unfold selects_gpu_nodes. cbn.
      by rewrite node_selector_gpu.
    + rewrite Htpu. unfold has_tpu_annotation. cbn. split.
      * intros [t ->]. cbn. eexists. eexists. done.
      * intros (meta & notes & Hmeta & _).
        destruct accelerator as [[g|t]|]; [done | eauto | done].
    + rewrite Hgpu, Htpu. intros [[g ->] [t [=]]].
    + split; [| done]. eexists. done.
  - intros Hc. eexists. unfold create_simple_job. cbv zeta.
    by rewrite connected_ret_connected.
Qed.

Lemma create_simple_job_accelerator_witness :
  exists job,
    result (create_simple_job (fun g => "nvidia-tesla-" +:+ g) "sweep"
              "gcr.io/project/image:latest" None None []
              (Some (AccelTPU "V3")) 8 "default" None true None true
              mock_tpu) = Ret (Some job)
    /\ asks_tpu job /\ has_tpu_annotation job /\ ~ asks_gpu job
    /\ ~ selects_gpu_nodes job.
Proof.
  destruct (create_simple_job_accelerator (W := Mock) (PyObj := unit)
              (fun g => "nvidia-tesla-" +:+ g) "sweep"
              "gcr.io/project/image:latest" None None []
              (Some (AccelTPU "V3")) 8 "default" None true None true
              mock_tpu) as [Hall Hjob].
  destruct (Hjob eq_refl) as [job Hrun]. exists job.
  destruct (Hall job Hrun) as (Hsel & Hgpu & Hnote & Htpu & Hnot & _).
  split; [exact Hrun |].
  assert (Ht : asks_tpu job) by (apply Htpu; by exists "V3").
  split; [exact Ht |]. split; [by apply Hnote |].
  split; [intros Hg; by apply Hnot |].
  intros Hs. apply Hnot. split; [by apply Hsel | exact Ht].
Defined.

(** ** The node selector *)

Lemma selector_value_clean (s : string) :
  PyStr.forallb
    (fun c => negb (PyStr.isupper c) && negb (bool_decide (c = "_"%char)))
    (PyText.replace_char "_" "-" (PyStr.lower s)) = true.
Proof.
  unfold PyText.replace_char, PyStr.lower.
  induction s as [|c s IH]; [done |].
  cbn [PyStr.map PyStr.forallb]. rewrite IH, andb_true_r. clear IH.
  each_char c.
Qed.

(** X18.  [Cluster.node_selector] returns [None] exactly when there is
    nothing to select: the node is not preemptible, no machine type is
    given and the accelerator is not a GPU; it never returns an empty
    dictionary.  Otherwise the dictionary has one entry for each of the
    three that applies, in that order, and the value it gives for a GPU
    has no upper-case letter and no underscore. *)
Theorem node_selector_correct (GPU_value : GPU -> string)
    (preemptible : bool) (machine_type : option string)
    (accelerator : option Accelerator) :
  (node_selector GPU_value preemptible machine_type accelerator = None
   <-> preemptible = false /\ machine_type = None
       /\ forall g, accelerator <> Some (AccelGPU g))
  /\ (forall selector,
        node_selector GPU_value preemptible machine_type accelerator
        = Some selector ->
        selector =
          (if preemptible then [(_NODE_SELECTOR_PREEMPTIBLE, "true")] else [])
          ++ match machine_type with
             | Some value => [(_NODE_SELECTOR_INSTANCE_TYPE, value)]
             | None => []
             end
          ++ match accelerator with
             | Some (AccelGPU g) =>
                 [(_NODE_SELECTOR_GKE_ACCELERATOR,
                   PyText.replace_char "_" "-" (PyStr.lower (GPU_value g)))]
             | _ => []
             end
        /\ selector <> []
        /\ NoDup (PyDict.keys selector)
        /\ forall value,
             PyDict.get selector _NODE_SELECTOR_GKE_ACCELERATOR = Some value ->
             PyStr.forallb
               (fun c => negb (PyStr.isupper c)
                         && negb (bool_decide (c = "_"%char))) value = true).
Proof.
  split.
  - split.
    + intros Hnone.
      destruct preemptible, machine_type as [m|], accelerator as [[g|t]|];
        cbn in Hnone; try discriminate; by repeat split.
    + intros (-> & -> & Hacc).
      destruct accelerator as [[g|t]|]; [by destruct (Hacc g) | done | done].
  - intros selector Hsel.
    destruct preemptible, machine_type as [m|], accelerator as [[g|t]|];
      cbn in Hsel; try discriminate; injection Hsel as <-;
      (split; [reflexivity |]); (split; [done |]);
      (split; [cbn; repeat (constructor; [by not_among |]); constructor |]);
      intros value; cbn; intros Hvalue; try discriminate;
      injection Hvalue as <-; apply selector_value_clean.
Qed.

Lemma node_selector_correct_witness :
  [(_NODE_SELECTOR_INSTANCE_TYPE, "n1-standard-8");
   (_NODE_SELECTOR_GKE_ACCELERATOR, "nvidia-tesla-p100")]
  = [] ++ [(_NODE_SELECTOR_INSTANCE_TYPE, "n1-standard-8")]
    ++ [(_NODE_SELECTOR_GKE_ACCELERATOR,
         PyText.replace_char "_" "-"
           (PyStr.lower ("NVIDIA_TESLA_" +:+ "P100")))]
  /\ [(_NODE_SELECTOR_INSTANCE_TYPE, "n1-standard-8");
      (_NODE_SELECTOR_GKE_ACCELERATOR, "nvidia-tesla-p100")] <> []
  /\ NoDup (PyDict.keys
              [(_NODE_SELECTOR_INSTANCE_TYPE, "n1-standard-8");
               (_NODE_SELECTOR_GKE_ACCELERATOR, "nvidia-tesla-p100")])
  /\ forall value,
       PyDict.get
         [(_NODE_SELECTOR_INSTANCE_TYPE, "n1-standard-8");
          (_NODE_SELECTOR_GKE_ACCELERATOR, "nvidia-tesla-p100")]
         _NODE_SELECTOR_GKE_ACCELERATOR = Some value ->
       PyStr.forallb
         (fun c => negb (PyStr.isupper c)
                   && negb (bool_decide (c = "_"%char))) value = true.
Proof.
  apply (proj2 (node_selector_correct (fun g => "NVIDIA_TESLA_" +:+ g)
                  false (Some "n1-standard-8") (Some (AccelGPU "P100")))).
  reflexivity.
Defined.

Section Unanswered.
Variable describe : exn -> string.




End Unanswered.



Example cluster_get_logs_exception :
  get (fun _ => "connection refused") (Ret (Some tt))
    (Ret [mkGCPCluster "blueshift" "us-central1-a" "10.0.0.1"]) (Ret tt)
    (Raise (External "ApiException")) None "-"
  = (Ret None,
     [ErrorLine ("error in api call:"
                 +:+ String "010"%char "connection refused")]).
Proof. reflexivity. Qed.

(** ** A GPU kind listed more than once *)

Lemma limits_dict_get (l : list GPUSpec) (g : GPU) :
  PyDict.get (limits_dict l) g
  = gpu_count <$> last (filter (fun x => gpu x = g) l).
Proof.
  unfold limits_dict. induction l as [|x l IH] using rev_ind; [done |].
  rewrite fmap_app. cbn [fmap list_fmap]. rewrite dict_get_of_pairs_snoc.
  rewrite filter_app, filter_cons, filter_nil.
  destruct (decide (g = gpu x)) as [-> | Hne].
  - rewrite decide_True by done. by rewrite last_snoc.
  - rewrite decide_False by done. by rewrite app_nil_r.
Qed.

(** X20.  The limits that [validate_gpu_spec] checks a request against are
    a dictionary built from the list of supported types, so when a kind is
    listed more than once its last entry decides: the check against the
    list succeeds exactly when the last entry of the requested kind allows
    the requested count, whatever earlier entries allow. *)
Theorem gpu_limit_is_last_entry {W PyObj} `{!Backend W PyObj}
    (gs : GPUSpec) (l : list GPUSpec) (limit_type : string) (w : W) :
  result (_validate_gpu_spec_against_limits gs (limits_dict l) limit_type w)
  = Ret true
  <-> exists x,
        last (filter (fun x => gpu x = gpu gs) l) = Some x
        /\ gpu_count gs <= gpu_count x.
Proof.
  rewrite validate_against_limits_true. unfold within_limits.
  rewrite limits_dict_get. split.
  - intros (max & Hget & Hle).
    destruct (last _) as [x|]; [| done]. injection Hget as <-. eauto.
  - intros (x & -> & Hle). eauto.
Qed.

Lemma gpu_limit_is_last_entry_witness :
  result (_validate_gpu_spec_against_limits (mkGPUSpec "P100" 2)
            (limits_dict [mkGPUSpec "P100" 1; mkGPUSpec "K80" 8;
                          mkGPUSpec "P100" 4])
            "zone" mock_p100) = Ret true.
Proof.
  apply (gpu_limit_is_last_entry (W := Mock) (PyObj := unit)
           (mkGPUSpec "P100" 2)
           [mkGPUSpec "P100" 1; mkGPUSpec "K80" 8; mkGPUSpec "P100" 4]
           "zone" mock_p100).
  exists (mkGPUSpec "P100" 4). split; [reflexivity | cbn; lia].
Defined.

(** ** Deleting a cluster asks first *)

Lemma user_verify_decides msg default others a stdin :
  Forall (fun l => l ∉ answers) others ->
  a ∈ answers ->
  exists written,
    _user_verify msg default (others ++ a :: stdin)
    = (Ret (decision default a), stdin, written).
Proof.
  intros Hothers Ha. induction Hothers as [|l others Hl _ [written IH]].
  - eexists. by apply user_verify_answer.
  - cbn [app]. rewrite user_verify_other by done. rewrite IH. eauto.
Qed.

Lemma user_verify_eof msg default stdin :
  Forall (fun l => l ∉ answers) stdin ->
  exists written, _user_verify msg default stdin = (Raise EOFError, [], written).
Proof.
  induction 1 as [|l stdin Hl _ [written IH]]; [by eexists |].
  rewrite user_verify_other by done. rewrite IH. eauto.
Qed.

Lemma stdin_cases (stdin : list string) :
  Forall (fun l => l ∉ answers) stdin
  \/ exists others a rest,
       stdin = others ++ a :: rest
       /\ Forall (fun l => l ∉ answers) others /\ a ∈ answers.
Proof.
  induction stdin as [|l stdin IH]; [by left |].
  destruct (decide (l ∈ answers)) as [Hl | Hl].
  - right. by exists [], l, stdin.
  - destruct IH as [Hall | (others & a & rest & -> & Hothers & Ha)].
    + left. by constructor.
    + right. exists (l :: others), a, rest. repeat split; [by constructor | done].
Qed.

Lemma decision_false_true a :
  a ∈ answers -> decision false a = true -> a = "y" \/ a = "Y".
Proof.
  unfold answers, decision. rewrite !elem_of_cons, elem_of_nil.
  intros [-> | [-> | [-> | [-> | [-> | []]]]]]; cbn; auto; discriminate.
Qed.

(** X21.  [_cluster_delete] asks before it deletes, and the default is not
    to.  A request to delete the cluster is made only when the first
    answer the user gives among the known ones is [y] or [Y]; when it is
    the empty line, [n] or [N], the function returns with the later lines
    unread, makes no request and logs nothing. *)
Theorem cluster_delete_asks_first {W PyObj} `{!Backend W PyObj}
    (fuel : nat) (stdin : list string) (w : W) :
  (Called req_delete_cluster ∈ events (_cluster_delete fuel stdin w) ->
   exists others a rest,
     stdin = others ++ a :: rest
     /\ Forall (fun l => l ∉ answers) others
     /\ (a = "y" \/ a = "Y"))
  /\ (forall others a rest,
        stdin = others ++ a :: rest ->
        Forall (fun l => l ∉ answers) others ->
        a ∈ [""; "n"; "N"] ->
        events (_cluster_delete fuel stdin w) = []
        /\ final (_cluster_delete fuel stdin w) = w
        /\ exists written,
             result (_cluster_delete fuel stdin w) = Ret (rest, written)).
Proof.
  split.
  - intros Hdel.
    destruct (stdin_cases stdin)
      as [Hall | (others & a & rest & -> & Hothers & Ha)].
    + exfalso. revert Hdel. unfold _cluster_delete. rewrite run_call_bind.
      destruct (user_verify_eof
                  ("Are you sure you want to delete " +:+ cluster_name w
                   +:+ "?") false stdin Hall) as [written ->].
      by intros ?%elem_of_nil.
    + exists others, a, rest. split; [done |]. split; [done |].
      apply decision_false_true; [done |].
      revert Hdel. unfold _cluster_delete. rewrite run_call_bind.
      destruct (user_verify_decides
                  ("Are you sure you want to delete " +:+ cluster_name w
                   +:+ "?") false others a rest Hothers Ha) as [written ->].
      destruct (decision false a); [done |]. by intros ?%elem_of_nil.
  - intros others a rest -> Hothers Ha.
    assert (Hans : a ∈ answers).
    { unfold answers. revert Ha. rewrite !elem_of_cons. tauto. }
    assert (Hno : decision false a = false).
    { revert Ha. rewrite !elem_of_cons, elem_of_nil.
      by intros [-> | [-> | [-> | []]]]. }
    unfold _cluster_delete. rewrite run_call_bind.
    destruct (user_verify_decides
                ("Are you sure you want to delete " +:+ cluster_name w
                 +:+ "?") false others a rest Hothers Hans) as [written ->].
    rewrite Hno. repeat split. by exists written.
Qed.

Lemma cluster_delete_asks_first_witness :
  events (_cluster_delete 5 ["yes"; ""; "y"] mock_deleting) = []
  /\ final (_cluster_delete 5 ["yes"; ""; "y"] mock_deleting) = mock_deleting
  /\ exists written,
       result (_cluster_delete 5 ["yes"; ""; "y"] mock_deleting)
       = Ret (["y"], written).
Proof.
  apply (proj2 (cluster_delete_asks_first (W := Mock) (PyObj := unit) 5
                  ["yes"; ""; "y"] mock_deleting) ["yes"] "" ["y"]).
  - reflexivity.
  - repeat constructor. unfold answers. by not_among.
  - apply list_elem_of_here.
Defined.

Example cluster_delete_confirmed :
  Called req_delete_cluster
  ∈ events (_cluster_delete 5 ["Y"] mock_deleting).
Proof. vm_compute. apply list_elem_of_here. Qed.

(** ** Dropping the [None] values *)

Lemma pyval_ind (P : pyval -> Prop) :
  P PNone ->
  (forall a, P (PAtom a)) ->
  (forall d, Forall (fun kv => P kv.2) d -> P (PDict d)) ->
  (forall l, Forall P l -> P (PList l)) ->
  forall v, P v.
Proof.
  intros HN HA HD HL. fix IH 1. intros [|a|d|l].
  - exact HN.
  - exact (HA a).
  - apply HD. induction d as [|[k v] d IHd]; constructor; [apply IH | exact IHd].
  - apply HL. induction l as [|x l IHl]; constructor; [apply IH | exact IHl].
Qed.

Lemma nonnull_value_dict d : nonnull_value (PDict d) = PDict (nonnull_dict d).
Proof.
  cbn [nonnull_value]. f_equal. unfold nonnull_dict.
  generalize (@nil (string * pyval)).
  induction d as [|[k v] d IH]; intros nnd; [done |].
  cbn [fold_left]. rewrite IH. f_equal. by destruct v.
Qed.

Lemma settled_dict d :
  settled (PDict d)
  <-> NoDup d.*1 /\ Forall (fun kv => kv.2 <> PNone /\ settled kv.2) d.
Proof.
  cbn [settled]. apply and_iff_compat_l.
  induction d as [|[k v] d IH]; cbn [fold_right].
  - split; [by constructor | done].
  - rewrite Forall_cons, IH. done.
Qed.

Lemma settled_list l :
  settled (PList l)
  <-> Forall (fun x => match x with PDict _ => settled x | _ => True end) l.
Proof.
  cbn [settled]. induction l as [|x l IH]; cbn [fold_right].
  - split; [by constructor | done].
  - by rewrite Forall_cons, IH.
Qed.

Section DictSet.
Context {V : Type}.

Lemma dict_set_fresh (d : PyDict.t string V) k v :
  k ∉ PyDict.keys d -> PyDict.set k v d = d ++ [(k, v)].
Proof.
  unfold PyDict.keys. induction d as [|[k0 v0] d IH]; [done |].
  cbn [fmap list_fmap fst]. intros Hk. apply not_elem_of_cons in Hk as [Hne Hk].
  cbn [PyDict.set]. rewrite decide_False by done. cbn [app]. by rewrite IH.
Qed.

Lemma dict_set_keys (d : PyDict.t string V) k v :
  PyDict.keys (PyDict.set k v d)
  = if decide (k ∈ PyDict.keys d) then PyDict.keys d
    else PyDict.keys d ++ [k].
Proof.
  unfold PyDict.keys. induction d as [|[k0 v0] d IH]; [done |].
  cbn [PyDict.set fmap list_fmap fst].
  destruct (decide (k = k0)) as [-> | Hne].
  - cbn [fmap list_fmap fst]. rewrite decide_True; [done |].
    apply list_elem_of_here.
  - cbn [fmap list_fmap fst]. rewrite IH.
    destruct (decide (k ∈ d.*1)) as [Hin | Hnin].
    + rewrite decide_True; [done |]. by apply list_elem_of_further.
    + rewrite decide_False; [done |].
      intros [? | ?]%elem_of_cons; done.
Qed.

Lemma dict_set_NoDup (d : PyDict.t string V) k v :
  NoDup (PyDict.keys d) -> NoDup (PyDict.keys (PyDict.set k v d)).
Proof.
  intros Hd. rewrite dict_set_keys. case_decide; [done |].
  apply NoDup_app. split; [done |]. split; [| apply NoDup_singleton].
  intros x Hx ->%list_elem_of_singleton. done.
Qed.

Lemma dict_set_Forall (Q : V -> Prop) (d : PyDict.t string V) k v :
  Forall (fun kv => Q kv.2) d -> Q v ->
  Forall (fun kv => Q kv.2) (PyDict.set k v d).
Proof.
  intros Hd Hv. induction Hd as [|[k0 v0] d Hkv Hd IH]; cbn [PyDict.set].
  - by repeat constructor.
  - case_decide; constructor; done.
Qed.

Lemma dict_set_elem_of (d : PyDict.t string V) k v k' :
  k' ∈ PyDict.keys (PyDict.set k v d) <-> k' = k \/ k' ∈ PyDict.keys d.
Proof.
  rewrite dict_set_keys. case_decide as Hin.
  - split; [by right | by intros [-> | ?]].
  - rewrite elem_of_app, list_elem_of_singleton. tauto.
Qed.

End DictSet.

Lemma nonnull_elem_dict x :
  nonnull_elem x = match x with PDict _ => nonnull_kept x | _ => x end.
Proof. by destruct x. Qed.

(** A settled value is stored as it is. *)
Lemma nonnull_fold_settled d nnd :
  Forall (fun kv => kv.2 <> PNone /\ nonnull_kept kv.2 = kv.2) d ->
  NoDup (PyDict.keys nnd ++ d.*1) ->
  fold_left nonnull_step d nnd = nnd ++ d.
Proof.
  intros Hd. revert nnd. induction Hd as [|[k v] d [Hv Hkept] _ IH];
    intros nnd Hnodup; [by rewrite app_nil_r |].
  cbn [fold_left]. cbn [fmap list_fmap fst] in Hnodup.
  assert (Hstep : nonnull_step nnd (k, v) = nnd ++ [(k, v)]).
  { unfold nonnull_step. cbn [fst snd] in *.
    apply NoDup_app in Hnodup as (_ & Hfresh & _).
    assert (Hk : k ∉ PyDict.keys nnd).
    { intros Hin. apply (Hfresh k Hin). apply list_elem_of_here. }
    destruct v; [done | ..]; rewrite Hkept; by apply dict_set_fresh. }
  rewrite Hstep, IH.
  - by rewrite <- app_assoc.
  - unfold PyDict.keys. rewrite fmap_app. cbn [fmap list_fmap fst].
    by rewrite <- app_assoc.
Qed.

Lemma nonnull_kept_settled v : settled v -> nonnull_kept v = v.
Proof.
  induction v as [|a|d IH|l IH] using pyval_ind; [done | done | |].
  - intros [Hnodup Hd]%settled_dict. cbn [nonnull_kept].
    rewrite nonnull_value_dict. f_equal. unfold nonnull_dict.
    rewrite nonnull_fold_settled; [done | | done].
    rewrite Forall_forall in IH, Hd. apply Forall_forall. intros kv Hin.
    destruct (Hd kv Hin) as [Hne Hs]. split; [done |]. by apply IH.
  - intros Hl%settled_list. cbn [nonnull_kept]. f_equal.
    induction l as [|x l IHl]; [done |].
    apply Forall_cons in IH as [IHx IH]. apply Forall_cons in Hl as [Hx Hl].
    cbn [List.map]. rewrite IHl by done. f_equal.
    rewrite nonnull_elem_dict. destruct x; try done. by apply IHx.
Qed.

Lemma nonnull_fold_invariant (Q : pyval -> Prop) d nnd :
  Forall (fun kv => kv.2 <> PNone -> Q (nonnull_kept kv.2)) d ->
  Forall (fun kv => Q kv.2) nnd -> NoDup (PyDict.keys nnd) ->
  Forall (fun kv => Q kv.2) (fold_left nonnull_step d nnd)
  /\ NoDup (PyDict.keys (fold_left nonnull_step d nnd)).
Proof.
  intros Hd. revert nnd. induction Hd as [|[k v] d Hv _ IH];
    intros nnd Hnnd Hnodup; [done |].
  cbn [fold_left]. cbn [snd] in Hv. apply IH.
  - unfold nonnull_step. cbn [fst snd].
    destruct v; [done | ..]; apply dict_set_Forall; try done; by apply Hv.
  - unfold nonnull_step. cbn [fst snd].
    destruct v; [done | ..]; by apply dict_set_NoDup.
Qed.

Lemma nonnull_kept_not_none v : v <> PNone -> nonnull_kept v <> PNone.
Proof. by destruct v. Qed.

Lemma nonnull_kept_is_settled v : settled (nonnull_kept v).
Proof.
  induction v as [|a|d IH|l IH] using pyval_ind; [done | done | |].
  - cbn [nonnull_kept]. rewrite nonnull_value_dict. apply settled_dict.
    unfold nonnull_dict.
    destruct (nonnull_fold_invariant
                (fun v => v <> PNone /\ settled v) d []) as [Hall Hnodup].
    + eapply Forall_impl; [exact IH |]. intros [k v] Hs Hne. cbn [snd] in *.
      split; [by apply nonnull_kept_not_none | done].
    + constructor.
    + constructor.
    + done.
  - cbn [nonnull_kept]. apply settled_list.
    induction IH as [|x l Hx _ IHl]; [constructor |].
    cbn [List.map]. constructor; [| done].
    rewrite nonnull_elem_dict. by destruct x.
Qed.

Lemma nonnull_fold_keys d nnd k :
  k ∈ PyDict.keys (fold_left nonnull_step d nnd)
  <-> k ∈ PyDict.keys nnd \/ exists v, (k, v) ∈ d /\ v <> PNone.
Proof.
  revert nnd. induction d as [|[k0 v0] d IH]; intros nnd.
  - cbn [fold_left]. split; [by left |].
    intros [? | (v & ?%elem_of_nil & _)]; done.
  - cbn [fold_left]. rewrite IH.
    assert (Hstep :
              k ∈ PyDict.keys (nonnull_step nnd (k0, v0))
              <-> k ∈ PyDict.keys nnd \/ (k = k0 /\ v0 <> PNone)).
    { unfold nonnull_step. cbn [fst snd].
      destruct v0; [by intuition | ..]; rewrite dict_set_elem_of;
        intuition congruence. }
    rewrite Hstep. split.
    + intros [[? | [-> Hne]] | (v & Hin & Hne)]; [by left | right .. ].
      * exists v0. split; [apply list_elem_of_here | done].
      * exists v. split; [by apply list_elem_of_further | done].
    + intros [? | (v & [[= -> ->] | Hin]%elem_of_cons & Hne)];
        [by left; left | by left; right | right; eauto].
Qed.

(** X22.  What [nonnull_dict] returns is settled: no key appears twice, no
    value is [None], and the same holds in every dictionary it reaches
    through values and through the elements of lists.  The dictionaries it
    leaves as they are are exactly the settled ones, so applying it twice
    is applying it once.  The keys it keeps are the keys given with a
    value other than [None]. *)
Theorem nonnull_dict_correct (d : PyDict.t string pyval) :
  settled (PDict (nonnull_dict d))
  /\ (nonnull_dict d = d <-> settled (PDict d))
  /\ nonnull_dict (nonnull_dict d) = nonnull_dict d
  /\ (forall k,
        k ∈ PyDict.keys (nonnull_dict d)
        <-> exists v, (k, v) ∈ d /\ v <> PNone).
Proof.
  assert (Hs : settled (PDict (nonnull_dict d))).
  { rewrite <- nonnull_value_dict. apply (nonnull_kept_is_settled (PDict d)). }
  assert (Hfix : forall d', settled (PDict d') -> nonnull_dict d' = d').
  { intros d' Hd'. apply nonnull_kept_settled in Hd'.
    cbn [nonnull_kept] in Hd'. rewrite nonnull_value_dict in Hd'.
    by injection Hd'. }
  split; [done |]. split; [| split].
  - split; [by intros <- | apply Hfix].
  - by apply Hfix.
  - intros k. unfold nonnull_dict. rewrite nonnull_fold_keys.
    split; [by intros [?%elem_of_nil | ?] | by right].
Qed.

Lemma nonnull_dict_correct_witness :
  nonnull_dict [("name", PAtom "job"); ("spec", PDict [("args", PList [])])]
  = [("name", PAtom "job"); ("spec", PDict [("args", PList [])])].
Proof.
  apply (proj2 (proj1 (proj2 (nonnull_dict_correct
                                [("name", PAtom "job");
                                 ("spec", PDict [("args", PList [])])])))).
  cbn. repeat split; try done; repeat (constructor; [by not_among |]);
    constructor.
Defined.

Example nonnull_dict_reaches :
  nonnull_dict
    [("name", PAtom "job"); ("labels", PNone);
     ("spec", PDict [("args", PList [PDict [("a", PNone); ("b", PAtom "1")];
                                     PNone;
                                     PList [PDict [("c", PNone)]]]);
                     ("env", PNone)])]
  = [("name", PAtom "job");
     ("spec", PDict [("args", PList [PDict [("b", PAtom "1")];
                                     PNone;
                                     PList [PDict [("c", PNone)]]])])].
Proof. reflexivity. Qed.

(** ** Runs of a command *)

Section CmdRuns.
Context {W : Type}.

Lemma cmd_bind_run {A B} (m : Cmd W A) (k : A -> Cmd W B) stdin w :
  (m ≫= k) stdin w =
  match m stdin w with
  | (Ret a, stdin1, w1, tr1) =>
      match k a stdin1 w1 with
      | (r, stdin2, w2, tr2) => (r, stdin2, w2, tr1 ++ tr2)
      end
  | (Raise e, stdin1, w1, tr1) => (Raise e, stdin1, w1, tr1)
  | (Diverge, stdin1, w1, tr1) => (Diverge, stdin1, w1, tr1)
  end.
Proof. reflexivity. Qed.

Lemma cmd_trace_bind {A B} (m : Cmd W A) (k : A -> Cmd W B) stdin w x :
  x ∈ cmd_trace ((m ≫= k) stdin w) ->
  x ∈ cmd_trace (m stdin w)
  \/ exists a,
       cmd_result (m stdin w) = Ret a
       /\ x ∈ cmd_trace
                (k a (cmd_unread (m stdin w)) (cmd_final (m stdin w))).
Proof.
  rewrite cmd_bind_run. unfold cmd_trace, cmd_result, cmd_unread, cmd_final.
  destruct (m stdin w) as [[[[a|e|] stdin1] w1] tr1]; cbn; [| by left ..].
  destruct (k a stdin1 w1) as [[[r stdin2] w2] tr2] eqn:Hk. cbn.
  intros [? | ?]%elem_of_app; [by left | right].
  exists a. by rewrite Hk.
Qed.

Lemma cmd_result_bind {A B} (m : Cmd W A) (k : A -> Cmd W B) stdin w :
  cmd_result ((m ≫= k) stdin w) =
  match cmd_result (m stdin w) with
  | Ret a =>
      cmd_result (k a (cmd_unread (m stdin w)) (cmd_final (m stdin w)))
  | Raise e => Raise e
  | Diverge => Diverge
  end.
Proof.
  rewrite cmd_bind_run. unfold cmd_result, cmd_unread, cmd_final.
  destruct (m stdin w) as [[[[a|e|] stdin1] w1] tr1]; cbn; [| done ..].
  by destruct (k a stdin1 w1) as [[[r stdin2] w2] tr2].
Qed.

Section Always.
Variable P : Act -> Prop.

Lemma cmd_always_ret {A} (a : A) : cmd_always P (mret a : Cmd W A).
Proof. intros stdin w. constructor. Qed.

Lemma cmd_always_lift {A} (o : outcome A) : cmd_always P (cmd_lift o : Cmd W A).
Proof. intros stdin w. constructor. Qed.

Lemma cmd_always_act a : P a -> cmd_always P (cmd_act a : Cmd W unit).
Proof. intros Ha stdin w. by repeat constructor. Qed.

Lemma cmd_always_print text :
  P (Wrote (PrintLine text)) -> cmd_always P (cmd_print text : Cmd W unit).
Proof. apply cmd_always_act. Qed.

Lemma cmd_always_error text :
  P (Logged (ErrorLine text)) -> cmd_always P (cmd_error text : Cmd W unit).
Proof. apply cmd_always_act. Qed.

Lemma cmd_always_ask {A} a (f : W -> outcome A * W) :
  P (Asked a) -> cmd_always P (cmd_ask a f).
Proof.
  intros Ha stdin w. unfold cmd_trace, cmd_ask. destruct (f w).
  by repeat constructor.
Qed.

Lemma cmd_always_try {A} a (f : W -> outcome A * W) :
  P (Asked a) -> cmd_always P (cmd_try a f).
Proof.
  intros Ha stdin w. unfold cmd_trace, cmd_try. destruct (f w).
  by repeat constructor.
Qed.

Lemma cmd_always_call {A} (f : W -> outcome A * W) : cmd_always P (cmd_call f).
Proof. intros stdin w. unfold cmd_trace, cmd_call. destruct (f w). constructor. Qed.

Lemma cmd_always_py {A} (m : Py W A) :
  (forall w, Forall (fun e => P (Did e)) (events (m w))) ->
  cmd_always P (cmd_py m).
Proof.
  intros Hm stdin w. specialize (Hm w). unfold cmd_trace, cmd_py, events in *.
  destruct (m w) as [[o w'] ev]. cbn in *. by apply Forall_fmap.
Qed.

Lemma cmd_always_log {A} (m : Log A) :
  (forall l, P (Logged l)) -> cmd_always P (cmd_log m : Cmd W A).
Proof.
  intros Hl stdin w. unfold cmd_trace, cmd_log. destruct m as [o ls]. cbn.
  apply Forall_fmap, Forall_forall. intros l _. apply Hl.
Qed.

Lemma cmd_always_user_verify msg default :
  (forall x, P (Wrote x)) -> cmd_always P (cmd_user_verify msg default : Cmd W bool).
Proof.
  intros Hx stdin w. unfold cmd_trace, cmd_user_verify.
  destruct (_user_verify msg default stdin) as [[o unread] written]. cbn.
  apply Forall_fmap, Forall_forall. intros x _. apply Hx.
Qed.

Lemma cmd_always_bind {A B} (m : Cmd W A) (k : A -> Cmd W B) :
  cmd_always P m -> (forall a, cmd_always P (k a)) -> cmd_always P (m ≫= k).
Proof.
  intros Hm Hk stdin w. specialize (Hm stdin w). rewrite cmd_bind_run.
  unfold cmd_trace in *.
  destruct (m stdin w) as [[[[a|e|] stdin1] w1] tr1]; cbn in *; try done.
  specialize (Hk a stdin1 w1).
  destruct (k a stdin1 w1) as [[[r stdin2] w2] tr2]. cbn in *.
  by apply Forall_app.
Qed.

Lemma cmd_always_for {A} (l : list A) (body : A -> Cmd W unit) :
  (forall x, cmd_always P (body x)) -> cmd_always P (cmd_for l body).
Proof.
  intros Hbody. induction l as [|x l IH]; [apply (cmd_always_ret tt) |].
  cbn [cmd_for]. apply (cmd_always_bind (body x)); [apply Hbody |].
  intros _. apply IH.
Qed.

Lemma cmd_always_elem_of {A} (m : Cmd W A) stdin w x :
  cmd_always P m -> x ∈ cmd_trace (m stdin w) -> P x.
Proof.
  intros Hm Hx. specialize (Hm stdin w). rewrite Forall_forall in Hm. auto.
Qed.

End Always.

Lemma cmd_for_print_run (names : list string) stdin (w : W) :
  cmd_for names cmd_print stdin w
  = (Ret tt, stdin, w, (fun c => Wrote (PrintLine c)) <$> names).
Proof.
  induction names as [|c names IH]; [done |].
  cbn [cmd_for]. unfold cmd_bind. cbn. by rewrite IH.
Qed.

End CmdRuns.

Section CreateRuns.
Context {W PyObj : Type} `{!Backend W PyObj} `{!CreateBackend W}.

Lemma cluster_list_always (P : Act -> Prop) :
  P (Asked ask_list_clusters) -> (forall l, P (Logged l)) ->
  cmd_always P Cluster_list.
Proof.
  intros Hask Hlog. unfold Cluster_list.
  apply cmd_always_bind; [apply cmd_always_call |]. intros [[]|].
  - apply cmd_always_bind; [by apply cmd_always_try |]. intros answer.
    apply cmd_always_bind; [by apply cmd_always_log |]. intros clusters.
    apply cmd_always_ret.
  - apply cmd_always_bind; [by apply cmd_always_error |]. intros _.
    apply cmd_always_ret.
Qed.

Lemma cluster_list_unread stdin (w : W) :
  cmd_unread (Cluster_list stdin w) = stdin.
Proof.
  unfold Cluster_list, cmd_unread.
  cbv beta iota zeta delta
    [mbind mret Cmd_bind Cmd_ret cmd_bind cmd_ret cmd_call cmd_try cmd_log
     cmd_error cmd_act].
  destruct (cluster_manager_client w) as [[[[]|]|e|] w0]; cbn; try done.
  destruct (list_clusters w0) as [o w1]. cbn.
  destruct (_get_gcp_clusters str_of_exception o) as [[cs|e|] ls]; done.
Qed.

End CreateRuns.

(** ** Creating a cluster *)

Ltac cmd_quiet :=
  repeat first
    [ apply cmd_always_ret
    | apply cmd_always_lift
    | apply cmd_always_print; cbv beta; done
    | apply cmd_always_error; cbv beta; done
    | apply cmd_always_ask; cbv beta; done
    | apply cmd_always_try; cbv beta; done
    | apply cmd_always_call
    | apply cmd_always_py; intros ?; apply Forall_forall; intros ? _;
      cbv beta; done
    | apply cmd_always_log; cbv beta; done
    | apply cmd_always_user_verify; cbv beta; done
    | apply cmd_always_for; intros ?
    | apply cmd_always_bind; [| intros ?]
    | case_match ].

Ltac never_in Hin :=
  exfalso;
  match type of Hin with
  | ?x ∈ _ =>
      eapply (cmd_always_elem_of (fun a => a <> x)) in Hin;
      [by apply Hin | try cmd_quiet]
  end.

Lemma user_verify_confirmed msg stdin unread written :
  _user_verify msg false stdin = (Ret true, unread, written) ->
  exists others a rest,
    stdin = others ++ a :: rest
    /\ Forall (fun l => l ∉ answers) others
    /\ (a = "y" \/ a = "Y").
Proof.
  intros Hrun.
  destruct (stdin_cases stdin)
    as [Hall | (others & a & rest & -> & Hothers & Ha)].
  - destruct (user_verify_eof msg false stdin Hall) as [written' Heof].
    congruence.
  - exists others, a, rest. split; [done |]. split; [done |].
    apply decision_false_true; [done |].
    destruct (user_verify_decides msg false others a rest Hothers Ha)
      as [written' Hdec].
    congruence.
Qed.

(** X23.  [_cluster_create] asks for a cluster to be created only when
    all of this holds: it is not a dry run; the zone has the form of a
    zone; the clusters of the project could be listed and none has the
    name; and either there is no cluster yet or the user, asked whether to
    create another one, answered [y] or [Y].  The request is for the
    project and the zone given, under the given name or, without one,
    [blueshift]. *)
Theorem cluster_create_asks_first {W PyObj} `{!Backend W PyObj}
    `{!CreateBackend W} (fuel : nat) (args : CreateArgs) (project_id : string)
    (stdin : list string) (w : W) (p z : string) (req : ClusterRequest) :
  Asked (ask_create_cluster p z req)
  ∈ cmd_trace (_cluster_create fuel args project_id stdin w) ->
  args.(create_dry_run) = false
  /\ p = project_id /\ z = args.(create_zone)
  /\ req.(request_name) = effective_cluster_name args
  /\ req.(request_zone) = args.(create_zone)
  /\ (exists region zone_letter,
        _parse_zone (Some args.(create_zone))
        = Ret (Some (region, zone_letter)))
  /\ exists names,
       cmd_result (Cluster_list stdin w) = Ret (Listed names)
       /\ (effective_cluster_name args ∉ names)
       /\ (names = []
           \/ exists others a rest,
                stdin = others ++ a :: rest
                /\ Forall (fun l => l ∉ answers) others
                /\ (a = "y" \/ a = "Y")).
Proof.
  intros Hin. unfold _cluster_create in Hin. cbv zeta in Hin.
  fold (effective_cluster_name args) in Hin.
  match type of Hin with
  | context [if negb _ then mret tt else ?c] => set (create := c) in Hin
  end.
  assert (Hcreate : forall stdin' w',
            (Asked (ask_create_cluster p z req)
             ∈ cmd_trace (create stdin' w')) ->
            args.(create_dry_run) = false
            /\ p = project_id /\ z = args.(create_zone)
            /\ req.(request_name) = effective_cluster_name args
            /\ req.(request_zone) = args.(create_zone)
            /\ (exists region zone_letter,
                  _parse_zone (Some args.(create_zone))
                  = Ret (Some (region, zone_letter)))).
  { clear Hin. subst create. intros stdin' w' Hin.
    apply cmd_trace_bind in Hin as [Hin | (rz & Hrz & Hin)];
      [by apply elem_of_nil in Hin |].
    change (_parse_zone (Some (create_zone args)) = Ret rz) in Hrz.
    destruct rz as [[region zone_letter]|].
    2:{ never_in Hin. }
    apply cmd_trace_bind in Hin as [Hin | (compute_api & _ & Hin)].
    { never_in Hin. }
    apply cmd_trace_bind in Hin as [Hin | (resource_limits & _ & Hin)].
    { never_in Hin. }
    apply cmd_trace_bind in Hin as [Hin | (cluster_client & _ & Hin)].
    { never_in Hin. }
    destruct cluster_client as [[]|].
    2:{ never_in Hin. }
    destruct (create_dry_run args).
    { never_in Hin. }
    apply cmd_trace_bind in Hin as [Hin | (? & _ & Hin)].
    { never_in Hin. }
    apply cmd_trace_bind in Hin as [Hin | (? & _ & Hin)].
    { never_in Hin. }
    apply cmd_trace_bind in Hin as [Hin | (rsp & _ & Hin)].
    - unfold cmd_trace, cmd_ask in Hin.
      destruct (clusters_create _ _ _ _) as [o w'']. cbn in Hin.
      apply list_elem_of_singleton in Hin. injection Hin as -> -> ->.
      cbn [request_name request_zone]. eauto 10.
    - never_in Hin. }
  apply cmd_trace_bind in Hin as [Hin | (clusters & Hlist & Hin)].
  { never_in Hin. }
  rewrite cluster_list_unread in Hin.
  apply cmd_trace_bind in Hin as [Hin | (n & Hn & Hin)];
    [by apply elem_of_nil in Hin |].
  change (len_listing clusters = Ret n) in Hn.
  destruct clusters as [| |names]; [done | done |]. injection Hn as <-.
  change (cmd_unread (cmd_lift _ _ _)) with stdin in Hin.
  change (cmd_final (cmd_lift _ ?s ?w0)) with w0 in Hin.
  case_bool_decide as Hlen.
  2:{ destruct (Hcreate _ _ Hin) as (? & ? & ? & ? & ? & ?).
      do 6 (split; [done |]). exists names. split; [done |].
      destruct names; [| done]. split; [by apply not_elem_of_nil | by left]. }
  apply cmd_trace_bind in Hin as [Hin | (exists_ & Hex & Hin)];
    [by apply elem_of_nil in Hin |].
  change (Ret (bool_decide (effective_cluster_name args ∈ names))
          = Ret exists_) in Hex.
  injection Hex as <-.
  change (cmd_unread (cmd_lift _ _ _)) with stdin in Hin.
  change (cmd_final (cmd_lift _ ?s ?w0)) with w0 in Hin.
  case_bool_decide as Hname.
  { never_in Hin. }
  apply cmd_trace_bind in Hin as [Hin | ([] & _ & Hin)].
  { never_in Hin. }
  change (cmd_unread (cmd_print _ _ _)) with stdin in Hin.
  change (cmd_final (cmd_print _ ?s ?w0)) with w0 in Hin.
  apply cmd_trace_bind in Hin as [Hin | (names' & Hnames & Hin)];
    [by apply elem_of_nil in Hin |].
  change (cmd_unread (cmd_lift _ _ _)) with stdin in Hin.
  change (cmd_final (cmd_lift _ ?s ?w0)) with w0 in Hin.
  apply cmd_trace_bind in Hin as [Hin | ([] & _ & Hin)].
  { never_in Hin. }
  rewrite cmd_for_print_run in Hin.
  change (cmd_unread (_, ?s, _, _)) with s in Hin.
  change (cmd_final (_, _, ?w0, _)) with w0 in Hin.
  apply cmd_trace_bind in Hin as [Hin | (ok & Hok & Hin)].
  { never_in Hin. }
  destruct ok; cbn [negb] in Hin.
  2:{ by apply elem_of_nil in Hin. }
  destruct (Hcreate _ _ Hin) as (? & ? & ? & ? & ? & ?).
  do 6 (split; [done |]). exists names. split; [done |]. split; [done |].
  right. unfold cmd_result, cmd_user_verify in Hok.
  destruct (_user_verify _ false stdin) as [[o unread] written] eqn:Hverify.
  cbn in Hok. subst o. by eapply user_verify_confirmed.
Qed.

Lemma cluster_create_asks_first_witness :
  create_dry_run mock_create_args = false
  /\ "project" = "project" /\ "us-central1-a" = create_zone mock_create_args
  /\ request_name mock_create_request = effective_cluster_name mock_create_args
  /\ request_zone mock_create_request = create_zone mock_create_args
  /\ (exists region zone_letter,
        _parse_zone (Some (create_zone mock_create_args))
        = Ret (Some (region, zone_letter)))
  /\ exists names,
       cmd_result (Cluster_list ["Y"] mock_creating) = Ret (Listed names)
       /\ (effective_cluster_name mock_create_args ∉ names)
       /\ (names = []
           \/ exists others a rest,
                ["Y"] = others ++ a :: rest
                /\ Forall (fun l => l ∉ answers) others
                /\ (a = "y" \/ a = "Y")).
Proof.
  apply (cluster_create_asks_first (W := Mock) (PyObj := unit) 5
           mock_create_args "project" ["Y"] mock_creating
           "project" "us-central1-a" mock_create_request).
  vm_compute.
  repeat first [apply list_elem_of_here | apply list_elem_of_further].
Defined.

(** ** Failures that [_cluster_create] does not report *)

Ltac cmd_step Hin a Ha :=
  rewrite cmd_result_bind;
  apply cmd_trace_bind in Hin as [Hin | (a & Ha & Hin)];
  [ | rewrite Ha; revert Hin;
      match goal with
      | |- context [cmd_unread ?r] => generalize (cmd_unread r) (cmd_final r)
      end;
      intros ? ? Hin ].

Section CreateFails.
Context {W PyObj : Type} `{!Backend W PyObj} `{!CreateBackend W}.

Lemma wait_logged_none fuel client name conditions sleep_sec (w : W) name' :
  LogError (error_getting_operation name')
  ∈ events (_wait_for_operation fuel client name conditions sleep_sec w) ->
  result (_wait_for_operation fuel client name conditions sleep_sec w)
  = Ret None.
Proof.
  revert w. induction fuel as [|fuel IH]; intros w.
  { cbn. by intros ?%elem_of_nil. }
  cbn [_wait_for_operation]. unfold sleep. py_run.
  destruct (client name w) as [[[r|]|e|] w1]; cbn; try by not_among.
  case_bool_decide; cbn; [by not_among |].
  specialize (IH (time_sleep sleep_sec w1)). unfold events, result in IH.
  destruct (_wait_for_operation fuel client name conditions sleep_sec
              (time_sleep sleep_sec w1)) as [[o w2] ev]; cbn in *.
  intros [? | [? | ?]%elem_of_cons]%elem_of_cons; [done | done | auto].
Qed.

Lemma resource_limits_events project_id region name (w : W) :
  Forall (fun e => Did e <> Did (LogError (error_getting_operation name)))
    (events (_generate_resource_limits project_id region w)).
Proof.
  revert w.
  change (always (fun e => Did e <> Did (LogError (error_getting_operation name)))
            (_generate_resource_limits project_id region)).
  unfold _generate_resource_limits, _get_region_quotas.
  apply always_bind.
  - apply always_bind; [by apply always_request |]. intros [quotas|] _.
    + apply always_ret.
    + apply always_bind; [by apply always_emit |]. intros _ _.
      apply always_ret.
  - intros [quotas|] _; [| apply always_ret].
    apply always_bind; [| intros limits _; apply always_ret].
    apply always_for_acc. intros limits q. apply always_lift.
Qed.

End CreateFails.

(** X24.  Two failures of the services that [_cluster_create] does not
    report but runs into.  When the clusters of the project cannot be
    listed, [Cluster.list] returns [None] or [False] and the command raises
    [TypeError] on taking its length, having asked for nothing else.  When
    the operation that creates the cluster cannot be fetched, so that
    [_wait_for_operation] logs the error and returns [None], the command
    raises [TypeError] on reading the status. *)
Theorem cluster_create_type_errors {W PyObj} `{!Backend W PyObj}
    `{!CreateBackend W} (fuel : nat) (args : CreateArgs) (project_id : string)
    (stdin : list string) (w : W) :
  (cmd_result (Cluster_list stdin w) = Ret ListedNone
   \/ cmd_result (Cluster_list stdin w) = Ret ListedFalse ->
   cmd_result (_cluster_create fuel args project_id stdin w) = Raise TypeError
   /\ forall a,
        Asked a ∈ cmd_trace (_cluster_create fuel args project_id stdin w) ->
        a = ask_list_clusters)
  /\ (forall name,
        Did (LogError (error_getting_operation name))
        ∈ cmd_trace (_cluster_create fuel args project_id stdin w) ->
        cmd_result (_cluster_create fuel args project_id stdin w)
        = Raise TypeError).
Proof.
  split.
  - intros Hlist. unfold _cluster_create. cbv zeta. split.
    + rewrite cmd_result_bind.
      destruct Hlist as [-> | ->]; by rewrite cmd_result_bind.
    + intros a Hin.
      apply cmd_trace_bind in Hin as [Hin | (clusters & Hclusters & Hin)].
      * assert (Hq : cmd_always
                         (fun x => forall a, x = Asked a -> a = ask_list_clusters)
                         (Cluster_list (W := W))).
        { apply cluster_list_always; [by intros ? [= <-] | done]. }
        by apply (cmd_always_elem_of _ _ _ _ _ Hq Hin).
      * exfalso.
        apply cmd_trace_bind in Hin as [Hin | (n & Hn & Hin)];
          [by apply elem_of_nil in Hin |].
        change (len_listing clusters = Ret n) in Hn.
        destruct Hlist as [Hlist | Hlist]; rewrite Hlist in Hclusters;
          injection Hclusters as <-; done.
  - intros name Hin. revert Hin. unfold _cluster_create. cbv zeta.
    fold (effective_cluster_name args).
    match goal with
    | |- context [if negb _ then mret tt else ?c] => set (create := c)
    end.
    assert (Hcreate : forall stdin' w',
              (Did (LogError (error_getting_operation name))
               ∈ cmd_trace (create stdin' w')) ->
              cmd_result (create stdin' w') = Raise TypeError).
    { subst create. intros stdin' w' Hin.
      cmd_step Hin rz Hrz; [by apply elem_of_nil in Hin |].
      destruct rz as [[region zone_letter]|]; [| never_in Hin].
      cmd_step Hin compute_api Hc; [never_in Hin |].
      cmd_step Hin resource_limits Hr.
      { exfalso.
        eapply (cmd_always_elem_of
                  (fun a => a <> Did (LogError (error_getting_operation name))))
          in Hin; [by apply Hin |].
        apply cmd_always_py. intros ?. apply resource_limits_events. }
      cmd_step Hin cluster_client Hcc; [never_in Hin |].
      destruct cluster_client as [[]|]; [| never_in Hin].
      destruct (create_dry_run args); [never_in Hin |].
      cmd_step Hin p1 Hp1; [never_in Hin |].
      cmd_step Hin p2 Hp2; [never_in Hin |].
      cmd_step Hin rsp Hrsp; [never_in Hin |].
      destruct rsp as [rsp|]; [| never_in Hin].
      cmd_step Hin operation_name Hop; [by apply elem_of_nil in Hin |].
      cmd_step Hin op Hwait.
      - unfold cmd_trace, cmd_py in Hin.
        unfold cmd_result, cmd_unread, cmd_final, cmd_py.
        match type of Hin with
        | context [_wait_for_operation ?f ?c ?n ?cs ?s ?w0] =>
            pose proof (wait_logged_none f c n cs s w0 name) as Hnone;
            destruct (_wait_for_operation f c n cs s w0) as [[o wn] ev]
        end.
        cbn in Hin. unfold events, result in Hnone. cbn in Hnone.
        apply list_elem_of_fmap in Hin as (e & [= <-] & Hin).
        cbn. rewrite (Hnone Hin). reflexivity.
      - cmd_step Hin rsp_status Hst; [by apply elem_of_nil in Hin |].
        never_in Hin. }
    intros Hin.
    cmd_step Hin clusters Hlist; [never_in Hin |].
    cmd_step Hin n Hn; [by apply elem_of_nil in Hin |].
    case_bool_decide; [| by apply Hcreate].
    cmd_step Hin exists_ Hex; [by apply elem_of_nil in Hin |].
    destruct exists_; [never_in Hin |].
    cmd_step Hin p Hp; [never_in Hin |].
    cmd_step Hin names Hnames; [by apply elem_of_nil in Hin |].
    cmd_step Hin f Hfor; [never_in Hin |].
    cmd_step Hin ok Hok; [never_in Hin |].
    destruct ok; cbn [negb] in *; [by apply Hcreate |].
    by apply elem_of_nil in Hin.
Qed.

Lemma cluster_create_type_errors_witness :
  cmd_result (_cluster_create 5 mock_create_args "project" ["y"]
                mock_lost_operation) = Raise TypeError.
Proof.
  apply (proj2 (cluster_create_type_errors (W := Mock) (PyObj := unit) 5
                  mock_create_args "project" ["y"] mock_lost_operation)
           "projects/project/locations/us-central1-a/operations/operation-1").
  vm_compute.
  repeat first [apply list_elem_of_here | apply list_elem_of_further].
Defined.

(** ** Listing the node pools *)

Lemma length_spaces n : String.length (spaces n) = n.
Proof. induction n as [|n IH]; [done |]. cbn. by rewrite IH. Qed.

Lemma length_ljust width s : (width <= String.length (ljust width s))%nat.
Proof. unfold ljust. rewrite length_append, length_spaces. lia. Qed.

Lemma length_FMT a b c d : (100 <= String.length (FMT a b c d))%nat.
Proof.
  unfold FMT. rewrite !length_append.
  pose proof (length_ljust 20 a). pose proof (length_ljust 20 b).
  pose proof (length_ljust 40 c). pose proof (length_ljust 20 d). lia.
Qed.

Lemma cmd_for_print_rows {W A} (f : A -> string) (l : list A) stdin (w : W) :
  cmd_for l (fun x => cmd_print (f x)) stdin w
  = (Ret tt, stdin, w, (fun x => Wrote (PrintLine (f x))) <$> l).
Proof.
  induction l as [|x l IH]; [done |].
  cbn [cmd_for]. unfold cmd_bind. cbn. by rewrite IH.
Qed.

Lemma printed_lines_rows {A} (f : A -> string) (l : list A) :
  printed_lines ((fun x => Wrote (PrintLine (f x))) <$> l) = f <$> l.
Proof.
  unfold printed_lines. induction l as [|x l IH]; [done |].
  cbn. by rewrite IH.
Qed.

Lemma node_pool_ls_run {W} `{!CreateBackend W} `{!PoolBackend W}
    stdin (w : W) :
  _node_pool_ls stdin w =
  match cluster_node_pools w with
  | (Ret None, w1) => (Ret tt, stdin, w1, [Asked ask_node_pools])
  | (Ret (Some []), w1) =>
      (Ret tt, stdin, w1,
       [Asked ask_node_pools; Wrote (PrintLine "no node pools found")])
  | (Ret (Some np), w1) =>
      match apply_daemonset_from_url _NVIDIA_DRIVER_COS_DAEMONSET_URL w1 with
      | (o, w2) =>
          (o, stdin, w2,
           [Asked ask_node_pools;
            Wrote (PrintLine
                     (FMT "NAME" "MACHINE TYPE" "ACCELERATORS" "MAX NODES"))]
           ++ ((fun p => Wrote (PrintLine (pool_row p))) <$> np)
           ++ [Asked (ask_apply_daemonset _NVIDIA_DRIVER_COS_DAEMONSET_URL)])
      end
  | (Raise e, w1) => (Raise e, stdin, w1, [Asked ask_node_pools])
  | (Diverge, w1) => (Diverge, stdin, w1, [Asked ask_node_pools])
  end.
Proof.
  unfold _node_pool_ls. rewrite cmd_bind_run. unfold cmd_ask at 1.
  destruct (cluster_node_pools w) as [[[np|]|e|] w1]; try done.
  destruct np as [|p np]; [done |].
  rewrite bool_decide_eq_false_2 by done.
  rewrite cmd_bind_run. cbn -[FMT cmd_for _NVIDIA_DRIVER_COS_DAEMONSET_URL].
  rewrite cmd_bind_run, cmd_for_print_rows.
  rewrite cmd_bind_run. unfold cmd_ask.
  destruct (apply_daemonset_from_url _ w1) as [[[]|e|] w2];
    cbn -[FMT _NVIDIA_DRIVER_COS_DAEMONSET_URL pool_row];
    by rewrite ?app_nil_r.
Qed.

(** X25.  Listing the node pools changes the cluster.  [_node_pool_ls]
    asks for the NVIDIA driver daemonset to be applied exactly when the
    cluster reports at least one node pool, after it has printed the
    heading and one row for each pool, every one of them at least a hundred
    characters wide; without node pools it prints one line or nothing and
    applies nothing. *)
Theorem node_pool_ls_applies_daemonset {W} `{!CreateBackend W}
    `{!PoolBackend W} (stdin : list string) (w : W) :
  (forall url,
     Asked (ask_apply_daemonset url) ∈ cmd_trace (_node_pool_ls stdin w)
     <-> url = _NVIDIA_DRIVER_COS_DAEMONSET_URL
         /\ exists np, (cluster_node_pools w).1 = Ret (Some np) /\ np <> [])
  /\ (forall np,
        (cluster_node_pools w).1 = Ret (Some np) -> np <> [] ->
        printed_lines (cmd_trace (_node_pool_ls stdin w))
        = FMT "NAME" "MACHINE TYPE" "ACCELERATORS" "MAX NODES"
          :: (pool_row <$> np)
        /\ Forall (fun line => (100 <= String.length line)%nat)
             (printed_lines (cmd_trace (_node_pool_ls stdin w)))).
Proof.
  rewrite node_pool_ls_run. split.
  - intros url.
    destruct (cluster_node_pools w) as [[[[|p np]|]|e|] w1];
      unfold cmd_trace; cbn [fst snd].
    + split; [by not_among | by intros (_ & np & [= <-] & ?)].
    + destruct (apply_daemonset_from_url _ w1) as [o w2]. cbn [snd]. split.
      * rewrite !elem_of_app, !elem_of_cons, list_elem_of_fmap.
        intros [[[=] | [[=] | []%elem_of_nil]]
               | [(? & [=] & _) | [[= ->] | []%elem_of_nil]]].
        split; [done |]. by exists (p :: np).
      * intros [-> _]. rewrite !elem_of_app. right. right.
        apply list_elem_of_here.
    + split; [by not_among | by intros (_ & np & [=] & _)].
    + split; [by not_among | by intros (_ & np & [=] & _)].
    + split; [by not_among | by intros (_ & np & [=] & _)].
  - intros np Hnp Hne.
    destruct (cluster_node_pools w) as [[[np'|]|e|] w1]; cbn [fst] in Hnp;
      try discriminate. injection Hnp as ->.
    destruct np as [|p np]; [done |].
    destruct (apply_daemonset_from_url _ w1) as [o w2].
    unfold cmd_trace. cbn [snd].
    assert (Hlines :
              printed_lines
                ([Asked ask_node_pools;
                  Wrote (PrintLine
                           (FMT "NAME" "MACHINE TYPE" "ACCELERATORS"
                              "MAX NODES"))]
                 ++ ((fun p => Wrote (PrintLine (pool_row p))) <$> p :: np)
                 ++ [Asked
                       (ask_apply_daemonset _NVIDIA_DRIVER_COS_DAEMONSET_URL)])
              = FMT "NAME" "MACHINE TYPE" "ACCELERATORS" "MAX NODES"
                :: (pool_row <$> p :: np)).
    { unfold printed_lines. rewrite !omap_app.
      change (omap _ ((fun p => Wrote (PrintLine (pool_row p))) <$> p :: np))
        with (printed_lines
                ((fun p => Wrote (PrintLine (pool_row p))) <$> p :: np)).
      rewrite printed_lines_rows. cbn [omap list_omap app].
      by rewrite app_nil_r. }
    rewrite Hlines. split; [done |].
    constructor; [apply length_FMT |].
    apply Forall_fmap, Forall_forall. intros q _. apply length_FMT.
Qed.

Lemma node_pool_ls_applies_daemonset_witness :
  Asked (ask_apply_daemonset _NVIDIA_DRIVER_COS_DAEMONSET_URL)
  ∈ cmd_trace (_node_pool_ls [] mock_creating).
Proof.
  apply (proj1 (node_pool_ls_applies_daemonset (W := Mock) [] mock_creating)
           _NVIDIA_DRIVER_COS_DAEMONSET_URL).
  split; [reflexivity |]. eexists. split; [reflexivity | done].
Defined.

Example node_pool_ls_rows :
  printed_lines (cmd_trace (_node_pool_ls [] mock_creating))
  = ["NAME                MACHINE TYPE        ACCELERATORS                            MAX NODES           ";
     "default-pool        n1-standard-1                                               3                   ";
     "nap-n1-standard-8-gpu1n1-standard-8       nvidia-tesla-p100(1)                    1000                "].
Proof. reflexivity. Qed.
